(** * stalkerlib: a shallow embedding of the Stalker-portal client

    The Go package [stalkerlib] (file [stalkerlib.go]) is embedded as
    state-passing functions over a client value and a network log.  The
    Go standard library and the outside world enter through an environment
    record [Env]: URL parsing, the portal as it answers on the wire, the
    time-zone database with [time.Local], and the JSON decoder's name
    folding.  Everything else (request construction, the gzip handling of
    the transport of a fresh [http.Client], JSON-to-struct decoding with
    the reuse of slice elements, [time] arithmetic and layout, the XMLTV
    document and its marshalling) is written out and computes.  DownloadChannelLogo, which moves bytes from the network to
    a file, is embedded in [Logo] over a log of file operations, with the
    path and format functions of the library in a record [Logo.Lib]. *)

From Stdlib Require Import ZArith Lia List String Ascii Bool.
Import ListNotations.
Set Warnings "-register-all".
Local Open Scope string_scope.
Local Open Scope Z_scope.

(* ===================================================================== *)
(** ** Go scalars *)
(* ===================================================================== *)

Module Int64.

Definition modulus : Z := 2 ^ 64.
Definition min_int : Z := - 2 ^ 63.
Definition max_int : Z := 2 ^ 63 - 1.

(** Two's-complement wrap-around of int64 arithmetic. *)
Definition wrap (z : Z) : Z := (z + 2 ^ 63) mod modulus - 2 ^ 63.

(** Conversion to uint64. *)
Definition to_uint (z : Z) : Z := z mod modulus.

Definition in_range (z : Z) : Prop := min_int <= z <= max_int.
Definition in_rangeb (z : Z) : bool := (min_int <=? z) && (z <=? max_int).

Definition add (a b : Z) : Z := wrap (a + b).

End Int64.

(** Decimal digits of a non-negative number, most significant first.
    [fuel] bounds the number of digits produced. *)
Fixpoint digits_aux (fuel : nat) (n : Z) (acc : string) : string :=
  match fuel with
  | O => acc
  | S k =>
      let acc' := String (ascii_of_nat (Z.to_nat (48 + n mod 10))) acc in
      if n / 10 =? 0 then acc' else digits_aux k (n / 10) acc'
  end.

Definition utoa (n : Z) : string := digits_aux 40 n "".

Fixpoint zeros (n : nat) : string :=
  match n with O => "" | S k => String "0" (zeros k) end.

(** [appendInt] of package [time]: an optional minus sign, then the
    decimal digits of [|x|] left-padded with zeros to [width]. *)
Definition appendInt (x : Z) (width : nat) : string :=
  let u := Z.abs x in
  let ds := utoa u in
  (if x <? 0 then "-" else "")
    ++ zeros (width - String.length ds) ++ ds.

(* ===================================================================== *)
(** ** Package time: locations, instants, layout "20060102150405 -0700" *)
(* ===================================================================== *)

Module Time.

(** A location as the zone database describes it: the offset (seconds
    east of UTC) in force before the first transition, and the
    transitions [(when, offset)] in increasing order of [when]. *)
Record Location := mkLocation {
  locName : string;
  locInitial : Z;
  locTx : list (Z * Z)
}.

Definition UTC : Location := mkLocation "UTC" 0 [].

(** [Location.lookup]: the offset in force at Unix time [sec]. *)
Fixpoint lookupTx (tx : list (Z * Z)) (cur : Z) (sec : Z) : Z :=
  match tx with
  | [] => cur
  | (w, off) :: rest => if w <=? sec then lookupTx rest off sec else cur
  end.

Definition lookup (l : Location) (sec : Z) : Z :=
  lookupTx (locTx l) (locInitial l) sec.

Definition secondsPerDay : Z := 86400.
Definition unixToInternal : Z :=
  (1969 * 365 + 1969 / 4 - 1969 / 100 + 1969 / 400) * secondsPerDay.
Definition internalToUnix : Z := - unixToInternal.
Definition absoluteZeroYear : Z := -292277022399.
Definition absoluteToInternal : Z := -9223371966579724800.
Definition internalToAbsolute : Z := - absoluteToInternal.

(** A [time.Time] without monotonic reading: seconds since year 1
    (field [ext]) and the location. *)
Record Time := mkTime {
  ext : Z;
  loc : Location
}.

(** [time.Unix(sec, 0)]; [local] is the package variable [time.Local]. *)
Definition Unix (local : Location) (sec : Z) : Time :=
  mkTime (Int64.add sec unixToInternal) local.

(** [t.In(loc)] *)
Definition In (t : Time) (l : Location) : Time :=
  mkTime (ext t) l.

(** [t.Unix()] *)
Definition unixSec (t : Time) : Z := Int64.add (ext t) internalToUnix.

(** [t.locabs()]: offset and absolute seconds of the wall clock. *)
Definition offsetOf (t : Time) : Z := lookup (loc t) (unixSec t).

(** [t.abs()]: the seconds since January 1 of the absolute zero year
    -292277022399, in uint64 arithmetic, as the time package counts them
    up to Go 1.22.  An instant before that year wraps around here.  From
    Go 1.23 on the package counts from March 1 of the year before, and
    the few months of instants in between are dated differently there;
    from the absolute zero year on the two count the same days. *)
Definition abs (t : Time) : Z :=
  let sec := Int64.add (unixSec t) (offsetOf t) in
  Int64.to_uint (Int64.add sec (unixToInternal + internalToAbsolute)).

Definition daysPer400Years : Z := 365 * 400 + 97.
Definition daysPer100Years : Z := 365 * 100 + 24.
Definition daysPer4Years : Z := 365 * 4 + 1.

Definition isLeap (year : Z) : bool :=
  (Z.rem year 4 =? 0) && (negb (Z.rem year 100 =? 0) || (Z.rem year 400 =? 0)).

Definition daysBefore : list Z :=
  [0; 31; 59; 90; 120; 151; 181; 212; 243; 273; 304; 334; 365].

(** The second half of [absDate]: month and day of the month from the
    day of the year (0-based) and the leap flag. *)
Definition monthDay (leap : bool) (yday : Z) : Z * Z :=
  if leap && (yday =? 31 + 29 - 1) then (2, 29)
  else
    let day := if leap && (31 + 29 - 1 <? yday) then yday - 1 else yday in
    let month := day / 31 in
    let e := nth (Z.to_nat (month + 1)) daysBefore 0 in
    if e <=? day
    then (month + 2, day - e + 1)
    else (month + 1, day - nth (Z.to_nat month) daysBefore 0 + 1).

(** The first half of [absDate]: year and day of the year, by 400-,
    100-, 4- and 1-year cycles. *)
Definition yearDay (a : Z) : Z * Z :=
  let d := a / secondsPerDay in
  let n := d / daysPer400Years in
  let y := 400 * n in
  let d := d - daysPer400Years * n in
  let n := d / daysPer100Years in
  let n := n - Z.shiftr n 2 in
  let y := y + 100 * n in
  let d := d - daysPer100Years * n in
  let n := d / daysPer4Years in
  let y := y + 4 * n in
  let d := d - daysPer4Years * n in
  let n := d / 365 in
  let n := n - Z.shiftr n 2 in
  let y := y + n in
  let d := d - 365 * n in
  (Int64.wrap (y + absoluteZeroYear), d).

Definition absDate (a : Z) : Z * Z * Z :=
  let '(year, yday) := yearDay a in
  let '(month, day) := monthDay (isLeap year) yday in
  (year, month, day).

Definition absClock (a : Z) : Z * Z * Z :=
  let sec := a mod secondsPerDay in
  let hour := sec / 3600 in
  let sec := sec - hour * 3600 in
  let min := sec / 60 in
  (hour, min, sec - min * 60).

(** The layout element [-0700]. *)
Definition formatNumTZ (offset : Z) : string :=
  let zone := Z.quot offset 60 in
  let sign := if zone <? 0 then "-" else "+" in
  let zone := if zone <? 0 then - zone else zone in
  sign ++ appendInt (Z.quot zone 60) 2 ++ appendInt (Z.rem zone 60) 2.

(** [t.Format("20060102150405 -0700")] *)
Definition formatStamp (t : Time) : string :=
  let a := abs t in
  let '(year, month, day) := absDate a in
  let '(hour, min, sec) := absClock a in
  appendInt year 4 ++ appendInt month 2 ++ appendInt day 2
    ++ appendInt hour 2 ++ appendInt min 2 ++ appendInt sec 2
    ++ " " ++ formatNumTZ (offsetOf t).

End Time.

(* ===================================================================== *)
(** ** Package net/url: query encoding *)
(* ===================================================================== *)

Module Url.

Definition byte (c : ascii) : Z := Z.of_N (N_of_ascii c).

Definition hexDigit (n : Z) : ascii :=
  ascii_of_N (Z.to_N (if n <? 10 then 48 + n else 55 + n)).

(** [shouldEscape(c, encodeQueryComponent)]: letters, digits and
    [-_.~] are kept; everything else is escaped. *)
Definition shouldEscape (c : ascii) : bool :=
  let b := byte c in
  negb (((97 <=? b) && (b <=? 122)) || ((65 <=? b) && (b <=? 90))
        || ((48 <=? b) && (b <=? 57))
        || (b =? 45) || (b =? 95) || (b =? 46) || (b =? 126)).

(** [url.QueryEscape] *)
Fixpoint QueryEscape (s : string) : string :=
  match s with
  | EmptyString => EmptyString
  | String c rest =>
      if byte c =? 32 then String "+" (QueryEscape rest)
      else if shouldEscape c
      then String "%" (String (hexDigit (byte c / 16))
                         (String (hexDigit (byte c mod 16)) (QueryEscape rest)))
      else String c (QueryEscape rest)
  end.

(** [url.Values], a map from keys to value lists, as an association list
    with one entry per key. *)
Definition Values := list (string * list string).

(** [Values.Set] *)
Fixpoint Set_ (v : Values) (key value : string) : Values :=
  match v with
  | [] => [(key, [value])]
  | (k, vs) :: rest =>
      if String.eqb k key then (k, [value]) :: rest
      else (k, vs) :: Set_ rest key value
  end.

Fixpoint insertKey (e : string * list string) (v : Values) : Values :=
  match v with
  | [] => [e]
  | e' :: rest =>
      if String.leb (fst e) (fst e') then e :: v else e' :: insertKey e rest
  end.

(** The keys in sorted order, as [Encode] visits them. *)
Definition sortKeys (v : Values) : Values := fold_right insertKey [] v.

Fixpoint encodePairs (key : string) (vs : list string) : list string :=
  match vs with
  | [] => []
  | x :: rest => (key ++ "=" ++ QueryEscape x)%string :: encodePairs key rest
  end.

Fixpoint joinAmp (l : list string) : string :=
  match l with
  | [] => EmptyString
  | [x] => x
  | x :: rest => x ++ "&" ++ joinAmp rest
  end.

(** [Values.Encode]: "k1=v1&k2=v2", sorted by key, keys and values
    query-escaped. *)
Definition Encode (v : Values) : string :=
  joinAmp (flat_map (fun e => encodePairs (QueryEscape (fst e)) (snd e))
                    (sortKeys v)).

End Url.

(* ===================================================================== *)
(** ** Package encoding/json: values and decoding into the Go structs *)
(* ===================================================================== *)

Module Json.

(** A JSON value as the decoder's scanner delivers it.  A number literal
    is [JInt] when it is an integer literal (what [strconv.ParseInt]
    accepts, before the range check) and [JReal] when it has a fraction
    or an exponent. *)
Inductive Value :=
| JNull
| JBool (b : bool)
| JInt (z : Z)
| JReal
| JString (s : string)
| JArray (l : list Value)
| JObject (ms : list (string * Value)).

Section Decode.

(** The decoder's fold of a name, under which an object key matches a
    field when no field has exactly that name. *)
Variable fold : string -> string.

Fixpoint exactIndex (names : list string) (k : string) (i : nat) : option nat :=
  match names with
  | [] => None
  | n :: rest => if String.eqb n k then Some i else exactIndex rest k (S i)
  end.

Fixpoint foldedIndex (names : list string) (k : string) (i : nat) : option nat :=
  match names with
  | [] => None
  | n :: rest =>
      if String.eqb (fold n) (fold k) then Some i else foldedIndex rest k (S i)
  end.

(** The struct field an object key is stored into: the field of that
    exact name, else the first field of the same folded name, else none
    (the member is skipped). *)
Definition fieldIndex (names : list string) (k : string) : option nat :=
  match exactIndex names k 0 with
  | Some i => Some i
  | None => foldedIndex names k 0
  end.

(** A JSON value stored into a Go string: [null] leaves the target as it
    is, a string replaces it, anything else is an UnmarshalTypeError. *)
Definition decString (j : Value) (cur : string) : option string :=
  match j with
  | JNull => Some cur
  | JString s => Some s
  | _ => None
  end.

(** A JSON value stored into a Go int64. *)
Definition decInt64 (j : Value) (cur : Z) : option Z :=
  match j with
  | JNull => Some cur
  | JInt z => if Int64.in_rangeb z then Some z else None
  | _ => None
  end.

(** The members of an object stored one after the other, in document
    order, into a struct. *)
Fixpoint decMembers {T : Type} (setField : string -> Value -> T -> option T)
    (ms : list (string * Value)) (cur : T) : option T :=
  match ms with
  | [] => Some cur
  | (k, v) :: rest =>
      match setField k v cur with
      | Some cur' => decMembers setField rest cur'
      | None => None
      end
  end.

(** A JSON value stored into a Go struct. *)
Definition decStruct {T : Type} (setField : string -> Value -> T -> option T)
    (j : Value) (cur : T) : option T :=
  match j with
  | JNull => Some cur
  | JObject ms => decMembers setField ms cur
  | _ => None
  end.

(** The elements of an array stored one after the other into the slots
    of a backing array: slot [i] starts from what the array holds at
    [i] while it holds something there, and from a zero value beyond. *)
Fixpoint decElems {T : Type} (decElem : Value -> T -> option T) (zero : T)
    (l : list Value) (cur : list T) : option (list T) :=
  match l with
  | [] => Some []
  | e :: rest =>
      match decElem e (hd zero cur), decElems decElem zero rest (tl cur) with
      | Some x, Some xs => Some (x :: xs)
      | _, _ => None
      end
  end.

(** A JSON value stored into a Go slice, given as its elements [cur] and
    what its backing array holds past its length ([spare]: elements the
    slice had before it was cut short).  [null] sets the slice to nil and
    an empty array to a new empty slice.  Any other array is decoded slot
    by slot into the backing array, a slot past the length included (the
    decoder only moves the length up and decodes into what lies there),
    and leaves the slice with exactly the decoded elements; what the
    array holds behind them stays as spare. *)
Definition decSlice {T : Type} (decElem : Value -> T -> option T) (zero : T)
    (j : Value) (cur spare : list T) : option (list T * list T) :=
  match j with
  | JNull => Some ([], [])
  | JArray [] => Some ([], [])
  | JArray l =>
      let backing := (cur ++ spare)%list in
      option_map (fun xs => (xs, skipn (List.length l) backing))
        (decElems decElem zero l backing)
  | _ => None
  end.

End Decode.

End Json.

(* ===================================================================== *)
(** ** Package net/http: requests, responses, bodies *)
(* ===================================================================== *)

Module Http.

(** What a reader of a response body observes.  [Plain j]: bytes that do
    not start with a gzip header; [j] is the first JSON value a decoder
    reads from them, [None] when it reads none (empty body, syntax error,
    read error).  [Gzip inner]: bytes that start with a valid gzip header;
    [inner] is what inflating them yields ([Plain None] for a stream that
    does not inflate).  A JSON decoder fed the compressed bytes themselves
    reads no value: no JSON text starts with the gzip magic number.
    [NoBody]: the response has no body (it declares Content-Length 0, or
    its status allows none); a reader is at its end at once. *)
Inductive Body :=
| NoBody
| Plain (j : option Json.Value)
| Gzip (inner : Body).

(** A header, keys in canonical form, as the first value of each key. *)
Definition Header := list (string * string).

(** [Header.Get]: the value stored under the key, the empty string when
    there is none. *)
Fixpoint Get (h : Header) (key : string) : string :=
  match h with
  | [] => EmptyString
  | (k, v) :: rest => if String.eqb k key then v else Get rest key
  end.

(** [Header.Set] *)
Fixpoint Set_ (h : Header) (key value : string) : Header :=
  match h with
  | [] => [(key, value)]
  | (k, v) :: rest =>
      if String.eqb k key then (k, value) :: rest
      else (k, v) :: Set_ rest key value
  end.

Record Request := mkRequest {
  Method : string;
  URL : string;
  ReqHeader : Header
}.

Record Response := mkResponse {
  StatusCode : Z;
  RespHeader : Header;
  RespBody : Body
}.

(** The outcome of [client.Do]: an error, or a response. *)
Inductive Result :=
| Failed (msg : string)
| Served (resp : Response).

(** One round trip of the log: the request sent and what came back. *)
Definition Exchange : Type := Request * Result.

(** [json.NewDecoder(r).Decode]: the first JSON value read from [r]. *)
Definition readJSON (b : Body) : option Json.Value :=
  match b with
  | Plain j => j
  | NoBody | Gzip _ => None
  end.

(** [gzip.NewReader(r)]: fails unless [r] starts with a gzip header. *)
Definition gzipNewReader (b : Body) : option Body :=
  match b with
  | NoBody | Plain _ => None
  | Gzip inner => Some inner
  end.

(** [Header.Del] *)
Fixpoint Del (h : Header) (key : string) : Header :=
  match h with
  | [] => []
  | (k, v) :: rest => if String.eqb k key then Del rest key else (k, v) :: Del rest key
  end.

(** [ascii.EqualFold]: equality up to the case of ASCII letters. *)
Definition lower (c : ascii) : ascii :=
  let b := Z.of_N (N_of_ascii c) in
  if (65 <=? b) && (b <=? 90) then ascii_of_N (Z.to_N (b + 32)) else c.

Fixpoint EqualFold (s t : string) : bool :=
  match s, t with
  | EmptyString, EmptyString => true
  | String a s', String b t' => Ascii.eqb (lower a) (lower b) && EqualFold s' t'
  | _, _ => false
  end.

(** The transport of a fresh [http.Client] (the zero [http.Client] uses
    [http.DefaultTransport], whose DisableCompression is false).  A
    request that names no Accept-Encoding and no Range and is not a HEAD
    goes out with [Accept-Encoding: gzip] added by the transport. *)
Definition asksGzip (req : Request) : bool :=
  String.eqb (Get (ReqHeader req) "Accept-Encoding") EmptyString
  && String.eqb (Get (ReqHeader req) "Range") EmptyString
  && negb (String.eqb (Method req) "HEAD").

(** The request as the server receives it. *)
Definition onWire (req : Request) : Request :=
  if asksGzip req
  then mkRequest (Method req) (URL req) (Set_ (ReqHeader req) "Accept-Encoding" "gzip")
  else req.

(** What reading yields from the body the transport puts in place of a
    compressed one: the inflated bytes; the gzip reader is made at the
    first read, so bytes without a gzip header are a read error. *)
Definition inflated (b : Body) : Body :=
  match b with
  | Gzip inner => inner
  | NoBody | Plain _ => Plain None
  end.

Definition hasBody (b : Body) : bool :=
  match b with
  | NoBody => false
  | _ => true
  end.

(** The response as the caller of [client.Do] receives it: when the
    transport itself asked for gzip and the answer has a body and is
    marked gzip, the body comes inflated and Content-Encoding and
    Content-Length are deleted; every other response is handed over as
    it came. *)
Definition received (req : Request) (resp : Response) : Response :=
  if asksGzip req && hasBody (RespBody resp)
     && EqualFold (Get (RespHeader resp) "Content-Encoding") "gzip"
  then mkResponse (StatusCode resp)
         (Del (Del (RespHeader resp) "Content-Encoding") "Content-Length")
         (inflated (RespBody resp))
  else resp.

(** One round trip through the transport over a server [wire]. *)
Definition transport (wire : Request -> Result) (req : Request) : Result :=
  match wire (onWire req) with
  | Failed msg => Failed msg
  | Served resp => Served (received req resp)
  end.

End Http.

(* ===================================================================== *)
(** ** Package encoding/xml: escaping and the indented XMLTV document *)
(* ===================================================================== *)

Module Xml.

Definition RuneError : Z := 0xFFFD.

Fixpoint bytesOf (s : string) : list Z :=
  match s with
  | EmptyString => []
  | String c rest => Url.byte c :: bytesOf rest
  end.

Fixpoint skip (n : nat) (s : string) : string :=
  match n, s with
  | S k, String _ rest => skip k rest
  | _, _ => s
  end.

(** Size of the encoding a first byte announces and the range accepted
    for its second byte (tables [first] and [acceptRanges] of
    unicode/utf8); [None] for a byte that starts no encoding. *)
Definition leading (p0 : Z) : option (nat * Z * Z) :=
  if (0xC2 <=? p0) && (p0 <=? 0xDF) then Some (2%nat, 0x80, 0xBF)
  else if p0 =? 0xE0 then Some (3%nat, 0xA0, 0xBF)
  else if p0 =? 0xED then Some (3%nat, 0x80, 0x9F)
  else if (0xE1 <=? p0) && (p0 <=? 0xEF) then Some (3%nat, 0x80, 0xBF)
  else if p0 =? 0xF0 then Some (4%nat, 0x90, 0xBF)
  else if p0 =? 0xF4 then Some (4%nat, 0x80, 0x8F)
  else if (0xF1 <=? p0) && (p0 <=? 0xF3) then Some (4%nat, 0x80, 0xBF)
  else None.

Definition cont (b : Z) : bool := (0x80 <=? b) && (b <=? 0xBF).

(** [utf8.DecodeRune]: the first rune of [p] and its width in bytes. *)
Definition DecodeRune (p : list Z) : Z * nat :=
  match p with
  | [] => (RuneError, 0%nat)
  | p0 :: _ =>
      if p0 <? 0x80 then (p0, 1%nat)
      else
        match leading p0 with
        | None => (RuneError, 1%nat)
        | Some (sz, lo, hi) =>
            if (List.length p <? sz)%nat then (RuneError, 1%nat)
            else
              let b1 := nth 1 p 0 in
              let b2 := nth 2 p 0 in
              let b3 := nth 3 p 0 in
              if (b1 <? lo) || (hi <? b1) then (RuneError, 1%nat)
              else if (sz <=? 2)%nat
              then (Z.lor (Z.shiftl (Z.land p0 0x1F) 6) (Z.land b1 0x3F), 2%nat)
              else if negb (cont b2) then (RuneError, 1%nat)
              else if (sz <=? 3)%nat
              then (Z.lor (Z.shiftl (Z.land p0 0x0F) 12)
                      (Z.lor (Z.shiftl (Z.land b1 0x3F) 6) (Z.land b2 0x3F)),
                    3%nat)
              else if negb (cont b3) then (RuneError, 1%nat)
              else (Z.lor (Z.shiftl (Z.land p0 0x07) 18)
                      (Z.lor (Z.shiftl (Z.land b1 0x3F) 12)
                         (Z.lor (Z.shiftl (Z.land b2 0x3F) 6) (Z.land b3 0x3F))),
                    4%nat)
        end
  end.

Definition isInCharacterRange (r : Z) : bool :=
  (r =? 0x09) || (r =? 0x0A) || (r =? 0x0D)
  || ((0x20 <=? r) && (r <=? 0xD7FF))
  || ((0xE000 <=? r) && (r <=? 0xFFFD))
  || ((0x10000 <=? r) && (r <=? 0x10FFFF)).

Definition chr (n : Z) : string := String (ascii_of_N (Z.to_N n)) EmptyString.

(** The replacement character U+FFFD in UTF-8. *)
Definition escFFFD : string := chr 0xEF ++ chr 0xBF ++ chr 0xBD.

(** What [escapeText] writes for one rune of width [w] at the head of [s]. *)
Definition escapeRune (r : Z) (w : nat) (s : string) : string :=
  if r =? 34 then "&#34;"
  else if r =? 39 then "&#39;"
  else if r =? 38 then "&amp;"
  else if r =? 60 then "&lt;"
  else if r =? 62 then "&gt;"
  else if r =? 9 then "&#x9;"
  else if r =? 10 then "&#xA;"
  else if r =? 13 then "&#xD;"
  else if negb (isInCharacterRange r) || ((r =? RuneError) && (w =? 1)%nat)
  then escFFFD
  else substring 0 w s.

Fixpoint escapeLoop (fuel : nat) (s : string) : string :=
  match fuel, s with
  | S k, String _ _ =>
      let '(r, w) := DecodeRune (bytesOf s) in
      escapeRune r w s ++ escapeLoop k (skip w s)
  | _, _ => EmptyString
  end.

(** [xml.EscapeText], as the encoder applies it to attribute values and
    character data.  Every step consumes at least one byte, so the length
    of [s] is fuel enough. *)
Definition EscapeText (s : string) : string := escapeLoop (String.length s) s.

Definition quote : string := chr 34.
Definition newline : string := chr 10.

(** A start tag with its attributes, in field order. *)
Fixpoint attrs (l : list (string * string)) : string :=
  match l with
  | [] => EmptyString
  | (k, v) :: rest =>
      " " ++ k ++ "=" ++ quote ++ EscapeText v ++ quote ++ attrs rest
  end.

(** A field marshalled as a child element holding character data,
    at nesting depth 2 of an indented document. *)
Definition leaf (name text : string) : string :=
  newline ++ "    <" ++ name ++ ">" ++ EscapeText text ++ "</" ++ name ++ ">".

(** An element of depth 1 with attributes and leaf children. *)
Definition element (name : string) (at_ : list (string * string))
    (children : list (string * string)) : string :=
  newline ++ "  <" ++ name ++ attrs at_ ++ ">"
    ++ String.concat EmptyString (map (fun c => leaf (fst c) (snd c)) children)
    ++ (match children with [] => EmptyString | _ => newline ++ "  " end)
    ++ "</" ++ name ++ ">".

End Xml.

(* ===================================================================== *)
(** ** The data model of stalkerlib.go *)
(* ===================================================================== *)

(** ServerConfig holds server-specific capabilities determined by probing. *)
Record ServerConfig := mkServerConfig {
  SupportsGzip : bool;
  RequiresCreateLink : bool
}.

(** StalkerClient: portal base URL, MAC address, timezone, token, and the
    probed capabilities. *)
Record StalkerClient := mkStalkerClient {
  PortalURL : string;
  MAC : string;
  Timezone : string;
  Token : string;
  Config : ServerConfig
}.

Module HandshakeResponse.
Record js := mkJs { Token : string }.
Record t := mk { Js : js }.
Definition zero : t := mk (mkJs EmptyString).
End HandshakeResponse.

Module Channel.
Record t := mk {
  ID : string;
  Name : string;
  Cmd : string;
  Logo : string
}.
Definition zero : t := mk EmptyString EmptyString EmptyString EmptyString.
End Channel.

(** A slice field is its elements and, next to it, what its backing
    array holds past its length; a zero value has neither. *)
Module ChannelListResponse.
Record js := mkJs { Channels : list Channel.t; spareChannels : list Channel.t }.
Record t := mk { Js : js }.
Definition zero : t := mk (mkJs [] []).
End ChannelListResponse.

Module CreateLinkResponse.
Record js := mkJs { Cmd : string }.
Record t := mk { Js : js }.
Definition zero : t := mk (mkJs EmptyString).
End CreateLinkResponse.

Module EPGProgram.
Record t := mk {
  ChannelID : string;
  Name : string;
  Start : Z;
  Stop : Z;
  Desc : string;
  Category : string
}.
Definition zero : t := mk EmptyString EmptyString 0 0 EmptyString EmptyString.
End EPGProgram.

Module EPGResponse.
Record js := mkJs { Programs : list EPGProgram.t; sparePrograms : list EPGProgram.t }.
Record t := mk { Js : js }.
Definition zero : t := mk (mkJs [] []).
End EPGResponse.

Module XMLTVChannel.
Record t := mk {
  ID : string;
  DisplayName : string
}.
End XMLTVChannel.

Module XMLTVProgram.
Record t := mk {
  Start : string;
  Stop : string;
  Channel : string;
  Title : string;
  Desc : string;
  Category : string
}.
End XMLTVProgram.

Record XMLTV := mkXMLTV {
  Channels : list XMLTVChannel.t;
  Programs : list XMLTVProgram.t
}.

(** NewStalkerClient: no token, both capabilities false. *)
Definition NewStalkerClient (portalURL mac timezone : string) : StalkerClient :=
  mkStalkerClient portalURL mac timezone EmptyString (mkServerConfig false false).

Definition setToken (c : StalkerClient) (tok : string) : StalkerClient :=
  mkStalkerClient (PortalURL c) (MAC c) (Timezone c) tok (Config c).

Definition setSupportsGzip (c : StalkerClient) (b : bool) : StalkerClient :=
  mkStalkerClient (PortalURL c) (MAC c) (Timezone c) (Token c)
    (mkServerConfig b (RequiresCreateLink (Config c))).

Definition setRequiresCreateLink (c : StalkerClient) (b : bool) : StalkerClient :=
  mkStalkerClient (PortalURL c) (MAC c) (Timezone c) (Token c)
    (mkServerConfig (SupportsGzip (Config c)) b).

(* ===================================================================== *)
(** ** Decoding the JSON envelopes (struct tags of stalkerlib.go) *)
(* ===================================================================== *)

Section Envelopes.

Variable fold : string -> string.

Definition setHandshakeJs (k : string) (v : Json.Value) (cur : HandshakeResponse.js)
  : option HandshakeResponse.js :=
  match Json.fieldIndex fold ["token"] k with
  | Some _ =>
      option_map HandshakeResponse.mkJs
        (Json.decString v (HandshakeResponse.Token cur))
  | None => Some cur
  end.

Definition setHandshake (k : string) (v : Json.Value) (cur : HandshakeResponse.t)
  : option HandshakeResponse.t :=
  match Json.fieldIndex fold ["js"] k with
  | Some _ =>
      option_map HandshakeResponse.mk
        (Json.decStruct setHandshakeJs v (HandshakeResponse.Js cur))
  | None => Some cur
  end.

(** Decode into [var response HandshakeResponse]. *)
Definition decodeHandshake (j : Json.Value) : option HandshakeResponse.t :=
  Json.decStruct setHandshake j HandshakeResponse.zero.

Definition setCreateLinkJs (k : string) (v : Json.Value) (cur : CreateLinkResponse.js)
  : option CreateLinkResponse.js :=
  match Json.fieldIndex fold ["cmd"] k with
  | Some _ =>
      option_map CreateLinkResponse.mkJs
        (Json.decString v (CreateLinkResponse.Cmd cur))
  | None => Some cur
  end.

Definition setCreateLink (k : string) (v : Json.Value) (cur : CreateLinkResponse.t)
  : option CreateLinkResponse.t :=
  match Json.fieldIndex fold ["js"] k with
  | Some _ =>
      option_map CreateLinkResponse.mk
        (Json.decStruct setCreateLinkJs v (CreateLinkResponse.Js cur))
  | None => Some cur
  end.

(** Decode into [var response CreateLinkResponse]. *)
Definition decodeCreateLink (j : Json.Value) : option CreateLinkResponse.t :=
  Json.decStruct setCreateLink j CreateLinkResponse.zero.

Definition setChannel (k : string) (v : Json.Value) (cur : Channel.t)
  : option Channel.t :=
  match Json.fieldIndex fold ["id"; "name"; "cmd"; "logo"] k with
  | Some 0%nat =>
      option_map (fun s => Channel.mk s (Channel.Name cur) (Channel.Cmd cur) (Channel.Logo cur))
        (Json.decString v (Channel.ID cur))
  | Some 1%nat =>
      option_map (fun s => Channel.mk (Channel.ID cur) s (Channel.Cmd cur) (Channel.Logo cur))
        (Json.decString v (Channel.Name cur))
  | Some 2%nat =>
      option_map (fun s => Channel.mk (Channel.ID cur) (Channel.Name cur) s (Channel.Logo cur))
        (Json.decString v (Channel.Cmd cur))
  | Some _ =>
      option_map (fun s => Channel.mk (Channel.ID cur) (Channel.Name cur) (Channel.Cmd cur) s)
        (Json.decString v (Channel.Logo cur))
  | None => Some cur
  end.

Definition setChannelListJs (k : string) (v : Json.Value) (cur : ChannelListResponse.js)
  : option ChannelListResponse.js :=
  match Json.fieldIndex fold ["channels"] k with
  | Some _ =>
      option_map (fun r => ChannelListResponse.mkJs (fst r) (snd r))
        (Json.decSlice (Json.decStruct setChannel) Channel.zero v
           (ChannelListResponse.Channels cur) (ChannelListResponse.spareChannels cur))
  | None => Some cur
  end.

Definition setChannelList (k : string) (v : Json.Value) (cur : ChannelListResponse.t)
  : option ChannelListResponse.t :=
  match Json.fieldIndex fold ["js"] k with
  | Some _ =>
      option_map ChannelListResponse.mk
        (Json.decStruct setChannelListJs v (ChannelListResponse.Js cur))
  | None => Some cur
  end.

(** Decode into [var response ChannelListResponse]. *)
Definition decodeChannelList (j : Json.Value) : option ChannelListResponse.t :=
  Json.decStruct setChannelList j ChannelListResponse.zero.

Definition setEPGProgram (k : string) (v : Json.Value) (cur : EPGProgram.t)
  : option EPGProgram.t :=
  let '(EPGProgram.mk ch name start stop desc cat) := cur in
  match Json.fieldIndex fold
          ["ch_id"; "name"; "start_timestamp"; "stop_timestamp"; "descr"; "category"] k
  with
  | Some 0%nat =>
      option_map (fun s => EPGProgram.mk s name start stop desc cat) (Json.decString v ch)
  | Some 1%nat =>
      option_map (fun s => EPGProgram.mk ch s start stop desc cat) (Json.decString v name)
  | Some 2%nat =>
      option_map (fun z => EPGProgram.mk ch name z stop desc cat) (Json.decInt64 v start)
  | Some 3%nat =>
      option_map (fun z => EPGProgram.mk ch name start z desc cat) (Json.decInt64 v stop)
  | Some 4%nat =>
      option_map (fun s => EPGProgram.mk ch name start stop s cat) (Json.decString v desc)
  | Some _ =>
      option_map (fun s => EPGProgram.mk ch name start stop desc s) (Json.decString v cat)
  | None => Some cur
  end.

Definition setEPGJs (k : string) (v : Json.Value) (cur : EPGResponse.js)
  : option EPGResponse.js :=
  match Json.fieldIndex fold ["programs"] k with
  | Some _ =>
      option_map (fun r => EPGResponse.mkJs (fst r) (snd r))
        (Json.decSlice (Json.decStruct setEPGProgram) EPGProgram.zero v
           (EPGResponse.Programs cur) (EPGResponse.sparePrograms cur))
  | None => Some cur
  end.

Definition setEPG (k : string) (v : Json.Value) (cur : EPGResponse.t)
  : option EPGResponse.t :=
  match Json.fieldIndex fold ["js"] k with
  | Some _ =>
      option_map EPGResponse.mk (Json.decStruct setEPGJs v (EPGResponse.Js cur))
  | None => Some cur
  end.

(** Decode into [var epgResp EPGResponse]. *)
Definition decodeEPG (j : Json.Value) : option EPGResponse.t :=
  Json.decStruct setEPG j EPGResponse.zero.

End Envelopes.

(* ===================================================================== *)
(** ** The environment, errors and the state of a run *)
(* ===================================================================== *)

(** What the program takes from outside its own source. *)
Record Env := mkEnv {
  (** [url.Parse] accepts the raw URL (so [http.NewRequest] succeeds). *)
  urlParse : string -> bool;
  (** The portal and the network up to it: what the request that
      arrives on the wire is answered with, given the round trips the
      client has made so far. *)
  wire : list Http.Exchange -> Http.Request -> Http.Result;
  (** The zone database behind [time.LoadLocation]. *)
  zoneinfo : string -> option Time.Location;
  (** The package variable [time.Local]. *)
  localZone : Time.Location;
  (** The name folding of the JSON decoder. *)
  jsonFold : string -> string
}.

(** [client.Do] on a fresh [http.Client]: what sending [req] returns to
    the caller, given the round trips made so far. *)
Definition roundTrip (E : Env) (h : list Http.Exchange) (req : Http.Request)
  : Http.Result :=
  Http.transport (wire E h) req.

Arguments roundTrip : simpl never.

(** The error a [%w] wraps. *)
Inductive Cause :=
| UrlError
| TransportError (msg : string)
| DecodeError
| GzipHeaderError
| UnknownLocation.

(** [fmt.Errorf(context + ": %w", cause)] *)
Record error := Errorf {
  context : string;
  cause : Cause
}.

(** The client (the receiver [c], mutated in place) and the log of round
    trips, oldest first. *)
Record State := mkState {
  client : StalkerClient;
  traffic : list Http.Exchange
}.

(** How a call ends: it returns a value with a nil error, it returns an
    error, or it panics (a nil pointer is dereferenced). *)
Inductive Outcome (A : Type) :=
| Ok (a : A)
| Err (e : error)
| Panic.

Arguments Ok {A} a.
Arguments Err {A} e.
Arguments Panic {A}.

Definition M (A : Type) : Type := State -> Outcome A * State.

Definition ret {A : Type} (a : A) : M A := fun st => (Ok a, st).

Definition bind {A B : Type} (m : M A) (k : A -> M B) : M B :=
  fun st =>
    match m st with
    | (Ok a, st') => k a st'
    | (Err e, st') => (Err e, st')
    | (Panic, st') => (Panic, st')
    end.

Definition fail {A : Type} (ctx : string) (c : Cause) : M A :=
  fun st => (Err (Errorf ctx c), st).

Definition panic {A : Type} : M A := fun st => (Panic, st).

Definition getClient : M StalkerClient := fun st => (Ok (client st), st).

Definition modifyClient (f : StalkerClient -> StalkerClient) : M unit :=
  fun st => (Ok tt, mkState (f (client st)) (traffic st)).

Declare Scope go_scope.
Delimit Scope go_scope with go.
Notation "x <- m ;; k" := (bind m (fun x => k))
  (at level 61, m at next level, right associativity) : go_scope.
Notation "m ;;; k" := (bind m (fun _ => k))
  (at level 61, right associativity) : go_scope.

(* ===================================================================== *)
(** ** The operations of stalkerlib.go *)
(* ===================================================================== *)

Section Client.

Variable E : Env.

Local Open Scope go_scope.

(** [http.NewRequest(method, url, nil)]; [None] is the nil request that
    comes with a non-nil error. *)
Definition NewRequest (method url : string) : option Http.Request :=
  if urlParse E url then Some (Http.mkRequest method url []) else None.

Definition setHeader (req : Http.Request) (key value : string) : Http.Request :=
  Http.mkRequest (Http.Method req) (Http.URL req)
    (Http.Set_ (Http.ReqHeader req) key value).

(** [client.Do(req)] on a fresh [http.Client]: one round trip, logged. *)
Definition Do (req : Http.Request) : M Http.Result :=
  fun st =>
    let r := roundTrip E (traffic st) req in
    (Ok r, mkState (client st) (traffic st ++ [(req, r)])%list).

(** [req.Header.Set] and the like on a request that may be nil. *)
Definition deref (req : option Http.Request) : M Http.Request :=
  match req with
  | Some q => ret q
  | None => panic
  end.

(** [time.LoadLocation] *)
Definition LoadLocation (name : string) : option Time.Location :=
  if String.eqb name EmptyString || String.eqb name "UTC" then Some Time.UTC
  else if String.eqb name "Local" then Some (localZone E)
  else zoneinfo E name.

Definition apiURL (c : StalkerClient) : string :=
  PortalURL c ++ "/stalker_portal/server/load.php".

Definition cookie (c : StalkerClient) : string :=
  "mac=" ++ MAC c ++ "; stb_lang=en; timezone=" ++ Timezone c.

Definition userAgent : string := "Mozilla/5.0 (QtEmbedded; U; Linux; C)".

(** The handshake request of Authenticate: URL, query and headers. *)
Definition handshakeRequest (c : StalkerClient) : option Http.Request :=
  let params : Url.Values :=
    [("type", ["stb"]); ("action", ["handshake"]); ("JsHttpRequest", ["1-xml"])] in
  match NewRequest "GET" (apiURL c ++ "?" ++ Url.Encode params) with
  | None => None
  | Some req =>
      let req := setHeader req "Cookie" (cookie c) in
      Some (setHeader req "User-Agent" userAgent)
  end.

(** Authenticate performs the handshake action to obtain a Bearer token. *)
Definition Authenticate : M unit :=
  c <- getClient ;;
  match handshakeRequest c with
  | None => fail "failed to create handshake request" UrlError
  | Some req =>
      r <- Do req ;;
      match r with
      | Http.Failed msg => fail "handshake request failed" (TransportError msg)
      | Http.Served resp =>
          match option_map (decodeHandshake (jsonFold E))
                  (Http.readJSON (Http.RespBody resp)) with
          | Some (Some response) =>
              modifyClient (fun c =>
                setToken c (HandshakeResponse.Token (HandshakeResponse.Js response)))
          | _ => fail "failed to parse handshake response" DecodeError
          end
      end
  end.

Definition probeParams : Url.Values :=
  [("type", ["itv"]); ("action", ["get_all_channels"]); ("gzip", ["true"]);
   ("JsHttpRequest", ["1-xml"])].

(** The first trial request of ProbeServer ("Test gzip support").  The
    error of [http.NewRequest] is dropped there, so [None] is a nil
    request. *)
Definition gzipProbeRequest (c : StalkerClient) : option Http.Request :=
  match NewRequest "GET" (apiURL c ++ "?" ++ Url.Encode probeParams) with
  | None => None
  | Some req =>
      let req := setHeader req "Accept-Encoding" "gzip" in
      Some (setHeader req "Cookie" (cookie c))
  end.

(** The second trial request of ProbeServer ("Test create_link
    requirement"), built from the same parameter map. *)
Definition linkProbeRequest (c : StalkerClient) : option Http.Request :=
  let params := Url.Set_ probeParams "action" "create_link" in
  let params := Url.Set_ params "cmd" "test_channel" in
  match NewRequest "GET" (apiURL c ++ "?" ++ Url.Encode params) with
  | None => None
  | Some req => Some (setHeader req "Cookie" (cookie c))
  end.

(** The first half of ProbeServer, "Test gzip support", for the
    receiver [c] as it is on entry. *)
Definition gzipTrial (c : StalkerClient) : M unit :=
  req <- deref (gzipProbeRequest c) ;;
  r <- Do req ;;
  match r with
  | Http.Served resp =>
      if String.eqb (Http.Get (Http.RespHeader resp) "Content-Encoding") "gzip"
      then modifyClient (fun c => setSupportsGzip c true)
      else ret tt
  | Http.Failed _ => ret tt
  end.

(** The second half of ProbeServer, "Test create_link requirement". *)
Definition linkTrial (c : StalkerClient) : M unit :=
  req <- deref (linkProbeRequest c) ;;
  r <- Do req ;;
  match r with
  | Http.Served resp =>
      if Http.StatusCode resp =? 200
      then
        match option_map (decodeCreateLink (jsonFold E))
                (Http.readJSON (Http.RespBody resp)) with
        | Some (Some response) =>
            if negb (String.eqb
                       (CreateLinkResponse.Cmd (CreateLinkResponse.Js response))
                       EmptyString)
            then modifyClient (fun c => setRequiresCreateLink c true)
            else ret tt
        | _ => ret tt
        end
      else ret tt
  | Http.Failed _ => ret tt
  end.

(** ProbeServer tests server capabilities (gzip support, create_link
    requirement). *)
Definition ProbeServer : M unit :=
  c <- getClient ;;
  gzipTrial c ;;;
  linkTrial c ;;;
  ret tt.

(** The guard that opens GetChannels, GetPlaybackURL and GetEPG:
    authenticate if no token. *)
Definition authenticateIfNoToken : M unit :=
  c <- getClient ;;
  if String.eqb (Token c) EmptyString then Authenticate else ret tt.

(** The request of GetChannels. *)
Definition channelsRequest (c : StalkerClient) : option Http.Request :=
  let params : Url.Values :=
    [("type", ["itv"]); ("action", ["get_all_channels"]); ("JsHttpRequest", ["1-xml"])] in
  let params :=
    if SupportsGzip (Config c) then Url.Set_ params "gzip" "true" else params in
  match NewRequest "GET" (apiURL c ++ "?" ++ Url.Encode params) with
  | None => None
  | Some req =>
      let req := setHeader req "Authorization" ("Bearer " ++ Token c) in
      let req := setHeader req "Cookie" (cookie c) in
      Some (if SupportsGzip (Config c) then setHeader req "Accept-Encoding" "gzip"
            else req)
  end.

(** GetChannels fetches all channels, optionally using gzip compression. *)
Definition GetChannels : M (list Channel.t) :=
  authenticateIfNoToken ;;;
  c <- getClient ;;
  match channelsRequest c with
  | None => fail "failed to create channels request" UrlError
  | Some req =>
      r <- Do req ;;
      match r with
      | Http.Failed msg => fail "channels request failed" (TransportError msg)
      | Http.Served resp =>
          reader <-
            (if SupportsGzip (Config c)
                && String.eqb (Http.Get (Http.RespHeader resp) "Content-Encoding") "gzip"
             then
               match Http.gzipNewReader (Http.RespBody resp) with
               | None => fail "failed to create gzip reader" GzipHeaderError
               | Some gz => ret gz
               end
             else ret (Http.RespBody resp)) ;;
          match option_map (decodeChannelList (jsonFold E)) (Http.readJSON reader) with
          | Some (Some response) =>
              ret (ChannelListResponse.Channels (ChannelListResponse.Js response))
          | _ => fail "failed to parse channels response" DecodeError
          end
      end
  end.

(** The create_link request of GetPlaybackURL. *)
Definition createLinkRequest (c : StalkerClient) (channelCmd : string)
  : option Http.Request :=
  let params : Url.Values :=
    [("type", ["itv"]); ("action", ["create_link"]); ("cmd", [channelCmd]);
     ("forced_storage", ["undefined"]); ("disable_ad", ["0"]);
     ("JsHttpRequest", ["1-xml"])] in
  match NewRequest "GET" (apiURL c ++ "?" ++ Url.Encode params) with
  | None => None
  | Some req =>
      let req := setHeader req "Authorization" ("Bearer " ++ Token c) in
      let req := setHeader req "Cookie" (cookie c) in
      Some (setHeader req "User-Agent" userAgent)
  end.

(** GetPlaybackURL fetches the playback URL for a channel, using
    create_link if required. *)
Definition GetPlaybackURL (channelCmd : string) : M string :=
  c <- getClient ;;
  if negb (RequiresCreateLink (Config c)) then ret channelCmd
  else
    authenticateIfNoToken ;;;
    c <- getClient ;;
    match createLinkRequest c channelCmd with
    | None => fail "failed to create playback URL request" UrlError
    | Some req =>
        r <- Do req ;;
        match r with
        | Http.Failed msg => fail "playback URL request failed" (TransportError msg)
        | Http.Served resp =>
            match option_map (decodeCreateLink (jsonFold E))
                    (Http.readJSON (Http.RespBody resp)) with
            | Some (Some response) =>
                ret (CreateLinkResponse.Cmd (CreateLinkResponse.Js response))
            | _ => fail "failed to parse playback URL response" DecodeError
            end
        end
    end.

(** [time.Unix(sec, 0).In(loc).Unix()] *)
Definition reexpress (loc : Time.Location) (sec : Z) : Z :=
  Time.unixSec (Time.In (Time.Unix (localZone E) sec) loc).

(** One turn of the loop "Adjust timestamps for timezone". *)
Definition adjustProgram (loc : Time.Location) (p : EPGProgram.t) : EPGProgram.t :=
  EPGProgram.mk (EPGProgram.ChannelID p) (EPGProgram.Name p)
    (reexpress loc (EPGProgram.Start p)) (reexpress loc (EPGProgram.Stop p))
    (EPGProgram.Desc p) (EPGProgram.Category p).

(** The request of GetEPG. *)
Definition epgRequest (c : StalkerClient) (channelID : string)
  : option Http.Request :=
  let params : Url.Values :=
    [("type", ["itv"]); ("action", ["get_epg"]); ("ch_id", [channelID]);
     ("JsHttpRequest", ["1-xml"])] in
  match NewRequest "GET" (apiURL c ++ "?" ++ Url.Encode params) with
  | None => None
  | Some req =>
      let req := setHeader req "Authorization" ("Bearer " ++ Token c) in
      Some (setHeader req "Cookie" (cookie c))
  end.

(** GetEPG fetches EPG data for a channel with timezone adjustment. *)
Definition GetEPG (channelID : string) : M (list EPGProgram.t) :=
  authenticateIfNoToken ;;;
  c <- getClient ;;
  match epgRequest c channelID with
  | None => fail "failed to create EPG request" UrlError
  | Some req =>
      r <- Do req ;;
      match r with
      | Http.Failed msg => fail "EPG request failed" (TransportError msg)
      | Http.Served resp =>
          match option_map (decodeEPG (jsonFold E))
                  (Http.readJSON (Http.RespBody resp)) with
          | Some (Some epgResp) =>
              match LoadLocation (Timezone c) with
              | None => fail ("invalid timezone " ++ Timezone c) UnknownLocation
              | Some loc =>
                  ret (map (adjustProgram loc)
                         (EPGResponse.Programs (EPGResponse.Js epgResp)))
              end
          | _ => fail "failed to parse EPG response" DecodeError
          end
      end
  end.

(** The body of the loop of ConvertEPGToXMLTV. *)
Definition toXMLTVProgram (loc : Time.Location) (p : EPGProgram.t) : XMLTVProgram.t :=
  let startTime :=
    Time.formatStamp (Time.In (Time.Unix (localZone E) (EPGProgram.Start p)) loc) in
  let stopTime :=
    Time.formatStamp (Time.In (Time.Unix (localZone E) (EPGProgram.Stop p)) loc) in
  XMLTVProgram.mk startTime stopTime (EPGProgram.ChannelID p) (EPGProgram.Name p)
    (EPGProgram.Desc p) (EPGProgram.Category p).

(** The XMLTV value ConvertEPGToXMLTV hands to the encoder. *)
Definition buildXMLTV (loc : Time.Location) (channelID : string)
    (programs : list EPGProgram.t) : XMLTV :=
  let xmltv := mkXMLTV [XMLTVChannel.mk channelID channelID] [] in
  fold_left
    (fun doc p =>
       mkXMLTV (Channels doc) (Programs doc ++ [toXMLTVProgram loc p])%list)
    programs xmltv.

(** [xml.MarshalIndent(xmltv, "", "  ")]: the root [tv], its [channel]
    elements, then its [programme] elements. *)
Definition MarshalIndent (doc : XMLTV) : string :=
  let channels :=
    map (fun ch =>
           Xml.element "channel" [("id", XMLTVChannel.ID ch)]
             [("display-name", XMLTVChannel.DisplayName ch)])
        (Channels doc) in
  let programmes :=
    map (fun p =>
           Xml.element "programme"
             [("start", XMLTVProgram.Start p); ("stop", XMLTVProgram.Stop p);
              ("channel", XMLTVProgram.Channel p)]
             [("title", XMLTVProgram.Title p); ("desc", XMLTVProgram.Desc p);
              ("category", XMLTVProgram.Category p)])
        (Programs doc) in
  "<tv>" ++ String.concat EmptyString (channels ++ programmes)%list
    ++ (match (channels ++ programmes)%list with
        | [] => EmptyString
        | _ => Xml.newline
        end)
    ++ "</tv>".

(** ConvertEPGToXMLTV converts EPG data to XMLTV format.  It reads the
    receiver's timezone and touches neither the client nor the network;
    the encoder cannot fail on a struct of strings. *)
Definition ConvertEPGToXMLTV (c : StalkerClient) (channelID : string)
    (programs : list EPGProgram.t) : Outcome string :=
  match LoadLocation (Timezone c) with
  | None => Err (Errorf ("invalid timezone " ++ Timezone c) UnknownLocation)
  | Some loc => Ok (MarshalIndent (buildXMLTV loc channelID programs))
  end.

End Client.

(* ===================================================================== *)
(** ** Vocabulary of the specification *)
(* ===================================================================== *)

(** The verdict of the gzip trial: the response's content-encoding header
    echoes gzip. *)
Definition gzipVerdict (r : Http.Result) : bool :=
  match r with
  | Http.Served resp =>
      String.eqb (Http.Get (Http.RespHeader resp) "Content-Encoding") "gzip"
  | Http.Failed _ => false
  end.

(** The verdict of the indirection trial: HTTP 200 with a JSON envelope
    whose [js.cmd] is non-empty. *)
Definition linkTrialPositive (fold : string -> string) (r : Http.Result) : Prop :=
  exists resp j response,
    r = Http.Served resp /\ Http.StatusCode resp = 200
    /\ Http.readJSON (Http.RespBody resp) = Some j
    /\ decodeCreateLink fold j = Some response
    /\ CreateLinkResponse.Cmd (CreateLinkResponse.Js response) <> EmptyString.

Definition linkVerdict (fold : string -> string) (r : Http.Result) : bool :=
  match r with
  | Http.Served resp =>
      (Http.StatusCode resp =? 200)
      && match Http.readJSON (Http.RespBody resp) with
         | Some j =>
             match decodeCreateLink fold j with
             | Some response =>
                 negb (String.eqb
                         (CreateLinkResponse.Cmd (CreateLinkResponse.Js response))
                         EmptyString)
             | None => false
             end
         | None => false
         end
  | Http.Failed _ => false
  end.

(** A server whose answers do not depend on the requests made before. *)
Definition unchangedServer (E : Env) : Prop :=
  forall h h' req, roundTrip E h req = roundTrip E h' req.

(** The object members the decoder stores into the field tagged [name]. *)
Definition named (fold : string -> string) (name : string) (m : string * Json.Value)
  : bool :=
  match Json.fieldIndex fold [name] (fst m) with
  | Some _ => true
  | None => false
  end.

(** Syntactically valid JSON that lacks a [js.<field>] member: every
    value but an object with a member [js] that is an object with a
    member [field]. *)
Definition lacksJs (fold : string -> string) (field : string) (j : Json.Value) : bool :=
  match j with
  | Json.JObject ms =>
      forallb (fun m =>
                 negb (named fold "js" m)
                 || match snd m with
                    | Json.JObject ms' => forallb (fun m' => negb (named fold field m')) ms'
                    | _ => true
                    end) ms
  | _ => true
  end.

(** The JSON values an envelope struct [{Js struct{...}}] can take in
    whatever its inner members are: [null], and an object whose [js]
    members are each [null] or an object. *)
Definition envelopeShaped (fold : string -> string) (j : Json.Value) : bool :=
  match j with
  | Json.JNull => true
  | Json.JObject ms =>
      forallb (fun m =>
                 negb (named fold "js" m)
                 || match snd m with
                    | Json.JNull | Json.JObject _ => true
                    | _ => false
                    end) ms
  | _ => false
  end.

(** Both decoded timestamps of a program are int64 values. *)
Definition int64Stamps (p : EPGProgram.t) : Prop :=
  Int64.in_range (EPGProgram.Start p) /\ Int64.in_range (EPGProgram.Stop p).

Definition isDigit (c : ascii) : bool :=
  (48 <=? Url.byte c) && (Url.byte c <=? 57).

Fixpoint allDigits (s : string) : bool :=
  match s with
  | EmptyString => true
  | String c rest => isDigit c && allDigits rest
  end.

(** The shape "YYYYMMDDHHmmss", a space, a sign, "HHMM": twenty
    characters, all digits but the space and the sign. *)
Definition isStamp (s : string) : bool :=
  (String.length s =? 20)%nat
  && allDigits (substring 0 14 s)
  && String.eqb (substring 14 1 s) " "
  && (String.eqb (substring 15 1 s) "+" || String.eqb (substring 15 1 s) "-")
  && allDigits (substring 16 4 s).

(** The calendar year of an instant in its location. *)
Definition yearOf (t : Time.Time) : Z := fst (Time.yearDay (Time.abs t)).

Definition contains (sub s : string) : bool :=
  match index 0 sub s with
  | Some _ => true
  | None => false
  end.

Definition twoDigits (s : string) : bool :=
  match s with
  | String a (String b EmptyString) => isDigit a && isDigit b
  | _ => false
  end.

Definition fourDigits (s : string) : bool :=
  match s with
  | String a (String b (String c (String d EmptyString))) =>
      isDigit a && isDigit b && isDigit c && isDigit d
  | _ => false
  end.

(** Month and day of the month of absolute time [a], as [absDate]
    computes them. *)
Definition monthDayOf (a : Z) : Z * Z :=
  Time.monthDay (Time.isLeap (fst (Time.yearDay a))) (snd (Time.yearDay a)).

(** The instant [time.Unix(sec, 0).In(loc)]. *)
Definition instant (E : Env) (loc : Time.Location) (sec : Z) : Time.Time :=
  Time.In (Time.Unix (localZone E) sec) loc.

(** A computation only ever adds round trips to the log. *)
Definition extends {A : Type} (m : M A) : Prop :=
  forall st, exists rest, traffic (snd (m st)) = (traffic st ++ rest)%list.

(* ===================================================================== *)
(** ** Sample portals and clients *)
(* ===================================================================== *)

Module Sample.

(** America/New_York around 2023: EST, with the daylight-saving
    transitions of March and November 2023 and March 2024. *)
Definition NewYork : Time.Location :=
  Time.mkLocation "America/New_York" (-18000)
    [(1678604400, -14400); (1699164000, -18000); (1710054000, -14400)].

Definition zones (name : string) : option Time.Location :=
  if String.eqb name "America/New_York" then Some NewYork else None.

(** The one check of [url.Parse] this sample keeps: no ASCII control
    character anywhere in the URL. *)
Fixpoint noControl (s : string) : bool :=
  match s with
  | EmptyString => true
  | String c rest =>
      (32 <=? Url.byte c) && negb (Url.byte c =? 127) && noControl rest
  end.

(** ASCII upper-casing, the fold of names made of ASCII letters. *)
Fixpoint upper (s : string) : string :=
  match s with
  | EmptyString => EmptyString
  | String c rest =>
      String (if (97 <=? Url.byte c) && (Url.byte c <=? 122)
              then ascii_of_N (Z.to_N (Url.byte c - 32)) else c)
             (upper rest)
  end.

Definition tokenJSON : Json.Value :=
  Json.JObject [("js", Json.JObject [("token", Json.JString "tok123")])].

Definition linkJSON : Json.Value :=
  Json.JObject [("js", Json.JObject [("cmd", Json.JString "http://cdn.example.com/live/1.ts")])].

Definition channelsJSON : Json.Value :=
  Json.JObject [("js", Json.JObject [("channels", Json.JArray
    [Json.JObject [("id", Json.JString "1"); ("name", Json.JString "A");
                   ("cmd", Json.JString "http://x"); ("logo", Json.JString "/l.png")]])])].

Definition epgJSON : Json.Value :=
  Json.JObject [("js", Json.JObject [("programs", Json.JArray
    [Json.JObject [("ch_id", Json.JString "1"); ("name", Json.JString "News");
                   ("start_timestamp", Json.JInt 1700000000);
                   ("stop_timestamp", Json.JInt 1700003600);
                   ("descr", Json.JString "Evening news");
                   ("category", Json.JString "news")]])])].

Definition ok (h : Http.Header) (b : Http.Body) : Http.Result :=
  Http.Served (Http.mkResponse 200 h b).

(** A portal that compresses the channel list when asked to, and
    resolves every create_link command. *)
Definition serve (h : list Http.Exchange) (req : Http.Request) : Http.Result :=
  let url := Http.URL req in
  if contains "action=handshake" url then ok [] (Http.Plain (Some tokenJSON))
  else if contains "action=create_link" url then ok [] (Http.Plain (Some linkJSON))
  else if contains "action=get_all_channels" url then
    if String.eqb (Http.Get (Http.ReqHeader req) "Accept-Encoding") "gzip"
    then ok [("Content-Encoding", "gzip")] (Http.Gzip (Http.Plain (Some channelsJSON)))
    else ok [] (Http.Plain (Some channelsJSON))
  else if contains "action=get_epg" url then ok [] (Http.Plain (Some epgJSON))
  else Http.Failed "unsupported action".

Definition portal : Env :=
  mkEnv noControl serve zones Time.UTC upper.

(** A portal that never compresses and answers create_link with 404. *)
Definition serveLegacy (h : list Http.Exchange) (req : Http.Request) : Http.Result :=
  let url := Http.URL req in
  if contains "action=handshake" url then ok [] (Http.Plain (Some tokenJSON))
  else if contains "action=create_link" url
  then Http.Served (Http.mkResponse 404 [] (Http.Plain None))
  else if contains "action=get_all_channels" url
  then ok [] (Http.Plain (Some channelsJSON))
  else Http.Failed "unsupported action".

Definition legacyPortal : Env :=
  mkEnv noControl serveLegacy zones Time.UTC upper.

(** A portal that compresses the channel list whether asked to or not. *)
Definition serveEager (h : list Http.Exchange) (req : Http.Request) : Http.Result :=
  let url := Http.URL req in
  if contains "action=handshake" url then ok [] (Http.Plain (Some tokenJSON))
  else if contains "action=get_all_channels" url
  then ok [("Content-Encoding", "gzip")] (Http.Gzip (Http.Plain (Some channelsJSON)))
  else Http.Failed "unsupported action".

Definition eagerPortal : Env :=
  mkEnv noControl serveEager zones Time.UTC upper.

(** A portal whose handshake answers with an envelope without a token. *)
Definition serveNoToken (h : list Http.Exchange) (req : Http.Request) : Http.Result :=
  let url := Http.URL req in
  if contains "action=handshake" url
  then ok [] (Http.Plain (Some (Json.JObject [("js", Json.JObject [])])))
  else serve h req.

Definition noTokenPortal : Env :=
  mkEnv noControl serveNoToken zones Time.UTC upper.

(** A portal that cannot be reached. *)
Definition deadPortal : Env :=
  mkEnv noControl (fun _ _ => Http.Failed "connection refused")
    zones Time.UTC upper.

Definition fresh : StalkerClient :=
  NewStalkerClient "http://example.com" "00:1A:79:18:05:75" "UTC".

Definition freshNY : StalkerClient :=
  NewStalkerClient "http://example.com" "00:1A:79:18:05:75" "America/New_York".

Definition authed : StalkerClient := setToken fresh "tok123".

Definition entry : EPGProgram.t :=
  EPGProgram.mk "1" "News" 1700000000 1700003600 "Evening news" "news".

End Sample.

(* ===================================================================== *)
(** ** DownloadChannelLogo *)
(* ===================================================================== *)

Module Logo.

(** One action on the file system. *)
Inductive FsOp :=
| MkdirAll (path : string) (perm : Z)
| Create (name : string)
| Copy (name : string) (body : Http.Body).

(** An action with its outcome: [None] for success, [Some msg] for the
    error it returned. *)
Definition FsEvent : Type := FsOp * option string.

(** What DownloadChannelLogo takes from the Go library and the operating
    system, beyond [Env]. *)
Record Lib := mkLib {
  (** [u.IsAbs()] of the URL that [url.Parse] makes of a raw string. *)
  isAbs : string -> bool;
  (** [u.String()] of that URL. *)
  urlString : string -> string;
  (** [fmt.Sprintf(format, a, b)] *)
  sprintf : string -> string -> string -> string;
  (** [filepath.Join(dir, name)] *)
  join : string -> string -> string;
  (** The error an action returns, given the actions made so far. *)
  fsError : list FsEvent -> FsOp -> option string
}.

(** The errors of DownloadChannelLogo, one per [fmt.Errorf]. *)
Inductive error :=
| NoLogoURL (channelName : string)
| InvalidLogoURL (logoURL : string)
| ConstructFailed
| DownloadFailed (url : string) (c : Cause)
| MkdirFailed (outputDir msg : string)
| CreateFailed (filename msg : string)
| SaveFailed (filename msg : string).

(** The round trips and the file-system actions made so far, oldest
    first.  The receiver is only read. *)
Record State := mkState {
  net : list Http.Exchange;
  disk : list FsEvent
}.

Section Download.

Variable E : Env.
Variable L : Lib.

(** "Build full logo URL": the raw string whose parsed form is [u] when
    the download starts; [None] when the second [url.Parse] fails. *)
Definition fullLogoURL (c : StalkerClient) (logoURL : string) : option string :=
  if isAbs L logoURL then Some logoURL
  else
    let raw := PortalURL c ++ "/stalker_portal" ++ logoURL in
    if urlParse E raw then Some raw else None.

(** "Create output directory", "Format filename", "Save file": what
    follows a served download. *)
Definition save (outputDir filenameFormat : string) (channel : Channel.t)
    (resp : Http.Response) (st : State) : option error * State :=
  let mk := MkdirAll outputDir 493 in
  let e1 := fsError L (disk st) mk in
  let st1 := mkState (net st) (disk st ++ [(mk, e1)])%list in
  match e1 with
  | Some msg => (Some (MkdirFailed outputDir msg), st1)
  | None =>
      let filename := sprintf L filenameFormat (Channel.ID channel) (Channel.Name channel) in
      let filename := join L outputDir filename in
      let cr := Create filename in
      let e2 := fsError L (disk st1) cr in
      let st2 := mkState (net st1) (disk st1 ++ [(cr, e2)])%list in
      match e2 with
      | Some msg => (Some (CreateFailed filename msg), st2)
      | None =>
          let cp := Copy filename (Http.RespBody resp) in
          let e3 := fsError L (disk st2) cp in
          let st3 := mkState (net st2) (disk st2 ++ [(cp, e3)])%list in
          match e3 with
          | Some msg => (Some (SaveFailed filename msg), st3)
          | None => (None, st3)
          end
      end
  end.

(** DownloadChannelLogo downloads a channel logo to the specified
    directory with a custom filename format.  [None] is the nil error. *)
Definition DownloadChannelLogo (c : StalkerClient)
    (logoURL outputDir filenameFormat : string) (channel : Channel.t)
    (st : State) : option error * State :=
  if String.eqb logoURL EmptyString
  then (Some (NoLogoURL (Channel.Name channel)), st)
  else if negb (urlParse E logoURL)
  then (Some (InvalidLogoURL logoURL), st)
  else
    match fullLogoURL c logoURL with
    | None => (Some ConstructFailed, st)
    | Some raw =>
        let target := urlString L raw in
        (* http.Get(u.String()) *)
        match NewRequest E "GET" target with
        | None => (Some (DownloadFailed target UrlError), st)
        | Some req =>
            let r := roundTrip E (net st) req in
            let st1 := mkState (net st ++ [(req, r)])%list (disk st) in
            match r with
            | Http.Failed msg =>
                (Some (DownloadFailed target (TransportError msg)), st1)
            | Http.Served resp => save outputDir filenameFormat channel resp st1
            end
        end
    end.

End Download.

End Logo.

(* ===================================================================== *)
(** ** Vocabulary of the further properties *)
(* ===================================================================== *)

(** The fields that only NewStalkerClient writes. *)
Definition sameIdentity (c c' : StalkerClient) : Prop :=
  PortalURL c' = PortalURL c /\ MAC c' = MAC c /\ Timezone c' = Timezone c.

(** What GetChannels, GetPlaybackURL and GetEPG may do to the client:
    fill in a missing token, nothing else. *)
Definition lazyFrame (c c' : StalkerClient) : Prop :=
  sameIdentity c c' /\ Config c' = Config c
  /\ (Token c <> EmptyString -> Token c' = Token c).

(** What ProbeServer may do to the client: raise a flag, nothing else. *)
Definition probeFrame (c c' : StalkerClient) : Prop :=
  sameIdentity c c' /\ Token c' = Token c
  /\ (SupportsGzip (Config c) = true -> SupportsGzip (Config c') = true)
  /\ (RequiresCreateLink (Config c) = true -> RequiresCreateLink (Config c') = true).

(** Every run of [m] relates the client before to the client after. *)
Definition keeps (R : StalkerClient -> StalkerClient -> Prop) {A : Type} (m : M A)
  : Prop :=
  forall st, R (client st) (client (snd (m st))).

(** Every run of [m] adds at most [n] round trips to the log. *)
Definition atMost (n : nat) {A : Type} (m : M A) : Prop :=
  forall st, exists rest,
    traffic (snd (m st)) = (traffic st ++ rest)%list /\ (List.length rest <= n)%nat.



Fixpoint allChars (f : ascii -> bool) (s : string) : bool :=
  match s with
  | EmptyString => true
  | String c rest => f c && allChars f rest
  end.

(** The envelope [{"js":{"channels":[...]}}]. *)
Definition channelsEnvelope (l : list Json.Value) : Json.Value :=
  Json.JObject [("js", Json.JObject [("channels", Json.JArray l)])].

(** How often the byte [b] occurs in [s]. *)
Fixpoint occurrences (b : Z) (s : string) : nat :=
  match s with
  | EmptyString => 0%nat
  | String c rest =>
      let here := if Url.byte c =? b then 1%nat else 0%nat in
      (here + occurrences b rest)%nat
  end.

(** The bytes that delimit markup: the double quote, [<] and [>]. *)
Definition delimiter (b : Z) : Prop := b = 34 \/ b = 60 \/ b = 62.

(** The delimiters of the root element, of one [channel] element and of
    one [programme] element: those of its tags and attribute quotes. *)
Definition rootMarkup (b : Z) : nat := if b =? 34 then 0%nat else 2%nat.
Definition channelMarkup (b : Z) : nat := if b =? 34 then 2%nat else 4%nat.
Definition programmeMarkup (b : Z) : nat := if b =? 34 then 6%nat else 8%nat.

(** Reading an XML document back, as far as the documents of this
    program go: start and end tags with their quoted attributes, and the
    character data between tags. *)
Module Reader.

Inductive event :=
| Tag (name : string) (attrs : list (string * string))
| Chars (text : string).

Inductive state :=
| InText (text : string)
| InName (name : string)
| InKey (name : string) (attrs : list (string * string)) (key : string)
| InQuote (name : string) (attrs : list (string * string)) (key : string)
| InValue (name : string) (attrs : list (string * string)) (key value : string).

Definition snoc (s : string) (c : ascii) : string := s ++ String c EmptyString.

(** One character: the state after it and the event it completes. *)
Definition step (st : state) (c : ascii) : state * list event :=
  let b := Url.byte c in
  match st with
  | InText text =>
      if b =? 60 then (InName EmptyString, [Chars text]) else (InText (snoc text c), [])
  | InName name =>
      if b =? 62 then (InText EmptyString, [Tag name []])
      else if b =? 32 then (InKey name [] EmptyString, [])
      else (InName (snoc name c), [])
  | InKey name attrs key =>
      if b =? 62 then (InText EmptyString, [Tag name attrs])
      else if b =? 61 then (InQuote name attrs key, [])
      else if b =? 32 then (InKey name attrs key, [])
      else (InKey name attrs (snoc key c), [])
  | InQuote name attrs key =>
      if b =? 34 then (InValue name attrs key EmptyString, [])
      else (InQuote name attrs key, [])
  | InValue name attrs key value =>
      if b =? 34 then (InKey name (attrs ++ [(key, value)]) EmptyString, [])
      else (InValue name attrs key (snoc value c), [])
  end.

Fixpoint scan (st : state) (doc : string) : list event :=
  match doc with
  | EmptyString => []
  | String c rest => (snd (step st c) ++ scan (fst (step st c)) rest)%list
  end.

Definition events (doc : string) : list event := scan (InText EmptyString) doc.

Fixpoint attr (key : string) (attrs : list (string * string)) : option string :=
  match attrs with
  | [] => None
  | (k, v) :: rest => if String.eqb k key then Some v else attr key rest
  end.

(** The values of attribute [key] of the elements called [name]. *)
Fixpoint attrValues (name key : string) (evs : list event) : list string :=
  match evs with
  | [] => []
  | Tag n attrs :: rest =>
      match (if String.eqb n name then attr key attrs else None) with
      | Some v => v :: attrValues name key rest
      | None => attrValues name key rest
      end
  | Chars _ :: rest => attrValues name key rest
  end.

(** The character data of the elements called [name] that hold
    character data only. *)
Fixpoint contents (name : string) (evs : list event) : list string :=
  match evs with
  | [] => []
  | Tag n _ :: rest =>
      match rest with
      | Chars text :: Tag close _ :: _ =>
          if String.eqb n name && String.eqb close ("/" ++ name)
          then text :: contents name rest
          else contents name rest
      | _ => contents name rest
      end
  | Chars _ :: rest => contents name rest
  end.

(** The state a document leaves the reader in. *)
Fixpoint run (st : state) (doc : string) : state :=
  match doc with
  | EmptyString => st
  | String c rest => run (fst (step st c)) rest
  end.

End Reader.

(** The channel ids an XMLTV document declares, the display names it
    gives them, and the channel ids its programmes refer to. *)
Definition declaredChannels (doc : string) : list string :=
  Reader.attrValues "channel" "id" (Reader.events doc).

Definition displayNames (doc : string) : list string :=
  Reader.contents "display-name" (Reader.events doc).

Definition referencedChannels (doc : string) : list string :=
  Reader.attrValues "programme" "channel" (Reader.events doc).

(** Text made of printable ASCII characters. *)
Definition printable (s : string) : bool :=
  allChars (fun c => (32 <=? Url.byte c) && (Url.byte c <? 127)) s.

(** What the reader finds in a [programme] element, in a [channel]
    element and in a whole document. *)
Definition programmeEvents (start stop channel title desc category : string)
  : list Reader.event :=
  [Reader.Chars (Xml.newline ++ "  ");
   Reader.Tag "programme" [("start", start); ("stop", stop); ("channel", channel)];
   Reader.Chars (Xml.newline ++ "    "); Reader.Tag "title" [];
   Reader.Chars title; Reader.Tag "/title" [];
   Reader.Chars (Xml.newline ++ "    "); Reader.Tag "desc" [];
   Reader.Chars desc; Reader.Tag "/desc" [];
   Reader.Chars (Xml.newline ++ "    "); Reader.Tag "category" [];
   Reader.Chars category; Reader.Tag "/category" [];
   Reader.Chars (Xml.newline ++ "  "); Reader.Tag "/programme" []].

Definition channelEvents (id name : string) : list Reader.event :=
  [Reader.Chars (Xml.newline ++ "  "); Reader.Tag "channel" [("id", id)];
   Reader.Chars (Xml.newline ++ "    "); Reader.Tag "display-name" [];
   Reader.Chars name; Reader.Tag "/display-name" [];
   Reader.Chars (Xml.newline ++ "  "); Reader.Tag "/channel" []].

(** The events of the whole document. *)
Definition documentEvents (channels : list XMLTVChannel.t)
    (programs : list XMLTVProgram.t) : list Reader.event :=
  (Reader.Chars EmptyString :: Reader.Tag "tv" []
   :: flat_map (fun ch => channelEvents (Xml.EscapeText (XMLTVChannel.ID ch))
                            (Xml.EscapeText (XMLTVChannel.DisplayName ch))) channels
   ++ flat_map (fun p =>
                  programmeEvents (Xml.EscapeText (XMLTVProgram.Start p))
                    (Xml.EscapeText (XMLTVProgram.Stop p))
                    (Xml.EscapeText (XMLTVProgram.Channel p))
                    (Xml.EscapeText (XMLTVProgram.Title p))
                    (Xml.EscapeText (XMLTVProgram.Desc p))
                    (Xml.EscapeText (XMLTVProgram.Category p))) programs
   ++ [Reader.Chars Xml.newline; Reader.Tag "/tv" []])%list.

(** What [EscapeText] writes for a printable ASCII character. *)
Definition code (c : ascii) : string :=
  let b := Url.byte c in
  if b =? 34 then "&#34;"
  else if b =? 39 then "&#39;"
  else if b =? 38 then "&amp;"
  else if b =? 60 then "&lt;"
  else if b =? 62 then "&gt;"
  else String c EmptyString.

Module MoreSamples.

(** A library for absolute [http://] URLs kept as written, a two-verb
    format filled in by position, and a disk on which everything
    succeeds. *)
Fixpoint fill (format : string) (args : list string) : string :=
  match format with
  | String "%" (String "s" rest) =>
      match args with
      | a :: args' => a ++ fill rest args'
      | [] => fill rest []
      end
  | String c rest => String c (fill rest args)
  | EmptyString => EmptyString
  end.

Definition lib : Logo.Lib :=
  Logo.mkLib (prefix "http://") (fun u => u)
    (fun format a b => fill format [a; b])
    (fun dir name => dir ++ "/" ++ name)
    (fun _ _ => None).

(** The same library over a disk that is full: nothing can be created. *)
Definition fullDisk : Logo.Lib :=
  Logo.mkLib (prefix "http://") (fun u => u)
    (fun format a b => fill format [a; b])
    (fun dir name => dir ++ "/" ++ name)
    (fun _ op => match op with
                 | Logo.MkdirAll _ _ => None
                 | _ => Some "no space left on device"
                 end).

(** A portal that has no logo: every request is answered 404. *)
Definition serve404 (h : list Http.Exchange) (req : Http.Request) : Http.Result :=
  Http.Served (Http.mkResponse 404 [] (Http.Plain None)).

Definition portal404 : Env :=
  mkEnv Sample.noControl serve404 Sample.zones Time.UTC Sample.upper.

(** A portal that answers the handshake and nothing else. *)
Definition serveHandshake (h : list Http.Exchange) (req : Http.Request)
  : Http.Result :=
  if contains "action=handshake" (Http.URL req)
  then Sample.ok [] (Http.Plain (Some Sample.tokenJSON))
  else Http.Failed "unsupported action".

Definition handshakeOnly : Env :=
  mkEnv Sample.noControl serveHandshake Sample.zones Time.UTC Sample.upper.

(** A portal that answers every request with the token envelope, with
    status 200 the first time and 500 from then on. *)
Definition serveMoody (h : list Http.Exchange) (req : Http.Request) : Http.Result :=
  Http.Served
    (Http.mkResponse (match h with [] => 200 | _ => 500 end) []
       (Http.Plain (Some Sample.tokenJSON))).

Definition moody : Env :=
  mkEnv Sample.noControl serveMoody Sample.zones Time.UTC Sample.upper.

(** A portal that answers every request with the envelope {"js":5}. *)
Definition serveScalarJs (h : list Http.Exchange) (req : Http.Request)
  : Http.Result :=
  Sample.ok [] (Http.Plain (Some (Json.JObject [("js", Json.JInt 5)]))).

Definition scalarJsPortal : Env :=
  mkEnv Sample.noControl serveScalarJs Sample.zones Time.UTC Sample.upper.

(** A client in a zone the database does not know. *)
Definition lost : StalkerClient :=
  mkStalkerClient "http://example.com" "00:1A:79:18:05:75" "Mars/Phobos" "tok123"
    (mkServerConfig false true).

Definition channel : Channel.t := Channel.mk "1" "A" "http://x" "/l.png".

Definition start : Logo.State := Logo.mkState [] [].

End MoreSamples.

(* ===================================================================== *)
(** ** The model at work *)
(* ===================================================================== *)

Example stamp_epoch :
  Time.formatStamp (Time.In (Time.Unix Time.UTC 0) Time.UTC) = "19700101000000 +0000".
Proof. vm_compute. reflexivity. Qed.

Example stamp_leap_day :
  Time.formatStamp (Time.In (Time.Unix Time.UTC 1709251199) Time.UTC)
  = "20240229235959 +0000".
Proof. vm_compute. reflexivity. Qed.

Example stamp_last_day_of_leap_year :
  Time.formatStamp (Time.In (Time.Unix Time.UTC 1735689599) Time.UTC)
  = "20241231235959 +0000".
Proof. vm_compute. reflexivity. Qed.

Example stamp_daylight_saving :
  Time.formatStamp (Time.In (Time.Unix Time.UTC 1689000000) Sample.NewYork)
  = "20230710104000 -0400".
Proof. vm_compute. reflexivity. Qed.

Example stamp_half_hour_zone :
  Time.formatStamp
    (Time.In (Time.Unix Time.UTC 0) (Time.mkLocation "Asia/Kolkata" 19800 []))
  = "19700101053000 +0530".
Proof. vm_compute. reflexivity. Qed.

Example encode_sorts_and_escapes :
  Url.Encode [("type", ["itv"]); ("cmd", ["a b&c"]); ("JsHttpRequest", ["1-xml"])]
  = "JsHttpRequest=1-xml&cmd=a+b%26c&type=itv".
Proof. vm_compute. reflexivity. Qed.

Example handshake_url :
  option_map Http.URL (handshakeRequest Sample.portal Sample.fresh)
  = Some "http://example.com/stalker_portal/server/load.php?JsHttpRequest=1-xml&action=handshake&type=stb".
Proof. vm_compute. reflexivity. Qed.

Example link_probe_url :
  option_map Http.URL (linkProbeRequest Sample.portal Sample.fresh)
  = Some "http://example.com/stalker_portal/server/load.php?JsHttpRequest=1-xml&action=create_link&cmd=test_channel&gzip=true&type=itv".
Proof. vm_compute. reflexivity. Qed.

Example decode_channel_list :
  decodeChannelList Sample.upper Sample.channelsJSON
  = Some (ChannelListResponse.mk
            (ChannelListResponse.mkJs [Channel.mk "1" "A" "http://x" "/l.png"] [])).
Proof. vm_compute. reflexivity. Qed.

Example decode_empty_channel_list :
  decodeChannelList Sample.upper
    (Json.JObject [("js", Json.JObject [("channels", Json.JArray [])])])
  = Some (ChannelListResponse.mk (ChannelListResponse.mkJs [] [])).
Proof. vm_compute. reflexivity. Qed.

Example decode_folds_names :
  decodeHandshake Sample.upper
    (Json.JObject [("JS", Json.JObject [("Token", Json.JString "t")])])
  = Some (HandshakeResponse.mk (HandshakeResponse.mkJs "t")).
Proof. vm_compute. reflexivity. Qed.

Example decode_repeated_key_reuses_elements :
  decodeChannelList Sample.upper
    (Json.JObject [("js", Json.JObject
       [("channels", Json.JArray
           [Json.JObject [("id", Json.JString "1"); ("name", Json.JString "A")]]);
        ("channels", Json.JArray [Json.JObject [("id", Json.JString "2")]])])])
  = Some (ChannelListResponse.mk
            (ChannelListResponse.mkJs [Channel.mk "2" "A" EmptyString EmptyString] [])).
Proof. vm_compute. reflexivity. Qed.

(** A slice cut short and grown again: the second element of the third
    array is decoded into the second element of the first. *)
Example decode_regrown_slice_finds_old_elements :
  option_map (fun r => ChannelListResponse.Channels (ChannelListResponse.Js r))
    (decodeChannelList Sample.upper
       (Json.JObject [("js", Json.JObject
          [("channels", Json.JArray
              [Json.JObject [("id", Json.JString "1"); ("name", Json.JString "A")];
               Json.JObject [("id", Json.JString "2"); ("name", Json.JString "B")]]);
           ("channels", Json.JArray [Json.JObject [("id", Json.JString "3")]]);
           ("channels", Json.JArray
              [Json.JObject [("id", Json.JString "4")];
               Json.JObject [("id", Json.JString "5")]])])]))
  = Some [Channel.mk "4" "A" EmptyString EmptyString;
          Channel.mk "5" "B" EmptyString EmptyString].
Proof. vm_compute. reflexivity. Qed.

(** An empty array in between makes a new slice: nothing old is found. *)
Example decode_empty_array_drops_old_elements :
  option_map (fun r => ChannelListResponse.Channels (ChannelListResponse.Js r))
    (decodeChannelList Sample.upper
       (Json.JObject [("js", Json.JObject
          [("channels", Json.JArray
              [Json.JObject [("id", Json.JString "1"); ("name", Json.JString "A")]]);
           ("channels", Json.JArray []);
           ("channels", Json.JArray [Json.JObject [("id", Json.JString "4")]])])]))
  = Some [Channel.mk "4" EmptyString EmptyString EmptyString].
Proof. vm_compute. reflexivity. Qed.

Example decode_rejects_array :
  decodeHandshake Sample.upper (Json.JArray []) = None.
Proof. reflexivity. Qed.

Example decode_rejects_scalar_js :
  decodeHandshake Sample.upper (Json.JObject [("js", Json.JInt 5)]) = None.
Proof. vm_compute. reflexivity. Qed.

Example decode_rejects_real_timestamp :
  decodeEPG Sample.upper
    (Json.JObject [("js", Json.JObject [("programs", Json.JArray
       [Json.JObject [("start_timestamp", Json.JReal)]])])])
  = None.
Proof. vm_compute. reflexivity. Qed.

Example escape_text :
  Xml.EscapeText "Tom & <Jerry>" = "Tom &amp; &lt;Jerry&gt;".
Proof. vm_compute. reflexivity. Qed.

Example convert_empty :
  ConvertEPGToXMLTV Sample.portal Sample.fresh "7" []
  = Ok ("<tv>" ++ Xml.newline
        ++ "  <channel id=" ++ Xml.quote ++ "7" ++ Xml.quote ++ ">" ++ Xml.newline
        ++ "    <display-name>7</display-name>" ++ Xml.newline
        ++ "  </channel>" ++ Xml.newline
        ++ "</tv>").
Proof. vm_compute. reflexivity. Qed.

Example convert_unknown_zone :
  ConvertEPGToXMLTV Sample.portal
    (NewStalkerClient "http://example.com" "00:1A:79:18:05:75" "Mars/Phobos") "7" []
  = Err (Errorf "invalid timezone Mars/Phobos" UnknownLocation).
Proof. vm_compute. reflexivity. Qed.

Example probe_panics_on_unparsable_portal_url :
  fst (ProbeServer Sample.portal
         (mkState (NewStalkerClient ("http://example.com" ++ Xml.newline)
                     "00:1A:79:18:05:75" "UTC") []))
  = Panic.
Proof. vm_compute. reflexivity. Qed.

(* ===================================================================== *)
(** ** int64 arithmetic and instants *)
(* ===================================================================== *)

Lemma wrap_in_range z : Int64.in_range z -> Int64.wrap z = z.
Proof.
  unfold Int64.in_range, Int64.wrap, Int64.min_int, Int64.max_int, Int64.modulus.
  intros H. rewrite Z.mod_small; lia.
Qed.

Lemma wrap_add_cancel z k :
  Int64.in_range z -> Int64.add (Int64.add z k) (- k) = z.
Proof.
  intros H. unfold Int64.add, Int64.wrap, Int64.modulus.
  replace ((z + k + 2 ^ 63) mod 2 ^ 64 - 2 ^ 63 + - k + 2 ^ 63)
    with ((z + k + 2 ^ 63) mod 2 ^ 64 - k) by lia.
  rewrite Zminus_mod_idemp_l.
  replace (z + k + 2 ^ 63 - k) with (z + 2 ^ 63) by lia.
  fold Int64.modulus. fold (Int64.wrap z). apply wrap_in_range. exact H.
Qed.

Lemma unixSec_instant local loc sec :
  Int64.in_range sec -> Time.unixSec (Time.In (Time.Unix local sec) loc) = sec.
Proof.
  intros H. unfold Time.unixSec, Time.In, Time.Unix. cbn [Time.ext].
  unfold Time.internalToUnix. apply wrap_add_cancel. exact H.
Qed.

Lemma reexpress_id E loc z : Int64.in_range z -> reexpress E loc z = z.
Proof. intros H. unfold reexpress. apply unixSec_instant. exact H. Qed.

Lemma adjustProgram_id E loc p : int64Stamps p -> adjustProgram E loc p = p.
Proof.
  intros [Hs Ht]. unfold adjustProgram.
  rewrite !reexpress_id by assumption. destruct p; reflexivity.
Qed.

Lemma map_adjust_id E loc ps :
  Forall int64Stamps ps -> map (adjustProgram E loc) ps = ps.
Proof.
  induction 1; simpl; [reflexivity|].
  rewrite adjustProgram_id by assumption. congruence.
Qed.

(** The stamp of an instant depends on its location only through the
    offset in force. *)
Lemma stamp_at_offset local loc sec off :
  Int64.in_range sec ->
  Time.lookup loc sec = off ->
  Time.formatStamp (Time.In (Time.Unix local sec) loc)
  = Time.formatStamp
      (Time.In (Time.Unix local sec) (Time.mkLocation EmptyString off [])).
Proof.
  intros Hr Hl. unfold Time.formatStamp, Time.abs, Time.offsetOf.
  cbn [Time.loc Time.In].
  assert (Hu : forall l, Time.unixSec (Time.In (Time.Unix local sec) l) = sec).
  { intros l. apply unixSec_instant. exact Hr. }
  rewrite !Hu. rewrite Hl. reflexivity.
Qed.

(* ===================================================================== *)
(** ** Invariants of the JSON decoders *)
(* ===================================================================== *)

Section DecoderInvariants.

Context {T : Type} (P : T -> Prop).

Lemma decMembers_inv (f : string -> Json.Value -> T -> option T) :
  (forall k v cur x, P cur -> f k v cur = Some x -> P x) ->
  forall ms cur x, P cur -> Json.decMembers f ms cur = Some x -> P x.
Proof.
  intros Hf. induction ms as [|[k v] ms IH]; simpl; intros cur x Hc.
  - intros [= <-]. exact Hc.
  - destruct (f k v cur) eqn:Hk; [|discriminate]. intros H.
    eapply IH; [|exact H]. eapply Hf; eauto.
Qed.

Lemma decStruct_inv (f : string -> Json.Value -> T -> option T) :
  (forall k v cur x, P cur -> f k v cur = Some x -> P x) ->
  forall j cur x, P cur -> Json.decStruct f j cur = Some x -> P x.
Proof.
  intros Hf j cur x Hc. destruct j; simpl; try discriminate.
  - intros [= <-]. exact Hc.
  - apply decMembers_inv; assumption.
Qed.

Lemma decElems_Forall (d : Json.Value -> T -> option T) zero :
  P zero -> (forall e cur x, P cur -> d e cur = Some x -> P x) ->
  forall l cur xs,
    Forall P cur -> Json.decElems d zero l cur = Some xs -> Forall P xs.
Proof.
  intros Hz Hd. induction l as [|e l IH]; simpl; intros cur xs Hc.
  - intros [= <-]. constructor.
  - destruct (d e (hd zero cur)) eqn:He; [|discriminate].
    destruct (Json.decElems d zero l (tl cur)) eqn:Hl; [|discriminate].
    intros [= <-]. constructor.
    + eapply Hd; [|exact He]. destruct Hc; simpl; assumption.
    + eapply IH; [|exact Hl]. destruct Hc; simpl; [constructor | assumption].
Qed.

Lemma decSlice_Forall (d : Json.Value -> T -> option T) zero :
  P zero -> (forall e cur x, P cur -> d e cur = Some x -> P x) ->
  forall j cur spare r,
    Forall P cur -> Forall P spare -> Json.decSlice d zero j cur spare = Some r ->
    Forall P (fst r) /\ Forall P (snd r).
Proof.
  intros Hz Hd j cur spare r Hc Hs. destruct j; simpl; try discriminate.
  - intros [= <-]. split; constructor.
  - destruct l as [|e l]; [intros [= <-]; split; constructor|].
    assert (Hb : Forall P (cur ++ spare)%list) by (apply Forall_app; split; assumption).
    destruct (Json.decElems d zero (e :: l) (cur ++ spare)) as [xs|] eqn:Hx;
      [|discriminate].
    intros [= <-]. cbn [fst snd]. split.
    + eapply decElems_Forall; eauto.
    + rewrite <- (firstn_skipn (List.length (e :: l)) (cur ++ spare)) in Hb.
      apply Forall_app in Hb. exact (proj2 Hb).
Qed.

End DecoderInvariants.

Lemma decInt64_range v cur z :
  Int64.in_range cur -> Json.decInt64 v cur = Some z -> Int64.in_range z.
Proof.
  intros Hc. destruct v; simpl; try discriminate.
  - intros [= <-]. exact Hc.
  - destruct (Int64.in_rangeb z0) eqn:Hr; [|discriminate].
    intros [= <-]. unfold Int64.in_rangeb in Hr. apply andb_prop in Hr as [H1 H2].
    unfold Int64.in_range. lia.
Qed.

Lemma setEPGProgram_range fold k v cur p :
  int64Stamps cur -> setEPGProgram fold k v cur = Some p -> int64Stamps p.
Proof.
  intros [Hs Ht]. unfold setEPGProgram.
  destruct cur as [ch name start stop desc cat]. simpl in Hs, Ht.
  destruct (Json.fieldIndex fold _ k) as [[|[|[|[|[|n]]]]]|]; simpl.
  all: try (destruct (Json.decString v _); simpl;
            [intros [= <-]; split; assumption | discriminate]).
  - destruct (Json.decInt64 v start) eqn:Hd; simpl; [|discriminate].
    intros [= <-]. split; simpl; [exact (decInt64_range v start z Hs Hd) | assumption].
  - destruct (Json.decInt64 v stop) eqn:Hd; simpl; [|discriminate].
    intros [= <-]. split; simpl; [assumption | exact (decInt64_range v stop z Ht Hd)].
  - intros [= <-]. split; assumption.
Qed.

Lemma zero_int64Stamps : int64Stamps EPGProgram.zero.
Proof.
  split; simpl; unfold Int64.in_range, Int64.min_int, Int64.max_int; lia.
Qed.

(** Whatever [decodeEPG] accepts carries int64 timestamps only. *)
Lemma decodeEPG_range fold j r :
  decodeEPG fold j = Some r ->
  Forall int64Stamps (EPGResponse.Programs (EPGResponse.Js r)).
Proof.
  unfold decodeEPG. intros H.
  apply (decStruct_inv
           (fun r => Forall int64Stamps (EPGResponse.Programs (EPGResponse.Js r))
                     /\ Forall int64Stamps
                          (EPGResponse.sparePrograms (EPGResponse.Js r))))
    in H; [exact (proj1 H) | | split; constructor].
  clear. intros k v cur x Hc. unfold setEPG.
  destruct (Json.fieldIndex fold ["js"] k); [|intros [= <-]; exact Hc].
  destruct (Json.decStruct (setEPGJs fold) v (EPGResponse.Js cur)) eqn:Hj;
    simpl; [|discriminate].
  intros [= <-]. simpl. revert Hj.
  apply (decStruct_inv
           (fun r => Forall int64Stamps (EPGResponse.Programs r)
                     /\ Forall int64Stamps (EPGResponse.sparePrograms r)));
    [|exact Hc].
  clear. intros k v cur x [Hc Hs]. unfold setEPGJs.
  destruct (Json.fieldIndex fold ["programs"] k); [|intros [= <-]; split; assumption].
  destruct (Json.decSlice _ _ v _ _) as [r|] eqn:Hd; simpl; [|discriminate].
  intros [= <-]. simpl. revert Hd. apply decSlice_Forall; try assumption.
  - exact zero_int64Stamps.
  - intros e c y Hc'. apply decStruct_inv; [|exact Hc'].
    intros. eapply setEPGProgram_range; eauto.
Qed.

Section Lacking.

Context {T J : Type}.
Variable fold : string -> string.
Variable field : string.
Variable setJs : string -> Json.Value -> J -> option J.
Variable Js : T -> J.
Variable mk : J -> T.
Hypothesis mk_Js : forall cur, mk (Js cur) = cur.
Hypothesis setJs_skip :
  forall k v cur, Json.fieldIndex fold [field] k = None -> setJs k v cur = Some cur.

Let setT (k : string) (v : Json.Value) (cur : T) : option T :=
  match Json.fieldIndex fold ["js"] k with
  | Some _ => option_map mk (Json.decStruct setJs v (Js cur))
  | None => Some cur
  end.

Lemma inner_lacking ms cur :
  forallb (fun m' => negb (named fold field m')) ms = true ->
  Json.decMembers setJs ms cur = Some cur.
Proof.
  induction ms as [|[k v] ms IH]; [reflexivity|]. cbn [forallb Json.decMembers].
  intros H. apply andb_prop in H as [Hk Hms]. unfold named in Hk. cbn [fst] in Hk.
  destruct (Json.fieldIndex fold [field] k) eqn:Hf; [discriminate|].
  rewrite (setJs_skip k v cur Hf). apply IH, Hms.
Qed.

Lemma members_lacking ms cur :
  forallb (fun m =>
             negb (named fold "js" m)
             || match snd m with
                | Json.JObject ms' => forallb (fun m' => negb (named fold field m')) ms'
                | _ => true
                end) ms = true ->
  Json.decMembers setT ms cur
  = if forallb (fun m =>
                  negb (named fold "js" m)
                  || match snd m with
                     | Json.JNull | Json.JObject _ => true
                     | _ => false
                     end) ms
    then Some cur else None.
Proof.
  induction ms as [|[k v] ms IH]; [reflexivity|]. cbn [forallb Json.decMembers].
  intros H. apply andb_prop in H as [Hk Hms]. specialize (IH Hms).
  unfold named in *. cbn [fst snd] in *. unfold setT at 1.
  destruct (Json.fieldIndex fold ["js"] k); cbn [negb orb andb] in *; [|exact IH].
  destruct v; cbn [Json.decStruct option_map andb]; try reflexivity.
  - rewrite mk_Js. exact IH.
  - rewrite (inner_lacking _ _ Hk). cbn [option_map]. rewrite mk_Js. exact IH.
Qed.

Lemma decode_lacking j zero :
  lacksJs fold field j = true ->
  Json.decStruct setT j zero = if envelopeShaped fold j then Some zero else None.
Proof.
  destruct j; cbn [lacksJs envelopeShaped Json.decStruct]; try reflexivity.
  apply members_lacking.
Qed.

End Lacking.

Lemma decodeHandshake_lacking fold j :
  lacksJs fold "token" j = true ->
  decodeHandshake fold j
  = if envelopeShaped fold j then Some HandshakeResponse.zero else None.
Proof.
  intros H. unfold decodeHandshake.
  apply (decode_lacking fold "token" (setHandshakeJs fold) HandshakeResponse.Js
           HandshakeResponse.mk); [intros []; reflexivity | | exact H].
  intros k v cur Hf. unfold setHandshakeJs. rewrite Hf. reflexivity.
Qed.

Lemma decodeCreateLink_lacking fold j :
  lacksJs fold "cmd" j = true ->
  decodeCreateLink fold j
  = if envelopeShaped fold j then Some CreateLinkResponse.zero else None.
Proof.
  intros H. unfold decodeCreateLink.
  apply (decode_lacking fold "cmd" (setCreateLinkJs fold) CreateLinkResponse.Js
           CreateLinkResponse.mk); [intros []; reflexivity | | exact H].
  intros k v cur Hf. unfold setCreateLinkJs. rewrite Hf. reflexivity.
Qed.

Lemma linkVerdict_true fold r :
  linkVerdict fold r = true <-> linkTrialPositive fold r.
Proof.
  unfold linkVerdict, linkTrialPositive. split.
  - destruct r as [msg|resp]; [discriminate|].
    intros H. apply andb_prop in H as [Hs H]. apply Z.eqb_eq in Hs.
    destruct (Http.readJSON (Http.RespBody resp)) as [j|] eqn:Hj; [|discriminate].
    destruct (decodeCreateLink fold j) as [response|] eqn:Hd; [|discriminate].
    exists resp, j, response. repeat split; try assumption.
    intros He. rewrite He in H. discriminate.
  - intros (resp & j & response & -> & Hs & Hj & Hd & Hc).
    rewrite Hs, Hj, Hd. simpl. apply negb_true_iff. apply String.eqb_neq. exact Hc.
Qed.

(* ===================================================================== *)
(** ** The layout of a stamp *)
(* ===================================================================== *)

Lemma below_forallb (f : Z -> bool) (n : nat) :
  forallb f (map Z.of_nat (seq 0 n)) = true ->
  forall x, 0 <= x < Z.of_nat n -> f x = true.
Proof.
  intros H x Hx. rewrite forallb_forall in H. apply H.
  apply in_map_iff. exists (Z.to_nat x). split; [lia|].
  apply in_seq. lia.
Qed.

Lemma appendInt_two x : 0 <= x < 100 -> twoDigits (appendInt x 2) = true.
Proof.
  apply (below_forallb (fun x => twoDigits (appendInt x 2)) 100).
  vm_compute. reflexivity.
Qed.

Lemma digits_aux_step k n acc :
  digits_aux (S k) n acc
  = if n / 10 =? 0
    then String (ascii_of_nat (Z.to_nat (48 + n mod 10))) acc
    else digits_aux k (n / 10) (String (ascii_of_nat (Z.to_nat (48 + n mod 10))) acc).
Proof. reflexivity. Qed.

Lemma digit_char n : isDigit (ascii_of_nat (Z.to_nat (48 + n mod 10))) = true.
Proof.
  apply (below_forallb (fun k => isDigit (ascii_of_nat (Z.to_nat (48 + k)))) 10);
    [vm_compute; reflexivity | apply Z.mod_pos_bound; lia].
Qed.

Lemma appendInt_four x : 0 <= x < 10000 -> fourDigits (appendInt x 4) = true.
Proof.
  intros H. unfold appendInt, utoa.
  destruct (Z.ltb_spec x 0) as [Hn|_]; [lia|].
  rewrite Z.abs_eq by lia. cbn [append].
  assert (H4 : (x / 10 / 10 / 10 / 10 =? 0) = true)
    by (apply Z.eqb_eq; Z.div_mod_to_equations; lia).
  rewrite digits_aux_step.
  destruct (x / 10 =? 0);
    [cbn [String.length Nat.sub zeros append fourDigits]; rewrite digit_char;
     reflexivity|].
  rewrite digits_aux_step.
  destruct (x / 10 / 10 =? 0);
    [cbn [String.length Nat.sub zeros append fourDigits]; rewrite !digit_char;
     reflexivity|].
  rewrite digits_aux_step.
  destruct (x / 10 / 10 / 10 =? 0);
    [cbn [String.length Nat.sub zeros append fourDigits]; rewrite !digit_char;
     reflexivity|].
  rewrite digits_aux_step. rewrite H4.
  cbn [String.length Nat.sub zeros append fourDigits]. rewrite !digit_char.
  reflexivity.
Qed.

Lemma absClock_bounds a :
  0 <= a ->
  0 <= fst (fst (Time.absClock a)) < 100
  /\ 0 <= snd (fst (Time.absClock a)) < 100
  /\ 0 <= snd (Time.absClock a) < 100.
Proof.
  intros Ha. unfold Time.absClock, Time.secondsPerDay. cbn [fst snd].
  repeat split; try (Z.div_mod_to_equations; lia).
Qed.

Lemma yearDay_bounds a : 0 <= a -> 0 <= snd (Time.yearDay a) <= 365.
Proof.
  intros Ha. unfold Time.yearDay, Time.secondsPerDay, Time.daysPer400Years,
    Time.daysPer100Years, Time.daysPer4Years. cbn [snd].
  rewrite !Z.shiftr_div_pow2 by lia. change (2 ^ 2) with 4.
  Z.div_mod_to_equations. lia.
Qed.

Lemma monthDay_bounds leap yday :
  0 <= yday <= 365 ->
  0 <= fst (Time.monthDay leap yday) < 100
  /\ 0 <= snd (Time.monthDay leap yday) < 100.
Proof.
  intros H.
  assert (Hb : ((0 <=? fst (Time.monthDay leap yday))
                && (fst (Time.monthDay leap yday) <? 100)
                && (0 <=? snd (Time.monthDay leap yday))
                && (snd (Time.monthDay leap yday) <? 100)) = true).
  { destruct leap;
      apply (below_forallb
               (fun y => (0 <=? fst (Time.monthDay _ y))
                         && (fst (Time.monthDay _ y) <? 100)
                         && (0 <=? snd (Time.monthDay _ y))
                         && (snd (Time.monthDay _ y) <? 100))
               366); try lia; vm_compute; reflexivity. }
  repeat (apply andb_prop in Hb as [Hb ?]). lia.
Qed.

Lemma formatNumTZ_shape off :
  -360000 < off < 360000 ->
  exists sign hhmm,
    Time.formatNumTZ off = String sign hhmm
    /\ (sign = "+"%char \/ sign = "-"%char)
    /\ exists hh mm, hhmm = hh ++ mm /\ twoDigits hh = true /\ twoDigits mm = true.
Proof.
  intros H. unfold Time.formatNumTZ.
  set (z := Z.quot off 60).
  assert (Hz : -6000 < z < 6000).
  { unfold z. pose proof (Z.quot_rem' off 60). pose proof (Z.rem_bound_abs off 60).
    Z.to_euclidean_division_equations. lia. }
  set (az := if z <? 0 then - z else z).
  assert (Haz : 0 <= az < 6000) by (unfold az; destruct (Z.ltb_spec z 0); lia).
  exists (if z <? 0 then "-"%char else "+"%char),
         (appendInt (Z.quot az 60) 2 ++ appendInt (Z.rem az 60) 2).
  split; [destruct (z <? 0); reflexivity|].
  split; [destruct (z <? 0); auto|].
  exists (appendInt (Z.quot az 60) 2), (appendInt (Z.rem az 60) 2).
  split; [reflexivity|].
  rewrite Z.quot_div_nonneg, Z.rem_mod_nonneg by lia.
  split; apply appendInt_two; Z.div_mod_to_equations; lia.
Qed.

Lemma twoDigits_inv s :
  twoDigits s = true ->
  exists a b, s = String a (String b EmptyString)
              /\ isDigit a = true /\ isDigit b = true.
Proof.
  destruct s as [|a [|b [|]]]; try discriminate.
  intros H. apply andb_prop in H as [Ha Hb]. now exists a, b.
Qed.

Lemma fourDigits_inv s :
  fourDigits s = true ->
  exists a b c d, s = String a (String b (String c (String d EmptyString)))
                  /\ isDigit a = true /\ isDigit b = true
                  /\ isDigit c = true /\ isDigit d = true.
Proof.
  destruct s as [|a [|b [|c [|d [|]]]]]; try discriminate.
  intros H. apply andb_prop in H as [H Hd]. apply andb_prop in H as [H Hc].
  apply andb_prop in H as [Ha Hb]. now exists a, b, c, d.
Qed.

Lemma stamp_shape (y mo d h mi s : string) sign (hh mm : string) :
  fourDigits y = true -> twoDigits mo = true -> twoDigits d = true ->
  twoDigits h = true -> twoDigits mi = true -> twoDigits s = true ->
  (sign = "+"%char \/ sign = "-"%char) ->
  twoDigits hh = true -> twoDigits mm = true ->
  isStamp (y ++ mo ++ d ++ h ++ mi ++ s ++ " " ++ String sign (hh ++ mm)) = true.
Proof.
  intros Hy Hmo Hd Hh Hmi Hs Hsign Hhh Hmm.
  apply fourDigits_inv in Hy as (y1 & y2 & y3 & y4 & -> & ? & ? & ? & ?).
  apply twoDigits_inv in Hmo as (a1 & a2 & -> & ? & ?).
  apply twoDigits_inv in Hd as (b1 & b2 & -> & ? & ?).
  apply twoDigits_inv in Hh as (c1 & c2 & -> & ? & ?).
  apply twoDigits_inv in Hmi as (d1 & d2 & -> & ? & ?).
  apply twoDigits_inv in Hs as (e1 & e2 & -> & ? & ?).
  apply twoDigits_inv in Hhh as (f1 & f2 & -> & ? & ?).
  apply twoDigits_inv in Hmm as (g1 & g2 & -> & ? & ?).
  unfold isStamp. cbn [append String.length substring allDigits Nat.eqb].
  repeat match goal with H : isDigit _ = true |- _ => rewrite H; clear H end.
  destruct Hsign as [-> | ->]; reflexivity.
Qed.

Lemma formatStamp_pieces t :
  Time.formatStamp t
  = appendInt (fst (Time.yearDay (Time.abs t))) 4
      ++ appendInt (fst (monthDayOf (Time.abs t))) 2
      ++ appendInt (snd (monthDayOf (Time.abs t))) 2
      ++ appendInt (fst (fst (Time.absClock (Time.abs t)))) 2
      ++ appendInt (snd (fst (Time.absClock (Time.abs t)))) 2
      ++ appendInt (snd (Time.absClock (Time.abs t))) 2
      ++ " " ++ Time.formatNumTZ (Time.offsetOf t).
Proof.
  unfold Time.formatStamp, Time.absDate, monthDayOf.
  destruct (Time.yearDay (Time.abs t)) as [y yd]. cbn [fst snd].
  destruct (Time.monthDay (Time.isLeap y) yd) as [mo d].
  destruct (Time.absClock (Time.abs t)) as [[h mi] s]. reflexivity.
Qed.

(** An instant whose year has four digits, in a zone less than a hundred
    hours from UTC, is laid out as fourteen digits, a space, a sign and
    four digits. *)
Lemma formatStamp_layout t :
  0 <= yearOf t <= 9999 ->
  -360000 < Time.offsetOf t < 360000 ->
  isStamp (Time.formatStamp t) = true.
Proof.
  intros Hy Ho. rewrite formatStamp_pieces.
  assert (Ha : 0 <= Time.abs t).
  { unfold Time.abs, Int64.to_uint, Int64.modulus. apply Z.mod_pos_bound. lia. }
  pose proof (yearDay_bounds _ Ha) as Hyd.
  pose proof (monthDay_bounds (Time.isLeap (fst (Time.yearDay (Time.abs t)))) _ Hyd)
    as [Hm Hd].
  pose proof (absClock_bounds _ Ha) as (Hh & Hmi & Hs).
  destruct (formatNumTZ_shape _ Ho)
    as (sign & hhmm & -> & Hsign & hh & mm & -> & Hhh & Hmm).
  apply stamp_shape.
  - apply appendInt_four. revert Hy. unfold yearOf.
    generalize (fst (Time.yearDay (Time.abs t))). intros y Hy. lia.
  - apply appendInt_two. unfold monthDayOf. exact Hm.
  - apply appendInt_two. unfold monthDayOf. exact Hd.
  - apply appendInt_two. exact Hh.
  - apply appendInt_two. exact Hmi.
  - apply appendInt_two. exact Hs.
  - exact Hsign.
  - exact Hhh.
  - exact Hmm.
Qed.

(* ===================================================================== *)
(** ** Runs of the operations *)
(* ===================================================================== *)

Ltac run :=
  unfold bind, getClient, modifyClient, Do, ret, fail, deref, panic; simpl.

Lemma extends_ret {A} (a : A) : extends (ret a).
Proof. intros st. exists []. simpl. now rewrite app_nil_r. Qed.

Lemma extends_fail {A} ctx c : extends (@fail A ctx c).
Proof. intros st. exists []. simpl. now rewrite app_nil_r. Qed.

Lemma extends_panic {A} : extends (@panic A).
Proof. intros st. exists []. simpl. now rewrite app_nil_r. Qed.

Lemma extends_getClient : extends getClient.
Proof. intros st. exists []. simpl. now rewrite app_nil_r. Qed.

Lemma extends_modifyClient f : extends (modifyClient f).
Proof. intros st. exists []. simpl. now rewrite app_nil_r. Qed.

Lemma extends_Do E req : extends (Do E req).
Proof. intros st. eexists. simpl. reflexivity. Qed.

Lemma extends_bind {A B} (m : M A) (k : A -> M B) :
  extends m -> (forall a, extends (k a)) -> extends (bind m k).
Proof.
  intros Hm Hk st. unfold bind. destruct (Hm st) as [r1 H1].
  destruct (m st) as [[a|e|] st1]; simpl in *.
  - destruct (Hk a st1) as [r2 H2]. exists (r1 ++ r2)%list.
    rewrite H2, H1. now rewrite app_assoc.
  - exists r1. exact H1.
  - exists r1. exact H1.
Qed.

Ltac extends_tac :=
  repeat first
    [ apply extends_ret | apply extends_fail | apply extends_panic
    | apply extends_getClient | apply extends_modifyClient | apply extends_Do
    | apply extends_bind; [|intros]
    | match goal with
      | |- extends (match ?x with _ => _ end) => destruct x
      end ].

(** The three ways a handshake ends, and the case of no request. *)
Lemma Authenticate_ok E c log req resp j response :
  handshakeRequest E c = Some req ->
  roundTrip E log req = Http.Served resp ->
  Http.readJSON (Http.RespBody resp) = Some j ->
  decodeHandshake (jsonFold E) j = Some response ->
  Authenticate E (mkState c log)
  = (Ok tt,
     mkState
       (mkStalkerClient (PortalURL c) (MAC c) (Timezone c)
          (HandshakeResponse.Token (HandshakeResponse.Js response)) (Config c))
       (log ++ [(req, Http.Served resp)])).
Proof.
  intros Hq Hr Hj Hd. unfold Authenticate. run.
  rewrite Hq. simpl. rewrite Hr. rewrite Hj. simpl. rewrite Hd. reflexivity.
Qed.

Lemma Authenticate_transport_failure E c log req msg :
  handshakeRequest E c = Some req ->
  roundTrip E log req = Http.Failed msg ->
  Authenticate E (mkState c log)
  = (Err (Errorf "handshake request failed" (TransportError msg)),
     mkState c (log ++ [(req, Http.Failed msg)])).
Proof.
  intros Hq Hr. unfold Authenticate. run. rewrite Hq. simpl. rewrite Hr. reflexivity.
Qed.

Lemma Authenticate_decode_failure E c log req resp :
  handshakeRequest E c = Some req ->
  roundTrip E log req = Http.Served resp ->
  (Http.readJSON (Http.RespBody resp) = None
   \/ exists j, Http.readJSON (Http.RespBody resp) = Some j
                /\ decodeHandshake (jsonFold E) j = None) ->
  Authenticate E (mkState c log)
  = (Err (Errorf "failed to parse handshake response" DecodeError),
     mkState c (log ++ [(req, Http.Served resp)])).
Proof.
  intros Hq Hr Hbad. unfold Authenticate. run. rewrite Hq. simpl. rewrite Hr.
  destruct Hbad as [Hn | (j & Hj & Hd)].
  - rewrite Hn. reflexivity.
  - rewrite Hj. simpl. rewrite Hd. reflexivity.
Qed.

Lemma Authenticate_no_request E c log :
  handshakeRequest E c = None ->
  Authenticate E (mkState c log)
  = (Err (Errorf "failed to create handshake request" UrlError), mkState c log).
Proof. intros Hq. unfold Authenticate. run. rewrite Hq. reflexivity. Qed.

Lemma Authenticate_first_trip E st req :
  handshakeRequest E (client st) = Some req ->
  exists o c',
    Authenticate E st
    = (o, mkState c' (traffic st ++ [(req, roundTrip E (traffic st) req)])).
Proof.
  intros Hq. unfold Authenticate. run. rewrite Hq. simpl.
  destruct (roundTrip E (traffic st) req) as [msg|resp]; [eexists _, _; reflexivity|].
  destruct (Http.readJSON (Http.RespBody resp)) as [j|]; simpl;
    [|eexists _, _; reflexivity].
  destruct (decodeHandshake (jsonFold E) j); eexists _, _; reflexivity.
Qed.

(** An operation that opens with the guard, run without a token, sends
    the handshake first. *)
Lemma guard_sends_handshake {A} E (k : M A) st req :
  Token (client st) = EmptyString ->
  handshakeRequest E (client st) = Some req ->
  extends k ->
  exists rest,
    traffic (snd (bind (authenticateIfNoToken E) (fun _ => k) st))
    = (traffic st ++ (req, roundTrip E (traffic st) req) :: rest)%list.
Proof.
  intros Ht Hq Hk. unfold bind at 1. unfold authenticateIfNoToken.
  unfold bind at 1. unfold getClient. rewrite Ht. cbn [String.eqb].
  destruct (Authenticate_first_trip E st req Hq) as (o & c' & Ha). rewrite Ha.
  destruct o as [[]|e|].
  - destruct (Hk (mkState c' (traffic st ++ [(req, roundTrip E (traffic st) req)])))
      as [rest Hr].
    exists rest. rewrite Hr. simpl. rewrite <- app_assoc. reflexivity.
  - exists []. reflexivity.
  - exists []. reflexivity.
Qed.

Lemma gzipTrial_run E c st req :
  gzipProbeRequest E c = Some req ->
  let r := roundTrip E (traffic st) req in
  gzipTrial E c st
  = (Ok tt,
     mkState (if gzipVerdict r then setSupportsGzip (client st) true else client st)
             (traffic st ++ [(req, r)])).
Proof.
  intros H r. unfold gzipTrial. rewrite H. run. fold r.
  unfold gzipVerdict. destruct r as [msg|resp]; [reflexivity|].
  destruct (Http.Get (Http.RespHeader resp) "Content-Encoding" =? "gzip")%string;
    reflexivity.
Qed.

Lemma linkTrial_run E c st req :
  linkProbeRequest E c = Some req ->
  let r := roundTrip E (traffic st) req in
  linkTrial E c st
  = (Ok tt,
     mkState (if linkVerdict (jsonFold E) r
              then setRequiresCreateLink (client st) true else client st)
             (traffic st ++ [(req, r)])).
Proof.
  intros H r. unfold linkTrial. rewrite H. run. fold r.
  unfold linkVerdict. destruct r as [msg|resp]; [reflexivity|].
  destruct (Http.StatusCode resp =? 200); simpl; [|reflexivity].
  destruct (Http.readJSON (Http.RespBody resp)) as [j|]; simpl; [|reflexivity].
  destruct (decodeCreateLink (jsonFold E) j) as [response|]; simpl; [|reflexivity].
  destruct (CreateLinkResponse.Cmd (CreateLinkResponse.Js response) =? "")%string;
    reflexivity.
Qed.

(** A probe whose two requests could be built: both trials run, each
    flag ends as its prior value or-ed with the verdict of its trial. *)
Lemma ProbeServer_run E c log req1 req2 :
  gzipProbeRequest E c = Some req1 ->
  linkProbeRequest E c = Some req2 ->
  let r1 := roundTrip E log req1 in
  let log1 := (log ++ [(req1, r1)])%list in
  let r2 := roundTrip E log1 req2 in
  ProbeServer E (mkState c log)
  = (Ok tt,
     mkState
       (mkStalkerClient (PortalURL c) (MAC c) (Timezone c) (Token c)
          (mkServerConfig (SupportsGzip (Config c) || gzipVerdict r1)
             (RequiresCreateLink (Config c) || linkVerdict (jsonFold E) r2)))
       (log1 ++ [(req2, r2)])).
Proof.
  intros H1 H2 r1 log1 r2. unfold ProbeServer.
  unfold bind at 1. unfold getClient. cbn [client].
  unfold bind at 1. rewrite (gzipTrial_run E c _ req1 H1). cbn [client traffic].
  fold r1. fold log1.
  unfold bind at 1. rewrite (linkTrial_run E c _ req2 H2). cbn [client traffic].
  fold r2. unfold ret.
  destruct c as [p m t k [g l]]. cbn.
  destruct (gzipVerdict r1), (linkVerdict (jsonFold E) r2), g, l; reflexivity.
Qed.

Lemma probe_requests_frame E c cfg :
  gzipProbeRequest E (mkStalkerClient (PortalURL c) (MAC c) (Timezone c) (Token c) cfg)
  = gzipProbeRequest E c
  /\ linkProbeRequest E
       (mkStalkerClient (PortalURL c) (MAC c) (Timezone c) (Token c) cfg)
     = linkProbeRequest E c.
Proof. destruct c; split; reflexivity. Qed.

Lemma ProbeServer_no_error E st e : fst (ProbeServer E st) <> Err e.
Proof.
  destruct st as [c log]. unfold ProbeServer.
  unfold bind at 1. unfold getClient. cbn [client].
  destruct (gzipProbeRequest E c) as [req1|] eqn:H1.
  - unfold bind at 1. rewrite (gzipTrial_run E c _ req1 H1).
    destruct (linkProbeRequest E c) as [req2|] eqn:H2.
    + unfold bind at 1. rewrite (linkTrial_run E c _ req2 H2). discriminate.
    + unfold bind at 1. unfold linkTrial. rewrite H2. discriminate.
  - unfold bind at 1. unfold gzipTrial. rewrite H1. discriminate.
Qed.

Lemma buildXMLTV_fold E loc chs ps acc :
  fold_left
    (fun doc p =>
       mkXMLTV (Channels doc) (Programs doc ++ [toXMLTVProgram E loc p])%list)
    ps (mkXMLTV chs acc)
  = mkXMLTV chs (acc ++ map (toXMLTVProgram E loc) ps).
Proof.
  revert acc. induction ps as [|p ps IH]; intros acc; simpl.
  - now rewrite app_nil_r.
  - rewrite IH. rewrite <- app_assoc. reflexivity.
Qed.

(** The loop of ConvertEPGToXMLTV is a map over the input, in order. *)
Lemma buildXMLTV_eq E loc channelID ps :
  buildXMLTV E loc channelID ps
  = mkXMLTV [XMLTVChannel.mk channelID channelID] (map (toXMLTVProgram E loc) ps).
Proof. unfold buildXMLTV. apply buildXMLTV_fold. Qed.

(** A run of GetChannels whose guard passed and whose request was
    served: which reader the body goes through. *)
Lemma GetChannels_served E st st1 req resp :
  authenticateIfNoToken E st = (Ok tt, st1) ->
  channelsRequest E (client st1) = Some req ->
  roundTrip E (traffic st1) req = Http.Served resp ->
  let c := client st1 in
  let st2 := mkState c (traffic st1 ++ [(req, Http.Served resp)]) in
  GetChannels E st
  = match (if SupportsGzip (Config c)
              && String.eqb (Http.Get (Http.RespHeader resp) "Content-Encoding") "gzip"
           then Http.gzipNewReader (Http.RespBody resp)
           else Some (Http.RespBody resp)) with
    | None => (Err (Errorf "failed to create gzip reader" GzipHeaderError), st2)
    | Some b =>
        match option_map (decodeChannelList (jsonFold E)) (Http.readJSON b) with
        | Some (Some response) =>
            (Ok (ChannelListResponse.Channels (ChannelListResponse.Js response)), st2)
        | _ => (Err (Errorf "failed to parse channels response" DecodeError), st2)
        end
    end.
Proof.
  intros Ha Hq Hr c st2.
  unfold GetChannels. unfold bind at 1. rewrite Ha. run. rewrite Hq. simpl.
  rewrite Hr. fold c. unfold st2.
  destruct (SupportsGzip (Config c)
            && String.eqb (Http.Get (Http.RespHeader resp) "Content-Encoding") "gzip");
    simpl.
  - destruct (Http.gzipNewReader (Http.RespBody resp)) as [gz|]; simpl;
      [|reflexivity].
    destruct (Http.readJSON gz) as [j|]; simpl; [|reflexivity].
    destruct (decodeChannelList (jsonFold E) j); reflexivity.
  - destruct (Http.readJSON (Http.RespBody resp)) as [j|]; simpl; [|reflexivity].
    destruct (decodeChannelList (jsonFold E) j); reflexivity.
Qed.

(* ===================================================================== *)
(** ** Escaped text and the document read back *)
(* ===================================================================== *)

Lemma append_assoc (a b c : string) : ((a ++ b) ++ c = a ++ (b ++ c))%string.
Proof. induction a as [|x a IH]; simpl; [reflexivity|]. now rewrite IH. Qed.

Lemma occurrences_app b s t :
  occurrences b (s ++ t) = (occurrences b s + occurrences b t)%nat.
Proof. induction s as [|c s IH]; simpl; [reflexivity|]. rewrite IH. lia. Qed.

Lemma occurrences_high b s :
  b < 128 -> allChars (fun c => 128 <=? Url.byte c) s = true -> occurrences b s = 0%nat.
Proof.
  intros Hb. induction s as [|c s IH]; simpl; [reflexivity|].
  intros H. apply andb_prop in H as [Hc Hs]. apply Z.leb_le in Hc.
  destruct (Z.eqb_spec (Url.byte c) b); [lia|]. rewrite (IH Hs). reflexivity.
Qed.

Lemma leading_inv p0 sz lo hi :
  Xml.leading p0 = Some (sz, lo, hi) ->
  (sz = 2%nat \/ sz = 3%nat \/ sz = 4%nat) /\ 128 <= lo.
Proof.
  unfold Xml.leading.
  repeat match goal with
         | |- (if ?b then _ else _) = _ -> _ => destruct b
         end; intros [= <- <- <-] || discriminate; split; auto; lia.
Qed.

Lemma substring_none s : substring 0 0 s = EmptyString.
Proof. destruct s; reflexivity. Qed.

(** A decoded rune is an ASCII byte, the error of width 1, or a sequence
    of bytes that all lie above the ASCII range. *)
Lemma DecodeRune_cases c rest r w :
  Xml.DecodeRune (Xml.bytesOf (String c rest)) = (r, w) ->
  (w = 1%nat /\ (r = Xml.RuneError \/ (r = Url.byte c /\ r < 128)))
  \/ allChars (fun c => 128 <=? Url.byte c) (substring 0 w (String c rest)) = true.
Proof.
  cbn [Xml.bytesOf]. unfold Xml.DecodeRune.
  destruct (Z.ltb_spec (Url.byte c) 128) as [Hlt|Hge].
  { intros [= <- <-]. left. split; [reflexivity|]. right. split; [reflexivity|exact Hlt]. }
  assert (Hc : (128 <=? Url.byte c) = true) by (apply Z.leb_le; exact Hge).
  destruct (Xml.leading (Url.byte c)) as [[[sz lo] hi]|] eqn:Hl.
  2:{ intros [= <- <-]. left. split; [reflexivity|]. left. reflexivity. }
  destruct (leading_inv _ _ _ _ Hl) as [Hsz Hlo].
  assert (Herr : (Xml.RuneError, 1%nat) = (r, w) ->
                 (w = 1%nat /\ (r = Xml.RuneError \/ (r = Url.byte c /\ r < 128)))
                 \/ allChars (fun c => 128 <=? Url.byte c)
                      (substring 0 w (String c rest)) = true).
  { intros [= <- <-]. left. split; [reflexivity|]. left. reflexivity. }
  destruct (Nat.ltb_spec (List.length (Url.byte c :: Xml.bytesOf rest)) sz) as [Hshort|Hlen];
    [exact Herr|].
  destruct rest as [|c1 rest]; [simpl in Hlen; lia|]. cbn [Xml.bytesOf nth].
  destruct (Z.ltb_spec (Url.byte c1) lo) as [H1|H1]; cbn [orb]; [exact Herr|].
  destruct (hi <? Url.byte c1); [exact Herr|].
  assert (Hc1 : (128 <=? Url.byte c1) = true) by (apply Z.leb_le; lia).
  destruct Hsz as [-> | [-> | ->]].
  - cbn [Nat.leb]. clear Herr. intros [= <- <-]. right. cbn [substring allChars]. rewrite substring_none, Hc, Hc1. reflexivity.
  - cbn [Nat.leb]. destruct rest as [|c2 rest]; [simpl in Hlen; lia|].
    cbn [Xml.bytesOf nth]. unfold Xml.cont.
    destruct (Z.leb_spec 128 (Url.byte c2)) as [H2|H2]; cbn [andb negb]; [|exact Herr].
    destruct (Url.byte c2 <=? 191); cbn [negb]; [|exact Herr].
    clear Herr. intros [= <- <-]. right. cbn [substring allChars]. rewrite substring_none, Hc, Hc1.
    assert (Hc2 : (128 <=? Url.byte c2) = true) by (apply Z.leb_le; lia).
    rewrite Hc2. reflexivity.
  - cbn [Nat.leb]. destruct rest as [|c2 rest]; [simpl in Hlen; lia|].
    destruct rest as [|c3 rest]; [simpl in Hlen; lia|].
    cbn [Xml.bytesOf nth]. unfold Xml.cont.
    destruct (Z.leb_spec 128 (Url.byte c2)) as [H2|H2]; cbn [andb negb]; [|exact Herr].
    destruct (Url.byte c2 <=? 191); cbn [negb]; [|exact Herr].
    destruct (Z.leb_spec 128 (Url.byte c3)) as [H3|H3]; cbn [andb negb]; [|exact Herr].
    destruct (Url.byte c3 <=? 191); cbn [negb]; [|exact Herr].
    clear Herr. intros [= <- <-]. right. cbn [substring allChars]. rewrite substring_none, Hc, Hc1.
    assert (Hc2 : (128 <=? Url.byte c2) = true) by (apply Z.leb_le; lia).
    assert (Hc3 : (128 <=? Url.byte c3) = true) by (apply Z.leb_le; lia).
    rewrite Hc2, Hc3. reflexivity.
Qed.

Lemma escapeRune_clean b c rest r w :
  delimiter b ->
  Xml.DecodeRune (Xml.bytesOf (String c rest)) = (r, w) ->
  occurrences b (Xml.escapeRune r w (String c rest)) = 0%nat.
Proof.
  intros Hb Hd. unfold Xml.escapeRune.
  destruct (Z.eqb_spec r 34); [destruct Hb as [-> | [-> | ->]]; reflexivity|].
  destruct (Z.eqb_spec r 39); [destruct Hb as [-> | [-> | ->]]; reflexivity|].
  destruct (Z.eqb_spec r 38); [destruct Hb as [-> | [-> | ->]]; reflexivity|].
  destruct (Z.eqb_spec r 60); [destruct Hb as [-> | [-> | ->]]; reflexivity|].
  destruct (Z.eqb_spec r 62); [destruct Hb as [-> | [-> | ->]]; reflexivity|].
  destruct (Z.eqb_spec r 9); [destruct Hb as [-> | [-> | ->]]; reflexivity|].
  destruct (Z.eqb_spec r 10); [destruct Hb as [-> | [-> | ->]]; reflexivity|].
  destruct (Z.eqb_spec r 13); [destruct Hb as [-> | [-> | ->]]; reflexivity|].
  destruct (negb (Xml.isInCharacterRange r) || (r =? Xml.RuneError) && (w =? 1)%nat)
    eqn:Hbad; [destruct Hb as [-> | [-> | ->]]; reflexivity|].
  destruct (DecodeRune_cases c rest r w Hd) as [[-> [Hr|[Hr Hlt]]]|Hhigh].
  - subst r. apply orb_false_iff in Hbad as [_ Hbad]. discriminate Hbad.
  - subst r. cbn [substring occurrences]. rewrite substring_none.
    destruct (Z.eqb_spec (Url.byte c) b); [|reflexivity].
    destruct Hb as [Hb|[Hb|Hb]]; congruence.
  - apply occurrences_high; [|exact Hhigh]. destruct Hb as [-> | [-> | ->]]; lia.
Qed.

Lemma escapeLoop_clean b fuel s :
  delimiter b -> occurrences b (Xml.escapeLoop fuel s) = 0%nat.
Proof.
  intros Hb. revert s. induction fuel as [|k IH]; intros s; [reflexivity|].
  destruct s as [|c rest]; [reflexivity|]. cbn [Xml.escapeLoop].
  destruct (Xml.DecodeRune (Xml.bytesOf (String c rest))) as [r w] eqn:Hd.
  rewrite occurrences_app, (escapeRune_clean b c rest r w Hb Hd), IH. reflexivity.
Qed.

Lemma EscapeText_clean b s : delimiter b -> occurrences b (Xml.EscapeText s) = 0%nat.
Proof. apply escapeLoop_clean. Qed.

(* ---------- reading the document back ---------- *)

Lemma scan_app st a b :
  Reader.scan st (a ++ b) = (Reader.scan st a ++ Reader.scan (Reader.run st a) b)%list.
Proof.
  revert st. induction a as [|c a IH]; intros st; [reflexivity|].
  cbn [append Reader.scan Reader.run]. rewrite IH, app_assoc. reflexivity.
Qed.

Lemma run_app st a b : Reader.run st (a ++ b) = Reader.run (Reader.run st a) b.
Proof.
  revert st. induction a as [|c a IH]; intros st; [reflexivity|].
  cbn [append Reader.run]. apply IH.
Qed.

Lemma snoc_append s c t : (Reader.snoc s c ++ t = s ++ String c t)%string.
Proof. unfold Reader.snoc. rewrite append_assoc. reflexivity. Qed.

Lemma occurrences_cons b c t :
  occurrences b (String c t) = 0%nat -> Url.byte c <> b /\ occurrences b t = 0%nat.
Proof.
  cbn [occurrences]. destruct (Z.eqb_spec (Url.byte c) b); [discriminate|].
  intros H. split; [assumption | exact H].
Qed.

(** Character data without [<] is read as character data. *)
Lemma read_text x t :
  occurrences 60 t = 0%nat ->
  Reader.scan (Reader.InText x) t = []
  /\ Reader.run (Reader.InText x) t = Reader.InText (x ++ t).
Proof.
  revert x. induction t as [|c t IH]; intros x H.
  - split; [reflexivity|]. cbn [Reader.run]. f_equal.
    clear. induction x as [|a x IH]; [reflexivity|]. cbn [append]. now rewrite <- IH.
  - apply occurrences_cons in H as [Hc Ht].
    cbn [Reader.scan Reader.run Reader.step]. apply Z.eqb_neq in Hc. rewrite Hc.
    cbn [fst snd app]. destruct (IH (Reader.snoc x c) Ht) as [Hs Hr].
    rewrite Hs, Hr, snoc_append. split; reflexivity.
Qed.

(** An attribute value without a double quote is read as the value. *)
Lemma read_value name attrs key v t :
  occurrences 34 t = 0%nat ->
  Reader.scan (Reader.InValue name attrs key v) t = []
  /\ Reader.run (Reader.InValue name attrs key v) t
     = Reader.InValue name attrs key (v ++ t).
Proof.
  revert v. induction t as [|c t IH]; intros v H.
  - split; [reflexivity|]. cbn [Reader.run]. f_equal.
    clear. induction v as [|a v IH]; [reflexivity|]. cbn [append]. now rewrite <- IH.
  - apply occurrences_cons in H as [Hc Ht].
    cbn [Reader.scan Reader.run Reader.step]. apply Z.eqb_neq in Hc. rewrite Hc.
    cbn [fst snd app]. destruct (IH (Reader.snoc v c) Ht) as [Hs Hr].
    rewrite Hs, Hr, snoc_append. split; reflexivity.
Qed.

Ltac read_back :=
  rewrite ?scan_app, ?run_app;
  repeat first
    [ progress cbn
    | match goal with
      | H : occurrences 60 ?t = 0%nat |- context [Reader.run (Reader.InText ?x) ?t] =>
          rewrite (proj2 (read_text x t H))
      | H : occurrences 60 ?t = 0%nat |- context [Reader.scan (Reader.InText ?x) ?t] =>
          rewrite (proj1 (read_text x t H))
      | H : occurrences 34 ?t = 0%nat
        |- context [Reader.run (Reader.InValue ?n ?a ?k ?v) ?t] =>
          rewrite (proj2 (read_value n a k v t H))
      | H : occurrences 34 ?t = 0%nat
        |- context [Reader.scan (Reader.InValue ?n ?a ?k ?v) ?t] =>
          rewrite (proj1 (read_value n a k v t H))
      end ].

Lemma read_programme start stop channel title desc category :
  let element :=
    Xml.element "programme" [("start", start); ("stop", stop); ("channel", channel)]
      [("title", title); ("desc", desc); ("category", category)] in
  Reader.scan (Reader.InText EmptyString) element
  = programmeEvents (Xml.EscapeText start) (Xml.EscapeText stop)
      (Xml.EscapeText channel) (Xml.EscapeText title) (Xml.EscapeText desc)
      (Xml.EscapeText category)
  /\ Reader.run (Reader.InText EmptyString) element = Reader.InText EmptyString.
Proof.
  intros element. unfold element, Xml.element, Xml.leaf, programmeEvents.
  cbn [Xml.attrs map String.concat fst snd].
  assert (H1 := EscapeText_clean 34 start (or_introl eq_refl)).
  assert (H2 := EscapeText_clean 34 stop (or_introl eq_refl)).
  assert (H3 := EscapeText_clean 34 channel (or_introl eq_refl)).
  assert (H4 := EscapeText_clean 60 title (or_intror (or_introl eq_refl))).
  assert (H5 := EscapeText_clean 60 desc (or_intror (or_introl eq_refl))).
  assert (H6 := EscapeText_clean 60 category (or_intror (or_introl eq_refl))).
  revert H1 H2 H3 H4 H5 H6.
  generalize (Xml.EscapeText start) (Xml.EscapeText stop) (Xml.EscapeText channel)
    (Xml.EscapeText title) (Xml.EscapeText desc) (Xml.EscapeText category).
  intros a b c t d g H1 H2 H3 H4 H5 H6.
  split; read_back; reflexivity.
Qed.

Lemma read_channel id name :
  let element := Xml.element "channel" [("id", id)] [("display-name", name)] in
  Reader.scan (Reader.InText EmptyString) element
  = channelEvents (Xml.EscapeText id) (Xml.EscapeText name)
  /\ Reader.run (Reader.InText EmptyString) element = Reader.InText EmptyString.
Proof.
  intros element. unfold element, Xml.element, Xml.leaf, channelEvents.
  cbn [Xml.attrs map String.concat fst snd].
  assert (H1 := EscapeText_clean 34 id (or_introl eq_refl)).
  assert (H2 := EscapeText_clean 60 name (or_intror (or_introl eq_refl))).
  revert H1 H2. generalize (Xml.EscapeText id) (Xml.EscapeText name).
  intros a b H1 H2.
  split; read_back; reflexivity.
Qed.

(** Elements that each leave the reader between tags are read one after
    the other. *)
Lemma read_concat (l : list string) :
  Forall (fun e => Reader.run (Reader.InText EmptyString) e
                   = Reader.InText EmptyString) l ->
  Reader.scan (Reader.InText EmptyString) (String.concat EmptyString l)
  = flat_map (Reader.scan (Reader.InText EmptyString)) l
  /\ Reader.run (Reader.InText EmptyString) (String.concat EmptyString l)
     = Reader.InText EmptyString.
Proof.
  induction l as [|x l IH]; intros H; [split; reflexivity|].
  inversion H as [|? ? Hx Hl]; subst. destruct (IH Hl) as [Hs Hr].
  destruct l as [|y l].
  - cbn [String.concat flat_map]. rewrite app_nil_r. split; [reflexivity | exact Hx].
  - change (String.concat EmptyString (x :: y :: l))
      with (x ++ String.concat EmptyString (y :: l)).
    rewrite scan_app, run_app, Hx, Hs, Hr. split; reflexivity.
Qed.

Lemma attrValues_app name key a b :
  Reader.attrValues name key (a ++ b)
  = (Reader.attrValues name key a ++ Reader.attrValues name key b)%list.
Proof.
  induction a as [|[n attrs|text] a IH]; [reflexivity| |exact IH].
  cbn [app Reader.attrValues].
  destruct (if String.eqb n name then Reader.attr key attrs else None);
    [cbn [app]; f_equal|]; exact IH.
Qed.

Lemma flat_map_map {A B C} (f : A -> B) (g : B -> list C) l :
  flat_map g (map f l) = flat_map (fun a => g (f a)) l.
Proof. induction l as [|a l IH]; simpl; [reflexivity|]. now rewrite IH. Qed.

Lemma read_document ch channels programs :
  Reader.events (MarshalIndent (mkXMLTV (ch :: channels) programs))
  = documentEvents (ch :: channels) programs.
Proof.
  unfold Reader.events, MarshalIndent, documentEvents. cbn [Channels Programs].
  set (cs := map _ (ch :: channels)). set (ps := map _ programs).
  assert (Hsep : match (cs ++ ps)%list with
                 | [] => EmptyString
                 | _ => Xml.newline
                 end = Xml.newline) by reflexivity.
  rewrite Hsep. clear Hsep.
  assert (Hall : Forall (fun e => Reader.run (Reader.InText EmptyString) e
                                  = Reader.InText EmptyString) (cs ++ ps)%list).
  { apply Forall_app. split; apply Forall_forall; intros e Hin;
      apply in_map_iff in Hin as (x & <- & _);
      [apply read_channel | apply read_programme]. }
  destruct (read_concat _ Hall) as [Hs Hr].
  rewrite !scan_app, ?run_app.
  change (Reader.run (Reader.InText EmptyString) "<tv>") with (Reader.InText EmptyString).
  rewrite Hs, Hr. rewrite flat_map_app. unfold cs, ps. rewrite !flat_map_map.
  change (Reader.scan (Reader.InText EmptyString) "<tv>")
    with [Reader.Chars EmptyString; Reader.Tag "tv" []].
  change (Reader.scan (Reader.InText EmptyString) Xml.newline) with (@nil Reader.event).
  change (Reader.run (Reader.InText EmptyString) Xml.newline)
    with (Reader.InText Xml.newline).
  change (Reader.scan (Reader.InText Xml.newline) "</tv>")
    with [Reader.Chars Xml.newline; Reader.Tag "/tv" []].
  cbn [app]. f_equal. f_equal. rewrite <- app_assoc. f_equal; [|f_equal].
  - apply flat_map_ext. intros a. apply read_channel.
  - apply flat_map_ext. intros a. apply read_programme.
Qed.

(* ---------- escaping printable text ---------- *)

Lemma byte_inj c d : Url.byte c = Url.byte d -> c = d.
Proof.
  unfold Url.byte. intros H. apply N2Z.inj in H.
  rewrite <- (ascii_N_embedding c), <- (ascii_N_embedding d), H. reflexivity.
Qed.

Lemma EscapeText_printable_cons c rest :
  32 <= Url.byte c < 127 ->
  Xml.EscapeText (String c rest) = code c ++ Xml.EscapeText rest.
Proof.
  intros Hc. unfold Xml.EscapeText. cbn [String.length Xml.escapeLoop Xml.bytesOf].
  unfold Xml.DecodeRune.
  destruct (Z.ltb_spec (Url.byte c) 128) as [_|Hge]; [|lia].
  cbn [Xml.skip]. f_equal. unfold Xml.escapeRune, code.
  destruct (Url.byte c =? 34); [reflexivity|].
  destruct (Url.byte c =? 39); [reflexivity|].
  destruct (Url.byte c =? 38); [reflexivity|].
  destruct (Url.byte c =? 60); [reflexivity|].
  destruct (Url.byte c =? 62); [reflexivity|].
  destruct (Z.eqb_spec (Url.byte c) 9); [lia|].
  destruct (Z.eqb_spec (Url.byte c) 10); [lia|].
  destruct (Z.eqb_spec (Url.byte c) 13); [lia|].
  assert (Hr : Xml.isInCharacterRange (Url.byte c) = true).
  { unfold Xml.isInCharacterRange.
    destruct (Z.leb_spec 32 (Url.byte c)); [|lia].
    destruct (Z.leb_spec (Url.byte c) 55295); [|lia].
    cbn [andb]. rewrite !orb_true_r. reflexivity. }
  rewrite Hr. cbn [negb orb].
  destruct (Z.eqb_spec (Url.byte c) Xml.RuneError) as [He|_];
    [unfold Xml.RuneError in He; lia|].
  cbn [andb substring]. rewrite substring_none. reflexivity.
Qed.

(** The codes of printable characters are uniquely decodable. *)
Lemma code_prefix_free c d s t :
  code c ++ s = code d ++ t -> c = d /\ s = t.
Proof.
  unfold code.
  destruct (Z.eqb_spec (Url.byte c) 34) as [c34|c34];
    [|destruct (Z.eqb_spec (Url.byte c) 39) as [c39|c39];
      [|destruct (Z.eqb_spec (Url.byte c) 38) as [c38|c38];
        [|destruct (Z.eqb_spec (Url.byte c) 60) as [c60|c60];
          [|destruct (Z.eqb_spec (Url.byte c) 62) as [c62|c62]]]]];
  (destruct (Z.eqb_spec (Url.byte d) 34) as [d34|d34];
    [|destruct (Z.eqb_spec (Url.byte d) 39) as [d39|d39];
      [|destruct (Z.eqb_spec (Url.byte d) 38) as [d38|d38];
        [|destruct (Z.eqb_spec (Url.byte d) 60) as [d60|d60];
          [|destruct (Z.eqb_spec (Url.byte d) 62) as [d62|d62]]]]]);
  cbn [append]; intros H;
  try (injection H; intros; subst; split;
       [apply byte_inj; congruence | reflexivity]);
  try discriminate H;
  try (injection H; intros; subst; exfalso;
       match goal with
       | Hn : Url.byte "&"%char <> 38 |- _ => apply Hn; reflexivity
       end).
Qed.

Lemma printable_cons c s :
  printable (String c s) = true -> 32 <= Url.byte c < 127 /\ printable s = true.
Proof.
  unfold printable. cbn [allChars]. intros H. apply andb_prop in H as [Hc Hs].
  apply andb_prop in Hc as [H1 H2]. apply Z.leb_le in H1. apply Z.ltb_lt in H2.
  split; [lia | exact Hs].
Qed.

Lemma code_not_empty c s : code c ++ s <> EmptyString.
Proof.
  unfold code.
  repeat match goal with
         | |- context [if ?b then _ else _] => destruct b
         end; discriminate.
Qed.

(** On printable text [EscapeText] is one-to-one. *)
Lemma EscapeText_printable_inj a b :
  printable a = true -> printable b = true ->
  Xml.EscapeText a = Xml.EscapeText b -> a = b.
Proof.
  revert b. induction a as [|c a IH]; intros [|d b] Ha Hb H.
  - reflexivity.
  - apply printable_cons in Hb as [Hd _].
    rewrite (EscapeText_printable_cons d b Hd) in H.
    exfalso. apply (code_not_empty d (Xml.EscapeText b)). symmetry. exact H.
  - apply printable_cons in Ha as [Hc _].
    rewrite (EscapeText_printable_cons c a Hc) in H.
    exfalso. apply (code_not_empty c (Xml.EscapeText a)). exact H.
  - apply printable_cons in Ha as [Hc Ha]. apply printable_cons in Hb as [Hd Hb].
    rewrite (EscapeText_printable_cons c a Hc), (EscapeText_printable_cons d b Hd) in H.
    apply code_prefix_free in H as [-> H]. f_equal. apply IH; assumption.
Qed.

(* ---------- channel ids in the document ---------- *)

Lemma attrValues_flat_map {A} name key (f : A -> list Reader.event) l :
  Reader.attrValues name key (flat_map f l)
  = flat_map (fun a => Reader.attrValues name key (f a)) l.
Proof.
  induction l as [|a l IH]; [reflexivity|]. cbn [flat_map].
  rewrite attrValues_app, IH. reflexivity.
Qed.

Lemma flat_map_nil {A B} (f : A -> list B) l :
  (forall a, f a = []) -> flat_map f l = [].
Proof. intros H. induction l as [|a l IH]; simpl; [reflexivity|]. now rewrite H. Qed.

Lemma flat_map_singleton {A B} (f : A -> list B) (g : A -> B) l :
  (forall a, f a = [g a]) -> flat_map f l = map g l.
Proof. intros H. induction l as [|a l IH]; simpl; [reflexivity|]. now rewrite H, IH. Qed.

Lemma contents_other name n attrs rest :
  String.eqb n name = false ->
  Reader.contents name (Reader.Tag n attrs :: rest) = Reader.contents name rest.
Proof.
  intros H. cbn [Reader.contents]. rewrite H.
  destruct rest as [|[|text] [|[close a|] rest]]; reflexivity.
Qed.

Lemma contents_chars name text rest :
  Reader.contents name (Reader.Chars text :: rest) = Reader.contents name rest.
Proof. reflexivity. Qed.

Lemma contents_found name attrs text close attrs' rest :
  String.eqb close ("/" ++ name) = true ->
  Reader.contents name
    (Reader.Tag name attrs :: Reader.Chars text :: Reader.Tag close attrs' :: rest)
  = text :: Reader.contents name
              (Reader.Chars text :: Reader.Tag close attrs' :: rest).
Proof.
  intros H. cbn [Reader.contents]. rewrite String.eqb_refl, H. reflexivity.
Qed.

Lemma contents_programmes {A} (f : A -> string * string * string * string * string * string)
    l tail :
  Reader.contents "display-name"
    (flat_map (fun a => let '(s, t, c, x, y, z) := f a in programmeEvents s t c x y z) l
     ++ tail)
  = Reader.contents "display-name" tail.
Proof.
  induction l as [|a l IH]; [reflexivity|]. cbn [flat_map].
  destruct (f a) as [[[[[s t] c] x] y] z]. rewrite <- app_assoc.
  unfold programmeEvents at 1. cbn [app].
  repeat first [ rewrite contents_other by reflexivity | rewrite contents_chars ].
  exact IH.
Qed.

(** The ids the document declares and refers to, read back from the
    text ConvertEPGToXMLTV returns. *)
Lemma document_channels channelID programs :
  let doc :=
    MarshalIndent (mkXMLTV [XMLTVChannel.mk channelID channelID] programs) in
  declaredChannels doc = [Xml.EscapeText channelID]
  /\ displayNames doc = [Xml.EscapeText channelID]
  /\ referencedChannels doc
     = map (fun p => Xml.EscapeText (XMLTVProgram.Channel p)) programs.
Proof.
  intros doc. unfold declaredChannels, displayNames, referencedChannels, doc.
  rewrite read_document. unfold documentEvents. cbn [flat_map XMLTVChannel.ID
    XMLTVChannel.DisplayName]. rewrite app_nil_r.
  split; [|split].
  - cbn [Reader.attrValues]. rewrite !attrValues_app, attrValues_flat_map.
    rewrite (flat_map_nil _ programs) by (intros p; reflexivity). reflexivity.
  - rewrite contents_chars, (contents_other _ "tv") by reflexivity.
    unfold channelEvents. cbn [app].
    rewrite contents_chars, (contents_other _ "channel") by reflexivity.
    rewrite contents_chars.
    rewrite contents_found by reflexivity.
    f_equal. rewrite contents_chars, (contents_other _ "/display-name") by reflexivity.
    rewrite contents_chars, (contents_other _ "/channel") by reflexivity.
    rewrite (contents_programmes
               (fun p => (Xml.EscapeText (XMLTVProgram.Start p),
                          Xml.EscapeText (XMLTVProgram.Stop p),
                          Xml.EscapeText (XMLTVProgram.Channel p),
                          Xml.EscapeText (XMLTVProgram.Title p),
                          Xml.EscapeText (XMLTVProgram.Desc p),
                          Xml.EscapeText (XMLTVProgram.Category p)))).
    reflexivity.
  - cbn [Reader.attrValues]. rewrite !attrValues_app, attrValues_flat_map.
    rewrite (flat_map_singleton _ (fun p => Xml.EscapeText (XMLTVProgram.Channel p)))
      by (intros p; reflexivity).
    rewrite app_nil_r. reflexivity.
Qed.

(* ===================================================================== *)
(** ** The claims *)
(* ===================================================================== *)

(** C1. With RequiresCreateLink false, GetPlaybackURL returns the command
    it was given (any command, the non-empty ones among them) with a nil
    error; the client is unchanged and no round trip is made, whatever
    the environment. *)
Theorem GetPlaybackURL_direct E c cmd log :
  RequiresCreateLink (Config c) = false ->
  GetPlaybackURL E cmd (mkState c log) = (Ok cmd, mkState c log).
Proof. intros H. unfold GetPlaybackURL. run. rewrite H. reflexivity. Qed.

Lemma GetPlaybackURL_direct_witness :
  GetPlaybackURL Sample.deadPortal "http://cdn.example.com/live/1.ts"
    (mkState Sample.fresh [])
  = (Ok "http://cdn.example.com/live/1.ts", mkState Sample.fresh []).
Proof. apply GetPlaybackURL_direct. reflexivity. Defined.

(** C2, as the code has it.  A program entry that starts at 1700000000 is
    stamped "20231114221320 +0000" under "UTC" and "20231114171320 -0500"
    under "America/New_York" (the zone database giving UTC-5 at that
    instant).  Every stamp of an instant whose year has four digits, in a
    zone less than a hundred hours from UTC, is fourteen digits, a space,
    a sign and four digits. *)
Theorem ConvertEPGToXMLTV_stamp_1700000000 E c channelID p :
  EPGProgram.Start p = 1700000000 ->
  (Timezone c = "UTC" ->
   ConvertEPGToXMLTV E c channelID [p]
   = Ok (MarshalIndent (buildXMLTV E Time.UTC channelID [p]))
   /\ map XMLTVProgram.Start (Programs (buildXMLTV E Time.UTC channelID [p]))
      = ["20231114221320 +0000"])
  /\ (Timezone c = "America/New_York" ->
      forall loc,
        zoneinfo E "America/New_York" = Some loc ->
        Time.lookup loc 1700000000 = -18000 ->
        ConvertEPGToXMLTV E c channelID [p]
        = Ok (MarshalIndent (buildXMLTV E loc channelID [p]))
        /\ map XMLTVProgram.Start (Programs (buildXMLTV E loc channelID [p]))
           = ["20231114171320 -0500"])
  /\ (forall loc q,
        0 <= yearOf (instant E loc (EPGProgram.Start q)) <= 9999 ->
        -360000 < Time.offsetOf (instant E loc (EPGProgram.Start q)) < 360000 ->
        isStamp (XMLTVProgram.Start (toXMLTVProgram E loc q)) = true).
Proof.
  intros Hs. split; [|split].
  - intros Htz.
    assert (Hl : LoadLocation E (Timezone c) = Some Time.UTC)
      by (rewrite Htz; reflexivity).
    unfold ConvertEPGToXMLTV. rewrite Hl.
    split; [reflexivity|]. rewrite buildXMLTV_eq.
    cbn [Programs map toXMLTVProgram XMLTVProgram.Start].
    rewrite Hs.
    rewrite (stamp_at_offset (localZone E) Time.UTC 1700000000 0);
      [vm_compute; reflexivity | vm_compute; split; discriminate | reflexivity].
  - intros Htz loc Hz Hoff.
    assert (Hl : LoadLocation E (Timezone c) = Some loc) by (rewrite Htz; exact Hz).
    unfold ConvertEPGToXMLTV. rewrite Hl.
    split; [reflexivity|]. rewrite buildXMLTV_eq.
    cbn [Programs map toXMLTVProgram XMLTVProgram.Start].
    rewrite Hs.
    rewrite (stamp_at_offset (localZone E) loc 1700000000 (-18000));
      [vm_compute; reflexivity | vm_compute; split; discriminate | exact Hoff].
  - intros loc q Hy Ho. cbn [toXMLTVProgram XMLTVProgram.Start].
    apply (formatStamp_layout (instant E loc (EPGProgram.Start q)) Hy Ho).
Qed.

Lemma ConvertEPGToXMLTV_stamp_1700000000_witness :
  map XMLTVProgram.Start
    (Programs (buildXMLTV Sample.portal Time.UTC "1" [Sample.entry]))
  = ["20231114221320 +0000"]
  /\ map XMLTVProgram.Start
       (Programs (buildXMLTV Sample.portal Sample.NewYork "1" [Sample.entry]))
     = ["20231114171320 -0500"]
  /\ isStamp (XMLTVProgram.Start
                (toXMLTVProgram Sample.portal Sample.NewYork Sample.entry))
     = true.
Proof.
  destruct (ConvertEPGToXMLTV_stamp_1700000000 Sample.portal Sample.fresh "1"
              Sample.entry eq_refl) as (Hutc & _ & _).
  destruct (ConvertEPGToXMLTV_stamp_1700000000 Sample.portal Sample.freshNY "1"
              Sample.entry eq_refl) as (_ & Hny & Hlay).
  split; [|split].
  - exact (proj2 (Hutc eq_refl)).
  - exact (proj2 (Hny eq_refl Sample.NewYork eq_refl eq_refl)).
  - apply (Hlay Sample.NewYork Sample.entry); vm_compute; split; congruence.
Defined.

(** C2 as the specification states it fails: the document converted from
    an entry starting at 1700000000 carries no start stamp
    "20231114222640 +0000" under UTC and none "20231114172640 -0500"
    under America/New_York; it carries 22:13:20 and 17:13:20. *)
Lemma ConvertEPGToXMLTV_stamp_counterexample :
  let out := ConvertEPGToXMLTV Sample.portal Sample.fresh "1" [Sample.entry] in
  let outNY := ConvertEPGToXMLTV Sample.portal Sample.freshNY "1" [Sample.entry] in
  let attr (stamp : string) := "start=" ++ Xml.quote ++ stamp ++ Xml.quote in
  EPGProgram.Start Sample.entry = 1700000000
  /\ (exists s, out = Ok s
                /\ contains (attr "20231114222640 +0000") s = false
                /\ contains (attr "20231114221320 +0000") s = true)
  /\ (exists s, outNY = Ok s
                /\ contains (attr "20231114172640 -0500") s = false
                /\ contains (attr "20231114171320 -0500") s = true).
Proof.
  cbv zeta. split; [reflexivity|].
  split; eexists; (split; [reflexivity|]); split; vm_compute; reflexivity.
Qed.

(** C3. Once the guard has passed, the EPG request was served, its body
    decoded and the timezone resolved, the loop that adjusts the
    timestamps changes nothing: GetEPG returns the decoded programs as
    they were delivered, Start and Stop included. *)
Theorem GetEPG_timestamps_as_delivered E channelID st st1 req resp j epgResp loc :
  authenticateIfNoToken E st = (Ok tt, st1) ->
  epgRequest E (client st1) channelID = Some req ->
  roundTrip E (traffic st1) req = Http.Served resp ->
  Http.readJSON (Http.RespBody resp) = Some j ->
  decodeEPG (jsonFold E) j = Some epgResp ->
  LoadLocation E (Timezone (client st1)) = Some loc ->
  let delivered := EPGResponse.Programs (EPGResponse.Js epgResp) in
  map (adjustProgram E loc) delivered = delivered
  /\ GetEPG E channelID st
     = (Ok delivered,
        mkState (client st1) (traffic st1 ++ [(req, Http.Served resp)])).
Proof.
  intros Ha Hq Hr Hj Hd Hl delivered.
  assert (Hid : map (adjustProgram E loc) delivered = delivered).
  { apply map_adjust_id. eapply decodeEPG_range. exact Hd. }
  split; [exact Hid|].
  unfold GetEPG. unfold bind at 1. rewrite Ha. run.
  rewrite Hq. simpl. rewrite Hr. rewrite Hj. simpl. rewrite Hd. rewrite Hl.
  fold delivered. rewrite Hid. reflexivity.
Qed.

Lemma GetEPG_timestamps_as_delivered_witness :
  exists st',
    GetEPG Sample.portal "1" (mkState Sample.freshNY []) = (Ok [Sample.entry], st').
Proof.
  edestruct (GetEPG_timestamps_as_delivered Sample.portal "1"
               (mkState Sample.freshNY [])) as [_ H];
    [reflexivity | reflexivity | reflexivity | reflexivity | reflexivity
    | reflexivity | ].
  eexists. exact H.
Defined.

(** C4, as the code has it.  ProbeServer only ever raises a flag: after a
    call each flag is its prior value or-ed with the verdict of this
    call's trial.  From a profile with both flags false the flags are
    exactly the two verdicts, and a second probe of an unchanged server
    leaves the profile as the first one made it. *)
Theorem ProbeServer_raises_flags E c log req1 req2 :
  gzipProbeRequest E c = Some req1 ->
  linkProbeRequest E c = Some req2 ->
  let r1 := roundTrip E log req1 in
  let r2 := roundTrip E (log ++ [(req1, r1)]) req2 in
  let st' := snd (ProbeServer E (mkState c log)) in
  fst (ProbeServer E (mkState c log)) = Ok tt
  /\ SupportsGzip (Config (client st')) = SupportsGzip (Config c) || gzipVerdict r1
  /\ RequiresCreateLink (Config (client st'))
     = RequiresCreateLink (Config c) || linkVerdict (jsonFold E) r2
  /\ (Config c = mkServerConfig false false ->
      Config (client st')
      = mkServerConfig (gzipVerdict r1) (linkVerdict (jsonFold E) r2))
  /\ (unchangedServer E ->
      fst (ProbeServer E st') = Ok tt
      /\ Config (client (snd (ProbeServer E st'))) = Config (client st')).
Proof.
  intros H1 H2 r1 r2 st'.
  pose proof (ProbeServer_run E c log req1 req2 H1 H2) as Hrun. cbv zeta in Hrun.
  fold r1 in Hrun. fold r2 in Hrun.
  assert (Hst : st' = snd (ProbeServer E (mkState c log))) by reflexivity.
  rewrite Hrun in Hst |- *. cbn [fst snd] in *.
  split; [reflexivity|]. rewrite Hst.
  cbn [client Config SupportsGzip RequiresCreateLink].
  split; [reflexivity|]. split; [reflexivity|]. split.
  - intros ->. reflexivity.
  - intros Hu.
    match goal with
    | |- context [ProbeServer E {| client := ?c1; traffic := ?l1 |}] =>
        pose proof (ProbeServer_run E c1 l1 req1 req2) as Hrun2
    end.
    destruct (probe_requests_frame E c
      (mkServerConfig (SupportsGzip (Config c) || gzipVerdict r1)
         (RequiresCreateLink (Config c) || linkVerdict (jsonFold E) r2)))
      as [F1 F2].
    rewrite F1, F2 in Hrun2. specialize (Hrun2 H1 H2). cbv zeta in Hrun2.
    rewrite Hrun2. cbn [fst snd client Config SupportsGzip RequiresCreateLink].
    split; [reflexivity|].
    rewrite (Hu _ log req1). fold r1.
    rewrite (Hu _ (log ++ [(req1, r1)])%list req2). fold r2.
    destruct (SupportsGzip (Config c)), (RequiresCreateLink (Config c)),
      (gzipVerdict r1), (linkVerdict (jsonFold E) r2); reflexivity.
Qed.

Lemma ProbeServer_raises_flags_witness :
  let st' := snd (ProbeServer Sample.portal (mkState Sample.fresh [])) in
  Config (client st') = mkServerConfig true true
  /\ Config (client (snd (ProbeServer Sample.portal st'))) = Config (client st').
Proof.
  edestruct (ProbeServer_raises_flags Sample.portal Sample.fresh [])
    as (_ & _ & _ & Hfresh & Hidem); [reflexivity | reflexivity | ].
  split.
  - exact (Hfresh eq_refl).
  - apply Hidem. intros h h' req. reflexivity.
Defined.

(** C4 as the specification states it fails: a client whose flags are
    both true probes a portal that answers the gzip trial uncompressed
    and the create_link trial with 404.  Both verdicts are false, and
    both flags are still true after the call. *)
Lemma ProbeServer_overwrite_counterexample :
  let prior := mkServerConfig true true in
  let c := mkStalkerClient "http://example.com" "00:1A:79:18:05:75" "UTC" "" prior in
  let st' := snd (ProbeServer Sample.legacyPortal (mkState c [])) in
  let r1 := Sample.ok [] (Http.Plain (Some Sample.channelsJSON)) in
  let r2 := Http.Served (Http.mkResponse 404 [] (Http.Plain None)) in
  map snd (traffic st') = [r1; r2]
  /\ gzipVerdict r1 = false
  /\ linkVerdict Sample.upper r2 = false
  /\ Config (client st') = mkServerConfig true true
  /\ Config (client st')
     <> mkServerConfig (gzipVerdict r1) (linkVerdict Sample.upper r2).
Proof.
  vm_compute. repeat split; discriminate.
Qed.

(** C5. After the guard, when the portal answers the channels request
    with a response whose Content-Encoding header is gzip, the JSON
    decoder of GetChannels reads the inflated body, whatever SupportsGzip
    is: a gzip body yields what its content decodes to, and a body
    without gzip header, or no body, is an error, never decoded as it
    came.  With SupportsGzip true the request named gzip itself, the
    response reaches GetChannels as sent and its own gzip reader
    inflates it; with SupportsGzip false the transport of the fresh
    http.Client asked for gzip, inflates the body and deletes the header
    before GetChannels sees the response. *)
Theorem GetChannels_inflates_marked_gzip E st st1 req resp :
  authenticateIfNoToken E st = (Ok tt, st1) ->
  channelsRequest E (client st1) = Some req ->
  wire E (traffic st1) (Http.onWire req) = Http.Served resp ->
  Http.Get (Http.RespHeader resp) "Content-Encoding" = "gzip" ->
  let c := client st1 in
  let seen := Http.received req resp in
  let st2 := mkState c (traffic st1 ++ [(req, Http.Served seen)]) in
  let failure : error :=
    if SupportsGzip (Config c)
    then Errorf "failed to create gzip reader" GzipHeaderError
    else Errorf "failed to parse channels response" DecodeError in
  (forall inner,
      Http.RespBody resp = Http.Gzip inner ->
      GetChannels E st
      = match option_map (decodeChannelList (jsonFold E)) (Http.readJSON inner) with
        | Some (Some response) =>
            (Ok (ChannelListResponse.Channels (ChannelListResponse.Js response)), st2)
        | _ => (Err (Errorf "failed to parse channels response" DecodeError), st2)
        end)
  /\ (forall j,
        Http.RespBody resp = Http.Plain j -> GetChannels E st = (Err failure, st2))
  /\ (Http.RespBody resp = Http.NoBody -> GetChannels E st = (Err failure, st2))
  /\ Http.Get (Http.ReqHeader (Http.onWire req)) "Accept-Encoding" = "gzip"
  /\ (SupportsGzip (Config c) = true -> seen = resp)
  /\ (SupportsGzip (Config c) = false ->
      Http.RespBody resp <> Http.NoBody ->
      Http.Get (Http.RespHeader seen) "Content-Encoding" = EmptyString
      /\ Http.RespBody seen = Http.inflated (Http.RespBody resp)).
Proof.
  intros Ha Hq Hw Hh c seen st2 failure.
  assert (Hasks : Http.asksGzip req = negb (SupportsGzip (Config c))).
  { revert Hq. unfold channelsRequest, NewRequest. fold c.
    destruct (urlParse E _); [|discriminate]. intros [= <-].
    destruct (SupportsGzip (Config c)); reflexivity. }
  assert (Hr : roundTrip E (traffic st1) req = Http.Served seen).
  { unfold roundTrip, Http.transport. rewrite Hw. reflexivity. }
  assert (Hseen : seen
                  = if SupportsGzip (Config c) || negb (Http.hasBody (Http.RespBody resp))
                    then resp
                    else Http.mkResponse (Http.StatusCode resp)
                           (Http.Del (Http.Del (Http.RespHeader resp) "Content-Encoding")
                              "Content-Length")
                           (Http.inflated (Http.RespBody resp))).
  { unfold seen, Http.received. rewrite Hasks, Hh.
    destruct (SupportsGzip (Config c)), (Http.hasBody (Http.RespBody resp));
      reflexivity. }
  assert (Hdel : forall h, Http.Get (Http.Del (Http.Del h "Content-Encoding")
                                       "Content-Length") "Content-Encoding"
                           = EmptyString).
  { intros h. induction h as [|[k v] h IH]; [reflexivity|]. cbn [Http.Del].
    destruct (String.eqb_spec k "Content-Encoding") as [->|Hk]; [exact IH|].
    cbn [Http.Del]. destruct (String.eqb k "Content-Length"); [exact IH|].
    cbn [Http.Get]. apply String.eqb_neq in Hk. rewrite Hk. exact IH. }
  pose proof (GetChannels_served E st st1 req seen Ha Hq Hr) as Hrun.
  cbv zeta in Hrun. fold c in Hrun. fold st2 in Hrun.
  assert (Hwire : Http.Get (Http.ReqHeader (Http.onWire req)) "Accept-Encoding" = "gzip").
  { unfold Http.onWire. rewrite Hasks. revert Hq. unfold channelsRequest, NewRequest.
    fold c. destruct (urlParse E _); [|discriminate]. intros [= <-].
    destruct (SupportsGzip (Config c)); reflexivity. }
  unfold failure.
  split; [|split; [|split; [|split; [exact Hwire|split]]]].
  - intros inner Hb. rewrite Hrun, Hseen, Hb.
    destruct (SupportsGzip (Config c)).
    + cbn [orb]. rewrite Hh, Hb. reflexivity.
    + reflexivity.
  - intros j Hb. rewrite Hrun, Hseen, Hb.
    destruct (SupportsGzip (Config c)).
    + cbn [orb]. rewrite Hh, Hb. reflexivity.
    + reflexivity.
  - intros Hb. rewrite Hrun, Hseen, Hb.
    destruct (SupportsGzip (Config c)).
    + cbn [orb]. rewrite Hh, Hb. reflexivity.
    + cbn [orb negb Http.hasBody andb]. rewrite Hb. reflexivity.
  - intros Hf. rewrite Hf in Hseen. exact Hseen.
  - intros Hf Hb. rewrite Hf in Hseen.
    destruct (Http.RespBody resp) eqn:Hbody; [contradiction| |];
      cbn [orb negb Http.hasBody] in Hseen; rewrite Hseen;
      (split; [apply Hdel | cbn [Http.RespBody]; rewrite ?Hbody; reflexivity]).
Qed.

Lemma GetChannels_inflates_marked_gzip_witness :
  (exists st2,
     GetChannels Sample.eagerPortal (mkState (setSupportsGzip Sample.authed true) [])
     = (Ok [Channel.mk "1" "A" "http://x" "/l.png"], st2))
  /\ (exists st2,
        GetChannels Sample.eagerPortal (mkState Sample.authed [])
        = (Ok [Channel.mk "1" "A" "http://x" "/l.png"], st2)).
Proof.
  split.
  - edestruct (GetChannels_inflates_marked_gzip Sample.eagerPortal
                 (mkState (setSupportsGzip Sample.authed true) []))
      as (Hin & _); [reflexivity | reflexivity | reflexivity | reflexivity | ].
    eexists. rewrite (Hin _ eq_refl). reflexivity.
  - edestruct (GetChannels_inflates_marked_gzip Sample.eagerPortal
                 (mkState Sample.authed []))
      as (Hin & _); [reflexivity | reflexivity | reflexivity | reflexivity | ].
    eexists. rewrite (Hin _ eq_refl). reflexivity.
Defined.

(** C6. In a probe whose requests could be built, the create_link trial
    sets RequiresCreateLink to true when the answer has status 200 and a
    JSON envelope with a non-empty js.cmd, and leaves the flag as it was
    for every other answer (another status, a body that does not decode,
    an empty cmd, a transport error); from a false flag, the flag is true
    afterwards if and only if the answer was of the first kind. *)
Theorem ProbeServer_indirection_trial E c log req1 req2 :
  gzipProbeRequest E c = Some req1 ->
  linkProbeRequest E c = Some req2 ->
  let r2 := roundTrip E (log ++ [(req1, roundTrip E log req1)]) req2 in
  let c' := client (snd (ProbeServer E (mkState c log))) in
  (linkTrialPositive (jsonFold E) r2 -> RequiresCreateLink (Config c') = true)
  /\ (~ linkTrialPositive (jsonFold E) r2 ->
      RequiresCreateLink (Config c') = RequiresCreateLink (Config c))
  /\ (RequiresCreateLink (Config c) = false ->
      (RequiresCreateLink (Config c') = true <-> linkTrialPositive (jsonFold E) r2)).
Proof.
  intros H1 H2 r2 c'.
  assert (Hc : RequiresCreateLink (Config c')
               = RequiresCreateLink (Config c) || linkVerdict (jsonFold E) r2).
  { unfold c'. rewrite (ProbeServer_run E c log req1 req2 H1 H2). reflexivity. }
  rewrite Hc. pose proof (linkVerdict_true (jsonFold E) r2) as Hv.
  split; [|split].
  - intros Hp. apply Hv in Hp. rewrite Hp. apply orb_true_r.
  - intros Hn. destruct (linkVerdict (jsonFold E) r2).
    + exfalso. apply Hn, Hv. reflexivity.
    + apply orb_false_r.
  - intros ->. simpl. exact Hv.
Qed.

Lemma ProbeServer_indirection_trial_witness :
  RequiresCreateLink
    (Config (client (snd (ProbeServer Sample.portal (mkState Sample.fresh [])))))
  = true
  /\ RequiresCreateLink
       (Config (client (snd (ProbeServer Sample.legacyPortal
                               (mkState Sample.fresh [])))))
     = false.
Proof.
  split.
  - edestruct (ProbeServer_indirection_trial Sample.portal Sample.fresh [])
      as (Hpos & _ & _); [reflexivity | reflexivity | ].
    apply Hpos.
    eexists _, Sample.linkJSON, _.
    repeat split; try reflexivity. discriminate.
  - edestruct (ProbeServer_indirection_trial Sample.legacyPortal Sample.fresh [])
      as (_ & Hneg & _); [reflexivity | reflexivity | ].
    rewrite Hneg; [reflexivity|].
    intros (resp & j & response & Hr & Hs & _).
    vm_compute in Hr. injection Hr as <-. discriminate Hs.
Defined.

(** C7. ProbeServer never returns an error.  When its two requests could
    be built it returns nil whatever the transport does and whatever the
    answers hold, and a transport failure on the gzip trial leaves
    SupportsGzip at its prior value. *)
Theorem ProbeServer_swallows_failures E c log :
  (forall e, fst (ProbeServer E (mkState c log)) <> Err e)
  /\ (forall req1 req2,
        gzipProbeRequest E c = Some req1 ->
        linkProbeRequest E c = Some req2 ->
        fst (ProbeServer E (mkState c log)) = Ok tt
        /\ (forall msg,
              roundTrip E log req1 = Http.Failed msg ->
              SupportsGzip (Config (client (snd (ProbeServer E (mkState c log)))))
              = SupportsGzip (Config c))).
Proof.
  split; [intros e; apply ProbeServer_no_error|].
  intros req1 req2 H1 H2.
  rewrite (ProbeServer_run E c log req1 req2 H1 H2). split; [reflexivity|].
  intros msg Hf. cbn [snd client Config SupportsGzip]. rewrite Hf. apply orb_false_r.
Qed.

Lemma ProbeServer_swallows_failures_witness :
  ProbeServer Sample.deadPortal (mkState Sample.fresh [])
  = (Ok tt,
     mkState Sample.fresh
       (traffic (snd (ProbeServer Sample.deadPortal (mkState Sample.fresh []))))).
Proof.
  destruct (ProbeServer_swallows_failures Sample.deadPortal Sample.fresh []) as [_ H].
  edestruct H as [Hok Hkeep]; [reflexivity | reflexivity | ].
  specialize (Hkeep _ eq_refl).
  destruct (ProbeServer Sample.deadPortal (mkState Sample.fresh [])) as [o st'] eqn:Hp.
  simpl in Hok. subst o. vm_compute in Hp. injection Hp as <-. reflexivity.
Defined.

(** C8. A handshake that is served and decodes sets Token to the decoded
    js.token and leaves PortalURL, MAC, Timezone and both capability
    flags as they were.  A transport failure, a body that does not
    decode, and a request that cannot be built each return an error and
    leave the client, Token included, unchanged. *)
Theorem Authenticate_frame E c log :
  (forall req resp j response,
      handshakeRequest E c = Some req ->
      roundTrip E log req = Http.Served resp ->
      Http.readJSON (Http.RespBody resp) = Some j ->
      decodeHandshake (jsonFold E) j = Some response ->
      Authenticate E (mkState c log)
      = (Ok tt,
         mkState
           (mkStalkerClient (PortalURL c) (MAC c) (Timezone c)
              (HandshakeResponse.Token (HandshakeResponse.Js response)) (Config c))
           (log ++ [(req, Http.Served resp)])))
  /\ (forall req msg,
        handshakeRequest E c = Some req ->
        roundTrip E log req = Http.Failed msg ->
        Authenticate E (mkState c log)
        = (Err (Errorf "handshake request failed" (TransportError msg)),
           mkState c (log ++ [(req, Http.Failed msg)])))
  /\ (forall req resp,
        handshakeRequest E c = Some req ->
        roundTrip E log req = Http.Served resp ->
        (Http.readJSON (Http.RespBody resp) = None
         \/ exists j, Http.readJSON (Http.RespBody resp) = Some j
                      /\ decodeHandshake (jsonFold E) j = None) ->
        Authenticate E (mkState c log)
        = (Err (Errorf "failed to parse handshake response" DecodeError),
           mkState c (log ++ [(req, Http.Served resp)])))
  /\ (handshakeRequest E c = None ->
      Authenticate E (mkState c log)
      = (Err (Errorf "failed to create handshake request" UrlError), mkState c log)).
Proof.
  repeat apply conj.
  - apply Authenticate_ok.
  - apply Authenticate_transport_failure.
  - apply Authenticate_decode_failure.
  - apply Authenticate_no_request.
Qed.

Lemma Authenticate_frame_witness :
  (exists log',
     Authenticate Sample.portal (mkState Sample.fresh [])
     = (Ok tt, mkState (setToken Sample.fresh "tok123") log'))
  /\ (exists e log',
        Authenticate Sample.deadPortal (mkState Sample.authed [])
        = (Err e, mkState Sample.authed log')).
Proof.
  split.
  - destruct (Authenticate_frame Sample.portal Sample.fresh []) as (Hok & _).
    eexists. exact (Hok _ _ Sample.tokenJSON _ eq_refl eq_refl eq_refl eq_refl).
  - destruct (Authenticate_frame Sample.deadPortal Sample.authed [])
      as (_ & Hfail & _).
    eexists _, _. exact (Hfail _ _ eq_refl eq_refl).
Defined.

(** C9.  A handshake answer that is valid JSON and lacks js.token is
    not always accepted.  When the value is null or an object whose js
    members are null or objects (such as {} or {"js":{}}), Authenticate
    returns nil and Token is the empty string, and GetChannels,
    GetPlaybackURL with RequiresCreateLink true, and GetEPG, run next,
    each send the handshake request again before anything else.  For
    every other value without js.token (an array or a scalar, or js an
    array or a scalar) Authenticate returns the parse error and the
    client, its token included, is as it was. *)
Theorem Authenticate_missing_token E c log req resp j :
  handshakeRequest E c = Some req ->
  roundTrip E log req = Http.Served resp ->
  Http.readJSON (Http.RespBody resp) = Some j ->
  lacksJs (jsonFold E) "token" j = true ->
  let log' := (log ++ [(req, Http.Served resp)])%list in
  let st' :=
    mkState (mkStalkerClient (PortalURL c) (MAC c) (Timezone c) EmptyString (Config c))
            log' in
  let again := (req, roundTrip E (traffic st') req) in
  (envelopeShaped (jsonFold E) j = true ->
   Authenticate E (mkState c log) = (Ok tt, st')
   /\ (exists rest,
         traffic (snd (GetChannels E st')) = (traffic st' ++ again :: rest)%list)
   /\ (forall channelCmd,
         RequiresCreateLink (Config c) = true ->
         exists rest,
           traffic (snd (GetPlaybackURL E channelCmd st'))
           = (traffic st' ++ again :: rest)%list)
   /\ (forall channelID,
         exists rest,
           traffic (snd (GetEPG E channelID st'))
           = (traffic st' ++ again :: rest)%list))
  /\ (envelopeShaped (jsonFold E) j = false ->
      Authenticate E (mkState c log)
      = (Err (Errorf "failed to parse handshake response" DecodeError),
         mkState c log')).
Proof.
  intros Hq Hr Hj Hl log' st' again.
  pose proof (decodeHandshake_lacking _ _ Hl) as Hd.
  split; intros Hs; rewrite Hs in Hd.
  - assert (Hq' : handshakeRequest E (client st') = Some req).
    { destruct c. exact Hq. }
    split; [|split; [|split]].
    + rewrite (Authenticate_ok E c log req resp j HandshakeResponse.zero Hq Hr Hj Hd).
      reflexivity.
    + unfold GetChannels. apply guard_sends_handshake; [reflexivity | exact Hq' |].
      extends_tac.
    + intros channelCmd Hreq. unfold GetPlaybackURL.
      unfold bind at 1. unfold getClient. cbn [client st' Config RequiresCreateLink].
      rewrite Hreq. cbn [negb].
      apply guard_sends_handshake; [reflexivity | exact Hq' |]. extends_tac.
    + intros channelID. unfold GetEPG.
      apply guard_sends_handshake; [reflexivity | exact Hq' |]. extends_tac.
  - apply Authenticate_decode_failure; [exact Hq | exact Hr |].
    right. exists j. split; [exact Hj | exact Hd].
Qed.

Lemma Authenticate_missing_token_witness :
  (exists st',
     Authenticate Sample.noTokenPortal (mkState Sample.authed []) = (Ok tt, st')
     /\ Token (client st') = EmptyString
     /\ exists req resp rest,
          traffic (snd (GetEPG Sample.noTokenPortal "1" st'))
          = ([(req, resp); (req, resp)] ++ rest)%list)
  /\ (exists e st',
        Authenticate MoreSamples.scalarJsPortal (mkState Sample.authed [])
        = (Err e, st')
        /\ Token (client st') = "tok123").
Proof.
  split.
  - edestruct (Authenticate_missing_token Sample.noTokenPortal Sample.authed [])
      as (Hshaped & _);
      [reflexivity | reflexivity | reflexivity | reflexivity | ].
    destruct (Hshaped eq_refl) as (Hauth & _ & _ & Hepg).
    eexists. split; [exact Hauth|]. split; [reflexivity|].
    destruct (Hepg "1") as [rest Hrest].
    eexists _, _, rest. rewrite Hrest. reflexivity.
  - edestruct (Authenticate_missing_token MoreSamples.scalarJsPortal Sample.authed [])
      as (_ & Herr);
      [reflexivity | reflexivity | reflexivity | reflexivity | ].
    eexists _, _. split; [exact (Herr eq_refl) | reflexivity].
Defined.

(** C9 as the specification states it fails: the handshake answer
    {"js":5} is valid JSON without js.token, yet Authenticate returns an
    error and leaves the token it had; GetEPG, run next, sends its own
    request with that token and no handshake. *)
Lemma Authenticate_missing_token_counterexample :
  let body := Json.JObject [("js", Json.JInt 5)] in
  let run := Authenticate MoreSamples.scalarJsPortal (mkState Sample.authed []) in
  lacksJs Sample.upper "token" body = true
  /\ map snd (traffic (snd run))
     = [Http.Served (Http.mkResponse 200 [] (Http.Plain (Some body)))]
  /\ fst run = Err (Errorf "failed to parse handshake response" DecodeError)
  /\ Token (client (snd run)) = "tok123"
  /\ Token (client (snd run)) <> EmptyString
  /\ map (fun x => Http.Get (Http.ReqHeader (fst x)) "Authorization")
       (traffic (snd (GetEPG MoreSamples.scalarJsPortal "1" (snd run))))
     = [EmptyString; "Bearer tok123"].
Proof.
  vm_compute. repeat split; try reflexivity; discriminate.
Qed.

(** C10.  When the timezone resolves, the text ConvertEPGToXMLTV returns,
    read back as XML, declares one channel, whose id attribute and
    display name are both the escaped channelID argument, and has one
    programme per input entry, in order, whose channel attribute is the
    escaped ChannelID of that entry.  So a programme refers to the
    declared channel when its entry's ChannelID is the argument, and to
    an id the document does not declare when the two escape to
    different texts, which they do whenever they differ and consist of
    printable ASCII characters. *)
Theorem ConvertEPGToXMLTV_channel_references E c channelID programs loc :
  LoadLocation E (Timezone c) = Some loc ->
  exists doc,
    ConvertEPGToXMLTV E c channelID programs = Ok doc
    /\ declaredChannels doc = [Xml.EscapeText channelID]
    /\ displayNames doc = [Xml.EscapeText channelID]
    /\ referencedChannels doc
       = map (fun p => Xml.EscapeText (EPGProgram.ChannelID p)) programs
    /\ (forall p,
          In p programs ->
          Xml.EscapeText (EPGProgram.ChannelID p) <> Xml.EscapeText channelID ->
          exists id, In id (referencedChannels doc) /\ ~ In id (declaredChannels doc))
    /\ (forall p,
          In p programs ->
          printable (EPGProgram.ChannelID p) = true -> printable channelID = true ->
          EPGProgram.ChannelID p <> channelID ->
          exists id, In id (referencedChannels doc) /\ ~ In id (declaredChannels doc)).
Proof.
  intros Hl. unfold ConvertEPGToXMLTV. rewrite Hl. eexists. split; [reflexivity|].
  rewrite buildXMLTV_eq.
  destruct (document_channels channelID (map (toXMLTVProgram E loc) programs))
    as (Hd & Hn & Hr).
  rewrite map_map in Hr. cbn [toXMLTVProgram XMLTVProgram.Channel] in Hr.
  rewrite Hd, Hn, Hr.
  assert (Hdiff : forall p,
             In p programs ->
             Xml.EscapeText (EPGProgram.ChannelID p) <> Xml.EscapeText channelID ->
             exists id,
               In id (map (fun p => Xml.EscapeText (EPGProgram.ChannelID p)) programs)
               /\ ~ In id [Xml.EscapeText channelID]).
  { intros p Hin Hne. exists (Xml.EscapeText (EPGProgram.ChannelID p)). split.
    - apply (in_map (fun p => Xml.EscapeText (EPGProgram.ChannelID p))). exact Hin.
    - intros [Heq | []]. apply Hne. symmetry. exact Heq. }
  repeat split; try reflexivity; [exact Hdiff|].
  intros p Hin Hp Hc Hne. apply (Hdiff p Hin). intros Heq. apply Hne.
  apply EscapeText_printable_inj; assumption.
Qed.

Lemma ConvertEPGToXMLTV_channel_references_witness :
  exists doc,
    ConvertEPGToXMLTV Sample.portal Sample.fresh "7" [Sample.entry] = Ok doc
    /\ declaredChannels doc = ["7"]
    /\ referencedChannels doc = ["1"].
Proof.
  destruct (ConvertEPGToXMLTV_channel_references Sample.portal Sample.fresh "7"
              [Sample.entry] Time.UTC eq_refl) as (doc & Hrun & Hd & _ & Hr & _).
  exists doc. split; [exact Hrun|]. split; [exact Hd | exact Hr].
Defined.

(** C10 as the specification states it fails: the channelID argument
    and the ChannelID of the entry are different strings, each one
    character that XML cannot carry.  Both are written as U+FFFD, so the
    programme of the document refers to exactly the id the document
    declares. *)
Lemma ConvertEPGToXMLTV_channel_references_counterexample :
  let argument := String (ascii_of_N 1) EmptyString in
  let own := String (ascii_of_N 2) EmptyString in
  let entry := EPGProgram.mk own "News" 0 60 "d" "c" in
  own <> argument
  /\ exists doc,
       ConvertEPGToXMLTV Sample.portal Sample.fresh argument [entry] = Ok doc
       /\ declaredChannels doc = [Xml.escFFFD]
       /\ referencedChannels doc = [Xml.escFFFD]
       /\ forall id, In id (referencedChannels doc) -> In id (declaredChannels doc).
Proof.
  split; [discriminate|]. eexists. split; [reflexivity|].
  split; [vm_compute; reflexivity|]. split; [vm_compute; reflexivity|].
  intros id H. vm_compute in H. vm_compute. exact H.
Qed.

(* ===================================================================== *)
(** * Further properties of the code *)
(* ===================================================================== *)

(* ---------- frames ---------- *)

Lemma sameIdentity_refl c : sameIdentity c c.
Proof. repeat split. Qed.

Lemma sameIdentity_trans a b c :
  sameIdentity a b -> sameIdentity b c -> sameIdentity a c.
Proof. intros (H1 & H2 & H3) (H4 & H5 & H6). repeat split; congruence. Qed.

Lemma lazyFrame_refl c : lazyFrame c c.
Proof. split; [apply sameIdentity_refl|]. split; [reflexivity|]. intros _. reflexivity. Qed.

Lemma lazyFrame_trans a b c : lazyFrame a b -> lazyFrame b c -> lazyFrame a c.
Proof.
  intros (I1 & C1 & T1) (I2 & C2 & T2). split; [eapply sameIdentity_trans; eauto|].
  split; [congruence|]. intros H. rewrite T2; [exact (T1 H)|]. rewrite (T1 H). exact H.
Qed.

Lemma probeFrame_refl c : probeFrame c c.
Proof. split; [apply sameIdentity_refl|]. repeat split; auto. Qed.

Lemma probeFrame_trans a b c : probeFrame a b -> probeFrame b c -> probeFrame a c.
Proof.
  intros (I1 & T1 & G1 & R1) (I2 & T2 & G2 & R2).
  split; [eapply sameIdentity_trans; eauto|]. split; [congruence|]. split; auto.
Qed.

Section Keeps.

Variable R : StalkerClient -> StalkerClient -> Prop.
Hypothesis R_refl : forall c, R c c.
Hypothesis R_trans : forall a b c, R a b -> R b c -> R a c.

Lemma keeps_ret {A} (a : A) : keeps R (ret a).
Proof. intros st. apply R_refl. Qed.

Lemma keeps_fail {A} ctx c : keeps R (@fail A ctx c).
Proof. intros st. apply R_refl. Qed.

Lemma keeps_panic {A} : keeps R (@panic A).
Proof. intros st. apply R_refl. Qed.

Lemma keeps_getClient : keeps R getClient.
Proof. intros st. apply R_refl. Qed.

Lemma keeps_Do E req : keeps R (Do E req).
Proof. intros st. apply R_refl. Qed.

Lemma keeps_bind {A B} (m : M A) (k : A -> M B) :
  keeps R m -> (forall a, keeps R (k a)) -> keeps R (bind m k).
Proof.
  intros Hm Hk st. unfold bind. specialize (Hm st).
  destruct (m st) as [[a|e|] st1]; simpl in *; try exact Hm.
  eapply R_trans; [exact Hm|]. apply Hk.
Qed.

End Keeps.

Ltac keeps_tac Hrefl Htrans :=
  repeat first
    [ apply (keeps_ret _ Hrefl) | apply (keeps_fail _ Hrefl)
    | apply (keeps_panic _ Hrefl) | apply (keeps_getClient _ Hrefl)
    | apply (keeps_Do _ Hrefl)
    | apply (keeps_bind _ Htrans); [|intros]
    | match goal with
      | |- keeps _ (match ?x with _ => _ end) => destruct x
      end ].

(** Authenticate writes the token and nothing else. *)
Lemma Authenticate_identity E st :
  sameIdentity (client st) (client (snd (Authenticate E st)))
  /\ Config (client (snd (Authenticate E st))) = Config (client st).
Proof.
  unfold Authenticate, bind, getClient, Do, fail, modifyClient. simpl.
  destruct (handshakeRequest E (client st)) as [req|]; simpl;
    [|split; [apply sameIdentity_refl | reflexivity]].
  destruct (roundTrip E (traffic st) req) as [msg|resp]; simpl;
    [split; [apply sameIdentity_refl | reflexivity]|].
  destruct (Http.readJSON (Http.RespBody resp)) as [j|]; simpl;
    [|split; [apply sameIdentity_refl | reflexivity]].
  destruct (decodeHandshake (jsonFold E) j); simpl;
    split; try apply sameIdentity_refl; try reflexivity.
  repeat split.
Qed.

Lemma guard_lazyFrame E : keeps lazyFrame (authenticateIfNoToken E).
Proof.
  intros st. unfold authenticateIfNoToken. unfold bind at 1. unfold getClient.
  destruct (String.eqb_spec (Token (client st)) EmptyString) as [He|Hne].
  - destruct (Authenticate_identity E st) as [Hi Hc].
    split; [exact Hi|]. split; [exact Hc|]. intros H. contradiction.
  - apply lazyFrame_refl.
Qed.

Lemma GetChannels_lazyFrame E : keeps lazyFrame (GetChannels E).
Proof.
  unfold GetChannels. apply (keeps_bind _ lazyFrame_trans); [apply guard_lazyFrame|].
  intros _. keeps_tac lazyFrame_refl lazyFrame_trans.
Qed.

Lemma GetEPG_lazyFrame E id : keeps lazyFrame (GetEPG E id).
Proof.
  unfold GetEPG. apply (keeps_bind _ lazyFrame_trans); [apply guard_lazyFrame|].
  intros _. keeps_tac lazyFrame_refl lazyFrame_trans.
Qed.

Lemma GetPlaybackURL_lazyFrame E cmd : keeps lazyFrame (GetPlaybackURL E cmd).
Proof.
  unfold GetPlaybackURL. apply (keeps_bind _ lazyFrame_trans);
    [apply (keeps_getClient _ lazyFrame_refl)|].
  intros c. destruct (negb (RequiresCreateLink (Config c)));
    [apply (keeps_ret _ lazyFrame_refl)|].
  apply (keeps_bind _ lazyFrame_trans); [apply guard_lazyFrame|].
  intros _. keeps_tac lazyFrame_refl lazyFrame_trans.
Qed.

Lemma keeps_raise_gzip : keeps probeFrame (modifyClient (fun c => setSupportsGzip c true)).
Proof. intros st. simpl. repeat split; auto. Qed.

Lemma keeps_raise_link :
  keeps probeFrame (modifyClient (fun c => setRequiresCreateLink c true)).
Proof. intros st. simpl. repeat split; auto. Qed.

Lemma ProbeServer_probeFrame E : keeps probeFrame (ProbeServer E).
Proof.
  unfold ProbeServer, gzipTrial, linkTrial, deref.
  repeat first
    [ apply keeps_raise_gzip | apply keeps_raise_link
    | apply (keeps_ret _ probeFrame_refl) | apply (keeps_fail _ probeFrame_refl)
    | apply (keeps_panic _ probeFrame_refl) | apply (keeps_getClient _ probeFrame_refl)
    | apply (keeps_Do _ probeFrame_refl)
    | apply (keeps_bind _ probeFrame_trans); [|intros]
    | match goal with
      | |- keeps _ (match ?x with _ => _ end) => destruct x
      end ].
Qed.

(* ---------- round-trip budget ---------- *)

Lemma atMost_zero {A} (m : M A) :
  (forall st, traffic (snd (m st)) = traffic st) -> atMost 0 m.
Proof. intros H st. exists []. rewrite H, app_nil_r. split; [reflexivity|simpl; lia]. Qed.

Lemma atMost_ret {A} (a : A) : atMost 0 (ret a).
Proof. apply atMost_zero. reflexivity. Qed.

Lemma atMost_fail {A} ctx c : atMost 0 (@fail A ctx c).
Proof. apply atMost_zero. reflexivity. Qed.

Lemma atMost_panic {A} : atMost 0 (@panic A).
Proof. apply atMost_zero. reflexivity. Qed.

Lemma atMost_getClient : atMost 0 getClient.
Proof. apply atMost_zero. reflexivity. Qed.

Lemma atMost_modifyClient f : atMost 0 (modifyClient f).
Proof. apply atMost_zero. reflexivity. Qed.

Lemma atMost_Do E req : atMost 1 (Do E req).
Proof. intros st. eexists. split; [reflexivity|simpl; lia]. Qed.

Lemma atMost_le {A} n n' (m : M A) : (n <= n')%nat -> atMost n m -> atMost n' m.
Proof. intros Hle H st. destruct (H st) as (rest & Hr & Hl). exists rest. split; [exact Hr|lia]. Qed.

Lemma atMost_bind {A B} n1 n2 (m : M A) (k : A -> M B) :
  atMost n1 m -> (forall a, atMost n2 (k a)) -> atMost (n1 + n2) (bind m k).
Proof.
  intros Hm Hk st. unfold bind. destruct (Hm st) as (r1 & H1 & L1).
  destruct (m st) as [[a|e|] st1]; simpl in *.
  - destruct (Hk a st1) as (r2 & H2 & L2). exists (r1 ++ r2)%list.
    rewrite H2, H1, app_assoc. split; [reflexivity|]. rewrite length_app. lia.
  - exists r1. split; [exact H1|lia].
  - exists r1. split; [exact H1|lia].
Qed.

(** Leaves and branches that send nothing. *)
Ltac quiet :=
  repeat first
    [ apply atMost_ret | apply atMost_fail | apply atMost_panic
    | apply atMost_getClient | apply atMost_modifyClient
    | match goal with
      | |- atMost _ (match ?x with _ => _ end) => destruct x
      end ].

Lemma Authenticate_atMost E : atMost 1 (Authenticate E).
Proof.
  unfold Authenticate. apply (atMost_bind 0 1); [apply atMost_getClient|].
  intros c. destruct (handshakeRequest E c) as [req|];
    [|apply (atMost_le 0); [lia|apply atMost_fail]].
  apply (atMost_bind 1 0); [apply atMost_Do|]. intros r. quiet.
Qed.

Lemma guard_atMost E : atMost 1 (authenticateIfNoToken E).
Proof.
  unfold authenticateIfNoToken. apply (atMost_bind 0 1); [apply atMost_getClient|].
  intros c. destruct (Token c =? "")%string;
    [apply Authenticate_atMost | apply (atMost_le 0); [lia|apply atMost_ret]].
Qed.

(** What follows the guard sends one request at most. *)
Ltac tail_atMost :=
  apply (atMost_bind 0 1); [apply atMost_getClient|]; intros ?c;
  match goal with
  | |- atMost 1 (match ?q with _ => _ end) =>
      destruct q as [?req|]; [|apply (atMost_le 0); [lia|apply atMost_fail]]
  end;
  apply (atMost_bind 1 0); [apply atMost_Do|]; intros r;
  destruct r as [?msg|?resp]; [apply atMost_fail|];
  first [ solve [quiet] | apply (atMost_bind 0 0); [quiet|]; intros ?b; quiet ].

Lemma GetChannels_atMost E : atMost 2 (GetChannels E).
Proof.
  unfold GetChannels. apply (atMost_bind 1 1); [apply guard_atMost|]. intros _.
  tail_atMost.
Qed.

Lemma GetEPG_atMost E id : atMost 2 (GetEPG E id).
Proof.
  unfold GetEPG. apply (atMost_bind 1 1); [apply guard_atMost|]. intros _.
  tail_atMost.
Qed.

Lemma GetPlaybackURL_atMost E cmd : atMost 2 (GetPlaybackURL E cmd).
Proof.
  unfold GetPlaybackURL. apply (atMost_bind 0 2); [apply atMost_getClient|]. intros c.
  destruct (negb (RequiresCreateLink (Config c)));
    [apply (atMost_le 0); [lia|apply atMost_ret]|].
  apply (atMost_bind 1 1); [apply guard_atMost|]. intros _. tail_atMost.
Qed.

Lemma deref_quiet (q : option Http.Request) : atMost 0 (deref q).
Proof. destruct q; [apply atMost_ret | apply atMost_panic]. Qed.

Lemma ProbeServer_atMost E : atMost 2 (ProbeServer E).
Proof.
  unfold ProbeServer. apply (atMost_bind 0 2); [apply atMost_getClient|]. intros c.
  apply (atMost_bind 1 1).
  - unfold gzipTrial. apply (atMost_bind 0 1); [apply deref_quiet|]. intros q.
    apply (atMost_bind 1 0); [apply atMost_Do|]. intros r. quiet.
  - intros _. apply (atMost_bind 1 0); [|intros; apply atMost_ret].
    unfold linkTrial. apply (atMost_bind 0 1); [apply deref_quiet|]. intros q.
    apply (atMost_bind 1 0); [apply atMost_Do|]. intros r. quiet.
Qed.

(** With a token the guard is a no-op. *)
Lemma guard_with_token E st :
  Token (client st) <> EmptyString -> authenticateIfNoToken E st = (Ok tt, st).
Proof.
  intros H. unfold authenticateIfNoToken, bind, getClient. simpl.
  apply String.eqb_neq in H. rewrite H. reflexivity.
Qed.

(** X1. GetChannels, GetPlaybackURL and GetEPG write nothing of the
    client but the token, and the token only through the guard
    [if c.Token == ""]: after any run, whatever the portal answers and
    however the run ends, PortalURL, MAC, Timezone and Config are the
    ones before the call, and a token that was not empty is still the
    same token. *)
Theorem lazy_operations_frame E st channelCmd channelID :
  lazyFrame (client st) (client (snd (GetChannels E st)))
  /\ lazyFrame (client st) (client (snd (GetPlaybackURL E channelCmd st)))
  /\ lazyFrame (client st) (client (snd (GetEPG E channelID st))).
Proof.
  split; [apply GetChannels_lazyFrame|].
  split; [apply GetPlaybackURL_lazyFrame | apply GetEPG_lazyFrame].
Qed.

(** X2. ProbeServer never authenticates: after any run PortalURL, MAC,
    Timezone and Token are unchanged, a flag of Config that was true is
    still true, and the call has added at most two round trips to the
    network log, after the ones that were there. *)
Theorem ProbeServer_frame E st :
  probeFrame (client st) (client (snd (ProbeServer E st)))
  /\ exists rest,
       traffic (snd (ProbeServer E st)) = (traffic st ++ rest)%list
       /\ (List.length rest <= 2)%nat.
Proof. split; [apply ProbeServer_probeFrame | apply ProbeServer_atMost]. Qed.

Lemma with_token_atMost {A} E (k : M A) st :
  Token (client st) <> EmptyString -> atMost 1 k ->
  exists rest,
    traffic (snd (bind (authenticateIfNoToken E) (fun _ => k) st))
    = (traffic st ++ rest)%list /\ (List.length rest <= 1)%nat.
Proof.
  intros Ht Hk. unfold bind at 1. rewrite (guard_with_token E st Ht). apply Hk.
Qed.

Lemma budget_both {A} (m : M A) st :
  atMost 2 m ->
  (Token (client st) <> EmptyString ->
   exists rest, traffic (snd (m st)) = (traffic st ++ rest)%list
                /\ (List.length rest <= 1)%nat) ->
  exists rest,
    traffic (snd (m st)) = (traffic st ++ rest)%list
    /\ (List.length rest <= 2)%nat
    /\ (Token (client st) <> EmptyString -> (List.length rest <= 1)%nat).
Proof.
  intros H2 H1. destruct (H2 st) as (rest & Hr & Hl). exists rest.
  split; [exact Hr|]. split; [exact Hl|]. intros Ht.
  destruct (H1 Ht) as (rest' & Hr' & Hl'). rewrite Hr in Hr'.
  apply app_inv_head in Hr'. subst rest'. exact Hl'.
Qed.

(** X3. No operation loops or retries: Authenticate adds at most one
    round trip to the log, GetChannels, GetPlaybackURL and GetEPG at
    most two (the handshake of the guard and their own request), and at
    most one when the client already holds a token.  Earlier exchanges
    are never removed or rewritten. *)
Theorem round_trip_budget E st channelCmd channelID :
  (exists rest,
     traffic (snd (Authenticate E st)) = (traffic st ++ rest)%list
     /\ (List.length rest <= 1)%nat)
  /\ (exists rest,
        traffic (snd (GetChannels E st)) = (traffic st ++ rest)%list
        /\ (List.length rest <= 2)%nat
        /\ (Token (client st) <> EmptyString -> (List.length rest <= 1)%nat))
  /\ (exists rest,
        traffic (snd (GetPlaybackURL E channelCmd st)) = (traffic st ++ rest)%list
        /\ (List.length rest <= 2)%nat
        /\ (Token (client st) <> EmptyString -> (List.length rest <= 1)%nat))
  /\ (exists rest,
        traffic (snd (GetEPG E channelID st)) = (traffic st ++ rest)%list
        /\ (List.length rest <= 2)%nat
        /\ (Token (client st) <> EmptyString -> (List.length rest <= 1)%nat)).
Proof.
  split; [apply Authenticate_atMost|]. split; [|split].
  - apply budget_both; [apply GetChannels_atMost|]. intros Ht.
    unfold GetChannels. apply with_token_atMost; [exact Ht|]. tail_atMost.
  - apply budget_both; [apply GetPlaybackURL_atMost|]. intros Ht.
    unfold GetPlaybackURL. unfold bind at 1. unfold getClient. cbn [fst snd].
    destruct (negb (RequiresCreateLink (Config (client st)))).
    + exists []. rewrite app_nil_r. split; [reflexivity|simpl; lia].
    + apply with_token_atMost; [exact Ht|]. tail_atMost.
  - apply budget_both; [apply GetEPG_atMost|]. intros Ht.
    unfold GetEPG. apply with_token_atMost; [exact Ht|]. tail_atMost.
Qed.

(** X4. When the guard of GetChannels has obtained a token and the
    channels request then fails in transport, GetChannels returns the
    error [channels request failed] but the client keeps the new token:
    the failed call is not rolled back, and calling GetChannels again
    sends the channels request at once, without a second handshake. *)
Theorem GetChannels_failure_keeps_token E st st1 req msg :
  Token (client st) = EmptyString ->
  authenticateIfNoToken E st = (Ok tt, st1) ->
  Token (client st1) <> EmptyString ->
  channelsRequest E (client st1) = Some req ->
  roundTrip E (traffic st1) req = Http.Failed msg ->
  let st2 := mkState (client st1) (traffic st1 ++ [(req, Http.Failed msg)]) in
  GetChannels E st
  = (Err (Errorf "channels request failed" (TransportError msg)), st2)
  /\ Token (client st2) <> Token (client st)
  /\ traffic (snd (GetChannels E st2))
     = (traffic st2 ++ [(req, roundTrip E (traffic st2) req)])%list.
Proof.
  intros Ht Ha Hne Hq Hr st2. split; [|split].
  - unfold GetChannels. unfold bind at 1. rewrite Ha. run. rewrite Hq. simpl.
    rewrite Hr. reflexivity.
  - rewrite Ht. exact Hne.
  - unfold GetChannels. unfold bind at 1.
    rewrite (guard_with_token E st2 Hne). run. rewrite Hq. simpl.
    destruct (roundTrip E (traffic st1 ++ [(req, Http.Failed msg)]) req) as [m|resp];
      [reflexivity|]. simpl.
    destruct (SupportsGzip (Config (client st1))
              && (Http.Get (Http.RespHeader resp) "Content-Encoding" =? "gzip")%string);
      simpl.
    + destruct (Http.gzipNewReader (Http.RespBody resp)) as [gz|]; simpl; [|reflexivity].
      destruct (Http.readJSON gz) as [j|]; simpl; [|reflexivity].
      destruct (decodeChannelList (jsonFold E) j); reflexivity.
    + destruct (Http.readJSON (Http.RespBody resp)) as [j|]; simpl; [|reflexivity].
      destruct (decodeChannelList (jsonFold E) j); reflexivity.
Qed.

Lemma GetChannels_failure_keeps_token_witness :
  exists st2,
    GetChannels MoreSamples.handshakeOnly (mkState Sample.fresh [])
    = (Err (Errorf "channels request failed" (TransportError "unsupported action")), st2)
    /\ Token (client st2) = "tok123"
    /\ List.length (traffic (snd (GetChannels MoreSamples.handshakeOnly st2))) = 3%nat.
Proof.
  edestruct (GetChannels_failure_keeps_token MoreSamples.handshakeOnly
               (mkState Sample.fresh [])) as (Hrun & _ & Hretry);
    [reflexivity | reflexivity | discriminate | reflexivity | reflexivity | ].
  eexists. split; [exact Hrun|]. split; [reflexivity|].
  rewrite Hretry. reflexivity.
Defined.

(** X5. Authenticate, GetChannels, GetPlaybackURL and GetEPG never look
    at the HTTP status: two responses with the same body give the same
    outcome and the same client, whatever their status codes and
    headers, for Authenticate, GetEPG and GetPlaybackURL; for
    GetChannels the Content-Encoding header must agree as well, since
    it selects the gzip reader. *)
Theorem status_is_not_consulted E c log log' req resp resp' :
  roundTrip E log req = Http.Served resp ->
  roundTrip E log' req = Http.Served resp' ->
  Http.RespBody resp = Http.RespBody resp' ->
  let same {A : Type} (m : M A) :=
    fst (m (mkState c log)) = fst (m (mkState c log'))
    /\ client (snd (m (mkState c log))) = client (snd (m (mkState c log'))) in
  (handshakeRequest E c = Some req -> same (Authenticate E))
  /\ (forall channelID,
        Token c <> EmptyString -> epgRequest E c channelID = Some req ->
        same (GetEPG E channelID))
  /\ (forall channelCmd,
        Token c <> EmptyString -> createLinkRequest E c channelCmd = Some req ->
        same (GetPlaybackURL E channelCmd))
  /\ (Token c <> EmptyString -> channelsRequest E c = Some req ->
      Http.Get (Http.RespHeader resp) "Content-Encoding"
      = Http.Get (Http.RespHeader resp') "Content-Encoding" ->
      same (GetChannels E)).
Proof.
  intros Hr Hr' Hb same. unfold same. split; [|split; [|split]].
  - intros Hq. unfold Authenticate. run. rewrite Hq. simpl.
    rewrite Hr, Hr'. rewrite Hb.
    destruct (Http.readJSON (Http.RespBody resp')) as [j|]; simpl; [|split; reflexivity].
    destruct (decodeHandshake (jsonFold E) j); simpl; split; reflexivity.
  - intros channelID Ht Hq.
    assert (Hg : forall l, authenticateIfNoToken E (mkState c l) = (Ok tt, mkState c l))
      by (intros l; apply guard_with_token; exact Ht).
    unfold GetEPG, bind. rewrite !Hg. run. rewrite Hq. simpl.
    rewrite Hr, Hr'. rewrite Hb.
    destruct (Http.readJSON (Http.RespBody resp')) as [j|]; simpl; [|split; reflexivity].
    destruct (decodeEPG (jsonFold E) j); simpl; [|split; reflexivity].
    destruct (LoadLocation E (Timezone c)); simpl; split; reflexivity.
  - intros channelCmd Ht Hq.
    assert (Hg : forall l, authenticateIfNoToken E (mkState c l) = (Ok tt, mkState c l))
      by (intros l; apply guard_with_token; exact Ht).
    unfold GetPlaybackURL, bind, getClient. cbn [client fst snd].
    destruct (negb (RequiresCreateLink (Config c))); [split; reflexivity|].
    rewrite !Hg. run. rewrite Hq. simpl.
    rewrite Hr, Hr'. rewrite Hb.
    destruct (Http.readJSON (Http.RespBody resp')) as [j|]; simpl; [|split; reflexivity].
    destruct (decodeCreateLink (jsonFold E) j); simpl; split; reflexivity.
  - intros Ht Hq Hh.
    assert (Hg : forall l, authenticateIfNoToken E (mkState c l) = (Ok tt, mkState c l))
      by (intros l; apply guard_with_token; exact Ht).
    unfold GetChannels, bind. rewrite !Hg. run. rewrite Hq. simpl.
    rewrite Hr, Hr'. rewrite Hb, Hh.
    destruct (SupportsGzip (Config c)
              && (Http.Get (Http.RespHeader resp') "Content-Encoding" =? "gzip")%string);
      simpl.
    + destruct (Http.gzipNewReader (Http.RespBody resp')) as [gz|]; simpl;
        [|split; reflexivity].
      destruct (Http.readJSON gz) as [j|]; simpl; [|split; reflexivity].
      destruct (decodeChannelList (jsonFold E) j); split; reflexivity.
    + destruct (Http.readJSON (Http.RespBody resp')) as [j|]; simpl;
        [|split; reflexivity].
      destruct (decodeChannelList (jsonFold E) j); split; reflexivity.
Qed.

Lemma status_is_not_consulted_witness :
  exists early late,
    roundTrip MoreSamples.moody [] early = Http.Served (Http.mkResponse 200 [] (Http.Plain (Some Sample.tokenJSON)))
    /\ roundTrip MoreSamples.moody [late] early
       = Http.Served (Http.mkResponse 500 [] (Http.Plain (Some Sample.tokenJSON)))
    /\ client (snd (Authenticate MoreSamples.moody (mkState Sample.fresh [late])))
       = setToken Sample.fresh "tok123".
Proof.
  pose (req :=
          Http.mkRequest "GET"
            ("http://example.com/stalker_portal/server/load.php"
             ++ "?JsHttpRequest=1-xml&action=handshake&type=stb")
            [("Cookie", "mac=00:1A:79:18:05:75; stb_lang=en; timezone=UTC");
             ("User-Agent", "Mozilla/5.0 (QtEmbedded; U; Linux; C)")]).
  assert (Hq : handshakeRequest MoreSamples.moody Sample.fresh = Some req)
    by reflexivity.
  exists req, (req, Http.Failed "x").
  split; [reflexivity|]. split; [reflexivity|].
  edestruct (status_is_not_consulted MoreSamples.moody Sample.fresh []
               [(req, Http.Failed "x")] req)
    as ([_ Hc] & _); [reflexivity | reflexivity | reflexivity | exact Hq |].
  transitivity (client (snd (Authenticate MoreSamples.moody (mkState Sample.fresh []))));
    [symmetry; exact Hc | reflexivity].
Defined.

(** X6. With RequiresCreateLink set and a token in hand, GetPlaybackURL
    sends the create_link request once; the round trip is the one entry
    added to the log and the client is unchanged.  A body from which no
    JSON value is read, and a value that does not decode into a
    CreateLinkResponse, yield [failed to parse playback URL response].
    A value that decodes yields its [js.cmd], not the argument.  For a
    value without a js.cmd member this is the empty string with a nil
    error when the value is null or an object whose js members are null
    or objects, and the parse error for every other value (an array or
    a scalar, or js an array or a scalar). *)
Theorem GetPlaybackURL_indirect E c log channelCmd req resp :
  RequiresCreateLink (Config c) = true ->
  Token c <> EmptyString ->
  createLinkRequest E c channelCmd = Some req ->
  roundTrip E log req = Http.Served resp ->
  let st' := mkState c (log ++ [(req, Http.Served resp)]) in
  let run := GetPlaybackURL E channelCmd (mkState c log) in
  let parseError : Outcome string * State :=
    (Err (Errorf "failed to parse playback URL response" DecodeError), st') in
  (Http.readJSON (Http.RespBody resp) = None -> run = parseError)
  /\ (forall j,
        Http.readJSON (Http.RespBody resp) = Some j ->
        (forall response,
            decodeCreateLink (jsonFold E) j = Some response ->
            run = (Ok (CreateLinkResponse.Cmd (CreateLinkResponse.Js response)), st'))
        /\ (decodeCreateLink (jsonFold E) j = None -> run = parseError)
        /\ (lacksJs (jsonFold E) "cmd" j = true ->
            run = if envelopeShaped (jsonFold E) j
                  then (Ok EmptyString, st') else parseError)).
Proof.
  intros Hreq Ht Hq Hr st' run parseError.
  assert (Hrun : run =
    match option_map (decodeCreateLink (jsonFold E))
            (Http.readJSON (Http.RespBody resp)) with
    | Some (Some response) =>
        (Ok (CreateLinkResponse.Cmd (CreateLinkResponse.Js response)), st')
    | _ => parseError
    end).
  { unfold run, GetPlaybackURL. unfold bind at 1. unfold getClient.
    cbn [client fst snd]. rewrite Hreq. cbn [negb]. unfold bind at 1.
    rewrite (guard_with_token E (mkState c log) Ht). run. rewrite Hq. simpl.
    rewrite Hr. simpl.
    destruct (Http.readJSON (Http.RespBody resp)) as [j|]; simpl; [|reflexivity].
    destruct (decodeCreateLink (jsonFold E) j); reflexivity. }
  rewrite Hrun. split.
  - intros ->. reflexivity.
  - intros j ->. cbn [option_map]. split; [|split].
    + intros response ->. reflexivity.
    + intros ->. reflexivity.
    + intros Hl. rewrite (decodeCreateLink_lacking _ _ Hl).
      destruct (envelopeShaped (jsonFold E) j); reflexivity.
Qed.

Lemma GetPlaybackURL_indirect_witness :
  (exists st',
     GetPlaybackURL Sample.noTokenPortal "ffmpeg http://localhost/ch/1"
       (mkState MoreSamples.lost [])
     = (Ok "http://cdn.example.com/live/1.ts", st'))
  /\ (exists st',
        GetPlaybackURL MoreSamples.moody "ffmpeg http://localhost/ch/1"
          (mkState MoreSamples.lost [])
        = (Ok EmptyString, st'))
  /\ (exists st',
        GetPlaybackURL MoreSamples.scalarJsPortal "ffmpeg http://localhost/ch/1"
          (mkState MoreSamples.lost [])
        = (Err (Errorf "failed to parse playback URL response" DecodeError), st'))
  /\ (exists st',
        GetPlaybackURL MoreSamples.portal404 "ffmpeg http://localhost/ch/1"
          (mkState MoreSamples.lost [])
        = (Err (Errorf "failed to parse playback URL response" DecodeError), st')).
Proof.
  split; [|split; [|split]].
  - edestruct (GetPlaybackURL_indirect Sample.noTokenPortal MoreSamples.lost []
                 "ffmpeg http://localhost/ch/1") as (_ & H);
      [reflexivity | discriminate | reflexivity | reflexivity | ].
    destruct (H _ eq_refl) as (Hok & _ & _).
    eexists. exact (Hok _ eq_refl).
  - edestruct (GetPlaybackURL_indirect MoreSamples.moody MoreSamples.lost []
                 "ffmpeg http://localhost/ch/1") as (_ & H);
      [reflexivity | discriminate | reflexivity | reflexivity | ].
    destruct (H _ eq_refl) as (_ & _ & Hlack).
    eexists. exact (Hlack eq_refl).
  - edestruct (GetPlaybackURL_indirect MoreSamples.scalarJsPortal MoreSamples.lost []
                 "ffmpeg http://localhost/ch/1") as (_ & H);
      [reflexivity | discriminate | reflexivity | reflexivity | ].
    destruct (H _ eq_refl) as (_ & _ & Hlack).
    eexists. exact (Hlack eq_refl).
  - edestruct (GetPlaybackURL_indirect MoreSamples.portal404 MoreSamples.lost []
                 "ffmpeg http://localhost/ch/1") as (Hnone & _);
      [reflexivity | discriminate | reflexivity | reflexivity | ].
    eexists. exact (Hnone eq_refl).
Defined.

(** X7. A timezone that time.LoadLocation does not know is found late by
    GetEPG: the request is sent and its answer decoded first, and only
    then the call fails with [invalid timezone <name>], the round trip
    staying in the log.  ConvertEPGToXMLTV fails with the same error
    for every channel and every list of programs, the empty one
    included. *)
Theorem unknown_timezone_errors E c :
  LoadLocation E (Timezone c) = None ->
  let e := Errorf ("invalid timezone " ++ Timezone c) UnknownLocation in
  (forall log channelID req resp j epgResp,
      Token c <> EmptyString ->
      epgRequest E c channelID = Some req ->
      roundTrip E log req = Http.Served resp ->
      Http.readJSON (Http.RespBody resp) = Some j ->
      decodeEPG (jsonFold E) j = Some epgResp ->
      GetEPG E channelID (mkState c log)
      = (Err e, mkState c (log ++ [(req, Http.Served resp)])))
  /\ (forall channelID programs, ConvertEPGToXMLTV E c channelID programs = Err e).
Proof.
  intros Hl e. split.
  - intros log channelID req resp j epgResp Ht Hq Hr Hj Hd.
    unfold GetEPG. unfold bind at 1. rewrite (guard_with_token E (mkState c log) Ht).
    run. rewrite Hq. simpl. rewrite Hr, Hj. simpl. rewrite Hd, Hl. reflexivity.
  - intros channelID programs. unfold ConvertEPGToXMLTV. rewrite Hl. reflexivity.
Qed.

Lemma unknown_timezone_errors_witness :
  exists st',
    GetEPG Sample.portal "1" (mkState MoreSamples.lost [])
    = (Err (Errorf "invalid timezone Mars/Phobos" UnknownLocation), st')
    /\ List.length (traffic st') = 1%nat
    /\ ConvertEPGToXMLTV Sample.portal MoreSamples.lost "1" []
       = Err (Errorf "invalid timezone Mars/Phobos" UnknownLocation).
Proof.
  destruct (unknown_timezone_errors Sample.portal MoreSamples.lost eq_refl)
    as [Hepg Hconv].
  eexists. split; [|split; [|exact (Hconv "1" [])]].
  - eapply (Hepg [] "1"); [discriminate | reflexivity | reflexivity | reflexivity
                          | reflexivity].
  - reflexivity.
Defined.

Lemma GetEPG_success_inv E channelID st ps st' :
  GetEPG E channelID st = (Ok ps, st') ->
  exists loc, LoadLocation E (Timezone (client st')) = Some loc.
Proof.
  unfold GetEPG. unfold bind at 1.
  destruct (authenticateIfNoToken E st) as [[[]|e|] st1]; try discriminate.
  run. destruct (epgRequest E (client st1) channelID) as [req|]; simpl; [|discriminate].
  destruct (roundTrip E (traffic st1) req) as [msg|resp]; simpl; [discriminate|].
  destruct (Http.readJSON (Http.RespBody resp)) as [j|]; simpl; [|discriminate].
  destruct (decodeEPG (jsonFold E) j) as [r|]; simpl; [|discriminate].
  destruct (LoadLocation E (Timezone (client st1))) as [loc|] eqn:Hl; simpl;
    [|discriminate].
  intros [= _ <-]. exists loc. exact Hl.
Qed.

(** X8. What GetEPG returns, ConvertEPGToXMLTV accepts: after a
    successful GetEPG the client's timezone is one LoadLocation knows,
    so ConvertEPGToXMLTV on the resulting client cannot fail, for any
    channel id, and its document has one programme per returned
    entry. *)
Theorem GetEPG_then_ConvertEPGToXMLTV E channelID st programs st' :
  GetEPG E channelID st = (Ok programs, st') ->
  forall anyID,
  exists loc,
    LoadLocation E (Timezone (client st')) = Some loc
    /\ ConvertEPGToXMLTV E (client st') anyID programs
       = Ok (MarshalIndent (buildXMLTV E loc anyID programs))
    /\ List.length (Programs (buildXMLTV E loc anyID programs)) = List.length programs.
Proof.
  intros H anyID. destruct (GetEPG_success_inv E channelID st programs st' H) as [loc Hl].
  exists loc. split; [exact Hl|]. split.
  - unfold ConvertEPGToXMLTV. rewrite Hl. reflexivity.
  - rewrite buildXMLTV_eq. cbn [Programs]. apply length_map.
Qed.

Lemma GetEPG_then_ConvertEPGToXMLTV_witness :
  exists st' s,
    GetEPG Sample.portal "1" (mkState Sample.freshNY []) = (Ok [Sample.entry], st')
    /\ ConvertEPGToXMLTV Sample.portal (client st') "7" [Sample.entry] = Ok s.
Proof.
  set (st' := snd (GetEPG Sample.portal "1" (mkState Sample.freshNY []))).
  assert (Hrun : GetEPG Sample.portal "1" (mkState Sample.freshNY [])
                 = (Ok [Sample.entry], st')) by reflexivity.
  destruct (GetEPG_then_ConvertEPGToXMLTV Sample.portal "1" _ _ _ Hrun "7")
    as (loc & _ & Hc & _).
  exists st'. eexists. split; [exact Hrun | exact Hc].
Defined.

(** X9. The loop of ConvertEPGToXMLTV declares the single channel
    {channelID, channelID} and appends one programme per entry, in the
    order of the entries (it distributes over concatenation of the
    input), copying name, description and category verbatim into title,
    desc and category. *)
Theorem buildXMLTV_entries E loc channelID ps qs :
  let doc := buildXMLTV E loc channelID in
  Channels (doc ps) = [XMLTVChannel.mk channelID channelID]
  /\ Programs (doc (ps ++ qs)%list) = (Programs (doc ps) ++ Programs (doc qs))%list
  /\ List.length (Programs (doc ps)) = List.length ps
  /\ map XMLTVProgram.Title (Programs (doc ps)) = map EPGProgram.Name ps
  /\ map XMLTVProgram.Desc (Programs (doc ps)) = map EPGProgram.Desc ps
  /\ map XMLTVProgram.Category (Programs (doc ps)) = map EPGProgram.Category ps.
Proof.
  intros doc. unfold doc. rewrite !buildXMLTV_eq. cbn [Channels Programs].
  split; [reflexivity|]. split; [apply map_app|]. split; [apply length_map|].
  rewrite !map_map. repeat split.
Qed.

(** X10. The fourteen digits of a stamp are the wall clock of the zone:
    for an instant [sec] at which the location is [off] seconds east of
    UTC, the stamp is [wall ++ " " ++ offset] where [wall] is what UTC
    shows at [sec + off], that is, the stamp in UTC of the shifted
    instant without its [+0000]. *)
Theorem stamp_is_wall_clock local loc sec off :
  Int64.in_range sec ->
  Int64.in_range (sec + off) ->
  Time.lookup loc sec = off ->
  exists wall,
    Time.formatStamp (Time.In (Time.Unix local sec) loc)
    = wall ++ " " ++ Time.formatNumTZ off
    /\ Time.formatStamp (Time.In (Time.Unix local (sec + off)) Time.UTC)
       = wall ++ " +0000".
Proof.
  intros Hs Hso Hl.
  assert (Habs : Time.abs (Time.In (Time.Unix local sec) loc)
                 = Time.abs (Time.In (Time.Unix local (sec + off)) Time.UTC)).
  { unfold Time.abs, Time.offsetOf. cbn [Time.loc Time.In].
    rewrite !unixSec_instant by assumption. rewrite Hl.
    change (Time.lookup Time.UTC (sec + off)) with 0.
    unfold Int64.add at 2 4. rewrite Z.add_0_r.
    rewrite (wrap_in_range (sec + off) Hso). reflexivity. }
  rewrite !formatStamp_pieces. rewrite <- Habs.
  unfold Time.offsetOf. cbn [Time.loc Time.In].
  rewrite !unixSec_instant by assumption. rewrite Hl.
  change (Time.lookup Time.UTC (sec + off)) with 0.
  change (Time.formatNumTZ 0) with "+0000".
  set (a := Time.abs (Time.In (Time.Unix local sec) loc)).
  exists (appendInt (fst (Time.yearDay a)) 4
          ++ appendInt (fst (monthDayOf a)) 2 ++ appendInt (snd (monthDayOf a)) 2
          ++ appendInt (fst (fst (Time.absClock a))) 2
          ++ appendInt (snd (fst (Time.absClock a))) 2
          ++ appendInt (snd (Time.absClock a)) 2).
  rewrite !append_assoc. split; reflexivity.
Qed.

Lemma stamp_is_wall_clock_witness :
  exists wall,
    Time.formatStamp (Time.In (Time.Unix Time.UTC 1700000000) Sample.NewYork)
    = wall ++ " -0500"
    /\ Time.formatStamp (Time.In (Time.Unix Time.UTC 1699982000) Time.UTC)
       = wall ++ " +0000".
Proof.
  destruct (stamp_is_wall_clock Time.UTC Sample.NewYork 1700000000 (-18000))
    as (wall & H1 & H2);
    [vm_compute; split; discriminate | vm_compute; split; discriminate | reflexivity |].
  exists wall. split; [exact H1 | exact H2].
Defined.

(* ---------- query escaping ---------- *)













(* ---------- request headers ---------- *)

(** X12. Which requests carry which credentials.  The handshake and both
    probe requests carry the STB cookie and no Authorization header;
    the channels, create_link and get_epg requests carry the cookie and
    [Authorization: Bearer <token>].  Accept-Encoding: gzip is set by
    the gzip probe always and by GetChannels exactly when SupportsGzip
    is set; the handshake and create_link requests identify as the STB
    user agent. *)
Theorem request_credentials E c channelCmd channelID req :
  let header := Http.Get (Http.ReqHeader req) in
  (handshakeRequest E c = Some req ->
   header "Authorization" = EmptyString /\ header "Cookie" = cookie c
   /\ header "User-Agent" = userAgent)
  /\ (gzipProbeRequest E c = Some req ->
      header "Authorization" = EmptyString /\ header "Cookie" = cookie c
      /\ header "Accept-Encoding" = "gzip")
  /\ (linkProbeRequest E c = Some req ->
      header "Authorization" = EmptyString /\ header "Cookie" = cookie c)
  /\ (channelsRequest E c = Some req ->
      header "Authorization" = "Bearer " ++ Token c /\ header "Cookie" = cookie c
      /\ header "Accept-Encoding"
         = if SupportsGzip (Config c) then "gzip" else EmptyString)
  /\ (createLinkRequest E c channelCmd = Some req ->
      header "Authorization" = "Bearer " ++ Token c /\ header "Cookie" = cookie c
      /\ header "User-Agent" = userAgent)
  /\ (epgRequest E c channelID = Some req ->
      header "Authorization" = "Bearer " ++ Token c /\ header "Cookie" = cookie c).
Proof.
  intros header. unfold header.
  unfold handshakeRequest, gzipProbeRequest, linkProbeRequest, channelsRequest,
    createLinkRequest, epgRequest, NewRequest.
  repeat match goal with |- _ /\ _ => split end;
    (destruct (urlParse E _); [|discriminate]); intros [= <-];
    repeat split; try reflexivity.
  all: destruct (SupportsGzip (Config c)); reflexivity.
Qed.

Lemma request_credentials_witness :
  option_map (fun req => Http.Get (Http.ReqHeader req) "Authorization")
    (gzipProbeRequest Sample.portal Sample.authed) = Some EmptyString
  /\ option_map (fun req => Http.Get (Http.ReqHeader req) "Authorization")
       (epgRequest Sample.portal Sample.authed "1") = Some "Bearer tok123".
Proof.
  destruct (gzipProbeRequest Sample.portal Sample.authed) as [r1|] eqn:H1;
    [|discriminate H1].
  destruct (epgRequest Sample.portal Sample.authed "1") as [r2|] eqn:H2;
    [|discriminate H2].
  destruct (request_credentials Sample.portal Sample.authed "" "1" r1)
    as (_ & Hp & _).
  destruct (request_credentials Sample.portal Sample.authed "" "1" r2)
    as (_ & _ & _ & _ & _ & He).
  cbn [option_map]. rewrite (proj1 (Hp H1)), (proj1 (He H2)). split; reflexivity.
Defined.

(* ---------- panics ---------- *)

Lemma Authenticate_no_panic E st : fst (Authenticate E st) <> Panic.
Proof.
  unfold Authenticate. run.
  destruct (handshakeRequest E (client st)) as [req|]; simpl; [|discriminate].
  destruct (roundTrip E (traffic st) req) as [msg|resp]; simpl; [discriminate|].
  destruct (Http.readJSON (Http.RespBody resp)) as [j|]; simpl; [|discriminate].
  destruct (decodeHandshake (jsonFold E) j); discriminate.
Qed.

Lemma guard_no_panic E st : fst (authenticateIfNoToken E st) <> Panic.
Proof.
  unfold authenticateIfNoToken. unfold bind at 1. unfold getClient. cbn [fst snd].
  destruct (Token (client st) =? "")%string; [apply Authenticate_no_panic|discriminate].
Qed.

(** X13. ProbeServer drops the error of http.NewRequest and sets a
    header on the result, so it panics exactly when one of its two
    requests cannot be built, and on the first one before anything is
    sent or written; Authenticate, GetChannels, GetPlaybackURL and
    GetEPG check that error and never panic. *)
Theorem ProbeServer_panics_iff E st channelCmd channelID :
  (fst (ProbeServer E st) = Panic
   <-> gzipProbeRequest E (client st) = None \/ linkProbeRequest E (client st) = None)
  /\ (gzipProbeRequest E (client st) = None -> ProbeServer E st = (Panic, st))
  /\ fst (Authenticate E st) <> Panic
  /\ fst (GetChannels E st) <> Panic
  /\ fst (GetPlaybackURL E channelCmd st) <> Panic
  /\ fst (GetEPG E channelID st) <> Panic.
Proof.
  split; [|split; [|split; [apply Authenticate_no_panic|]]].
  - destruct st as [c log]. cbn [client].
    destruct (gzipProbeRequest E c) as [req1|] eqn:H1.
    + destruct (linkProbeRequest E c) as [req2|] eqn:H2.
      * rewrite (ProbeServer_run E c log req1 req2 H1 H2). cbn [fst].
        split; [discriminate|]. intros [H|H]; discriminate.
      * split; [intros _; right; reflexivity|]. intros _.
        unfold ProbeServer. unfold bind at 1. unfold getClient. cbn [client].
        unfold bind at 1. rewrite (gzipTrial_run E c _ req1 H1).
        unfold bind at 1. unfold linkTrial. rewrite H2. reflexivity.
    + split; [intros _; left; reflexivity|]. intros _.
      unfold ProbeServer. unfold bind at 1. unfold getClient. cbn [client].
      unfold bind at 1. unfold gzipTrial. rewrite H1. reflexivity.
  - intros H1. destruct st as [c log]. cbn [client] in H1.
    unfold ProbeServer. unfold bind at 1. unfold getClient. cbn [client].
    unfold bind at 1. unfold gzipTrial. rewrite H1. reflexivity.
  - assert (Hg := guard_no_panic E st).
    split; [|split].
    + unfold GetChannels. unfold bind at 1.
      destruct (authenticateIfNoToken E st) as [[[]|e|] st1]; cbn [fst] in *;
        [|discriminate|contradiction]. clear Hg. run.
      destruct (channelsRequest E (client st1)) as [req|]; simpl; [|discriminate].
      destruct (roundTrip E (traffic st1) req) as [msg|resp]; simpl; [discriminate|].
      destruct (SupportsGzip (Config (client st1))
                && (Http.Get (Http.RespHeader resp) "Content-Encoding" =? "gzip")%string);
        simpl.
      * destruct (Http.gzipNewReader (Http.RespBody resp)) as [gz|]; simpl;
          [|discriminate].
        destruct (Http.readJSON gz) as [j|]; simpl; [|discriminate].
        destruct (decodeChannelList (jsonFold E) j); discriminate.
      * destruct (Http.readJSON (Http.RespBody resp)) as [j|]; simpl; [|discriminate].
        destruct (decodeChannelList (jsonFold E) j); discriminate.
    + unfold GetPlaybackURL. unfold bind at 1. unfold getClient. cbn [fst snd].
      destruct (negb (RequiresCreateLink (Config (client st)))); [discriminate|].
      unfold bind at 1.
      destruct (authenticateIfNoToken E st) as [[[]|e|] st1]; cbn [fst] in *;
        [|discriminate|contradiction]. clear Hg. run.
      destruct (createLinkRequest E (client st1) channelCmd) as [req|]; simpl;
        [|discriminate].
      destruct (roundTrip E (traffic st1) req) as [msg|resp]; simpl; [discriminate|].
      destruct (Http.readJSON (Http.RespBody resp)) as [j|]; simpl; [|discriminate].
      destruct (decodeCreateLink (jsonFold E) j); discriminate.
    + unfold GetEPG. unfold bind at 1.
      destruct (authenticateIfNoToken E st) as [[[]|e|] st1]; cbn [fst] in *;
        [|discriminate|contradiction]. clear Hg. run.
      destruct (epgRequest E (client st1) channelID) as [req|]; simpl; [|discriminate].
      destruct (roundTrip E (traffic st1) req) as [msg|resp]; simpl; [discriminate|].
      destruct (Http.readJSON (Http.RespBody resp)) as [j|]; simpl; [|discriminate].
      destruct (decodeEPG (jsonFold E) j); simpl; [|discriminate].
      destruct (LoadLocation E (Timezone (client st1))); discriminate.
Qed.

(* ---------- decoding a channel list ---------- *)

Lemma decElems_fresh {T} (d : Json.Value -> T -> option T) zero l xs :
  Json.decElems d zero l [] = Some xs ->
  List.length xs = List.length l
  /\ forall i e, nth_error l i = Some e -> d e zero = nth_error xs i.
Proof.
  revert xs. induction l as [|e l IH]; simpl; intros xs.
  - intros [= <-]. split; [reflexivity|]. intros [|i] e H; discriminate.
  - destruct (d e zero) as [x|] eqn:He; [|discriminate].
    destruct (Json.decElems d zero l []) as [ys|] eqn:Hl; [|discriminate].
    intros [= <-]. destruct (IH ys eq_refl) as [Hlen Hnth].
    split; [simpl; congruence|].
    intros [|i] e' H; simpl in *.
    + injection H as <-. exact He.
    + apply Hnth. exact H.
Qed.

Lemma decElems_fresh_none {T} (d : Json.Value -> T -> option T) zero l :
  Json.decElems d zero l [] = None <-> exists e, In e l /\ d e zero = None.
Proof.
  induction l as [|e l IH]; simpl.
  - split; [discriminate|]. intros (e & [] & _).
  - destruct (d e zero) as [x|] eqn:He.
    + destruct (Json.decElems d zero l []) as [ys|] eqn:Hl.
      * split; [discriminate|]. intros (e' & [<-|Hin] & Hn); [congruence|].
        assert (Hc : Some ys = None) by (apply (proj2 IH); exists e'; split; assumption).
        discriminate Hc.
      * split; [|reflexivity]. intros _. destruct (proj1 IH eq_refl) as (e' & Hin & Hn).
        exists e'. split; [right; exact Hin | exact Hn].
    + split; [|reflexivity]. intros _. exists e. split; [left; reflexivity | exact He].
Qed.

(** X14. Decoding a channel list [{"js":{"channels":[e1,...,en]}}] into a
    fresh ChannelListResponse yields exactly n channels, the i-th being
    the i-th element decoded on its own into a zero Channel; the
    decoding fails exactly when some element does not decode as a
    Channel. *)
Theorem decodeChannelList_elements fold l :
  (forall r,
      decodeChannelList fold (channelsEnvelope l) = Some r ->
      let channels := ChannelListResponse.Channels (ChannelListResponse.Js r) in
      List.length channels = List.length l
      /\ forall i e,
           nth_error l i = Some e ->
           Json.decStruct (setChannel fold) e Channel.zero = nth_error channels i)
  /\ (decodeChannelList fold (channelsEnvelope l) = None
      <-> exists e, In e l /\ Json.decStruct (setChannel fold) e Channel.zero = None).
Proof.
  assert (Hd : exists spare,
             decodeChannelList fold (channelsEnvelope l)
             = option_map
                 (fun xs => ChannelListResponse.mk (ChannelListResponse.mkJs xs spare))
                 (Json.decElems (Json.decStruct (setChannel fold)) Channel.zero l [])).
  { unfold decodeChannelList, channelsEnvelope.
    destruct l as [|e l]; [exists []; reflexivity|].
    exists (skipn (List.length (e :: l)) []).
    cbn -[Json.decElems skipn List.length].
    destruct (Json.decElems (Json.decStruct (setChannel fold)) Channel.zero (e :: l) []);
      reflexivity. }
  destruct Hd as [spare Hd]. rewrite Hd. split.
  - intros r. destruct (Json.decElems _ _ l []) as [xs|] eqn:Hx; [|discriminate].
    intros [= <-]. cbn. apply decElems_fresh. exact Hx.
  - rewrite <- decElems_fresh_none.
    destruct (Json.decElems _ _ l []); simpl; split; congruence.
Qed.

Lemma decodeChannelList_elements_witness :
  exists r,
    decodeChannelList Sample.upper Sample.channelsJSON = Some r
    /\ List.length (ChannelListResponse.Channels (ChannelListResponse.Js r)) = 1%nat.
Proof.
  destruct (decodeChannelList Sample.upper Sample.channelsJSON) as [r|] eqn:Hd;
    [|discriminate Hd].
  destruct (decodeChannelList_elements Sample.upper
              [Json.JObject [("id", Json.JString "1"); ("name", Json.JString "A");
                             ("cmd", Json.JString "http://x");
                             ("logo", Json.JString "/l.png")]]) as [H _].
  exists r. split; [reflexivity|]. exact (proj1 (H r Hd)).
Defined.

(* ---------- DownloadChannelLogo ---------- *)

Lemma save_net L outputDir filenameFormat channel resp st :
  Logo.net (snd (Logo.save L outputDir filenameFormat channel resp st)) = Logo.net st.
Proof.
  unfold Logo.save.
  destruct (Logo.fsError L (Logo.disk st) _); [reflexivity|]. cbn [Logo.disk Logo.net].
  destruct (Logo.fsError L _ (Logo.Create _)); [reflexivity|]. cbn [Logo.disk Logo.net].
  destruct (Logo.fsError L _ (Logo.Copy _ _)); reflexivity.
Qed.

Lemma save_success L outputDir filenameFormat channel resp st st' :
  Logo.save L outputDir filenameFormat channel resp st = (None, st') ->
  Logo.disk st'
  = (Logo.disk st
     ++ [(Logo.MkdirAll outputDir 493, None);
         (Logo.Create
            (Logo.join L outputDir
               (Logo.sprintf L filenameFormat (Channel.ID channel) (Channel.Name channel))),
          None);
         (Logo.Copy
            (Logo.join L outputDir
               (Logo.sprintf L filenameFormat (Channel.ID channel) (Channel.Name channel)))
            (Http.RespBody resp), None)])%list.
Proof.
  unfold Logo.save.
  destruct (Logo.fsError L (Logo.disk st) _) eqn:H1; [discriminate|].
  cbn [Logo.disk Logo.net].
  destruct (Logo.fsError L _ (Logo.Create _)) eqn:H2; [discriminate|].
  cbn [Logo.disk Logo.net].
  destruct (Logo.fsError L _ (Logo.Copy _ _)) eqn:H3; [discriminate|].
  intros [= <-]. cbn. rewrite <- !app_assoc. reflexivity.
Qed.

Lemma sent_nothing (net : list Http.Exchange) :
  exists rest,
    net = (net ++ rest)%list /\ (List.length rest <= 1)%nat
    /\ forall x, In x rest ->
                 Http.Method (fst x) = "GET" /\ Http.ReqHeader (fst x) = [].
Proof.
  exists []. rewrite app_nil_r. split; [reflexivity|]. split; [simpl; lia|].
  intros x [].
Qed.

(** X15. DownloadChannelLogo checks before it acts: an empty logo URL is
    refused with [no logo URL provided for channel <name>] and an
    unparsable one is refused too, both without any request or file
    operation; every run sends at most one request, a GET without
    headers (no cookie, no token); and the file system is touched only
    after a response has been served. *)
Theorem DownloadChannelLogo_order_of_effects E L c logoURL outputDir filenameFormat
    channel st :
  let run := Logo.DownloadChannelLogo E L c logoURL outputDir filenameFormat channel st in
  (logoURL = EmptyString ->
   run = (Some (Logo.NoLogoURL (Channel.Name channel)), st))
  /\ (urlParse E logoURL = false ->
      Logo.net (snd run) = Logo.net st /\ Logo.disk (snd run) = Logo.disk st)
  /\ (exists rest,
        Logo.net (snd run) = (Logo.net st ++ rest)%list
        /\ (List.length rest <= 1)%nat
        /\ forall x, In x rest ->
                     Http.Method (fst x) = "GET" /\ Http.ReqHeader (fst x) = [])
  /\ (Logo.disk (snd run) = Logo.disk st
      \/ exists req resp,
           Logo.net (snd run) = (Logo.net st ++ [(req, Http.Served resp)])%list).
Proof.
  intros run. unfold run, Logo.DownloadChannelLogo.
  split; [intros ->; reflexivity|].
  destruct (String.eqb logoURL EmptyString).
  { split; [intros _; split; reflexivity|]. split; [apply sent_nothing|left; reflexivity]. }
  destruct (urlParse E logoURL); cbn [negb].
  2:{ split; [intros _; split; reflexivity|].
      split; [apply sent_nothing|left; reflexivity]. }
  split; [discriminate|].
  destruct (Logo.fullLogoURL E L c logoURL) as [raw|].
  2:{ split; [apply sent_nothing|left; reflexivity]. }
  unfold NewRequest. destruct (urlParse E (Logo.urlString L raw)).
  2:{ split; [apply sent_nothing|left; reflexivity]. }
  destruct (roundTrip E (Logo.net st) _) as [msg|resp] eqn:Hr.
  - split; [|left; reflexivity].
    eexists. split; [reflexivity|]. split; [simpl; lia|].
    intros x [<-|[]]. split; reflexivity.
  - rewrite save_net. cbn [Logo.net]. split.
    + eexists. split; [reflexivity|]. split; [simpl; lia|].
      intros x [<-|[]]. split; reflexivity.
    + right. eexists _, resp. reflexivity.
Qed.

Lemma DownloadChannelLogo_order_of_effects_witness :
  Logo.DownloadChannelLogo Sample.portal MoreSamples.lib Sample.fresh
    EmptyString "logos" "%s_%s.png" MoreSamples.channel MoreSamples.start
  = (Some (Logo.NoLogoURL "A"), MoreSamples.start).
Proof.
  destruct (DownloadChannelLogo_order_of_effects Sample.portal MoreSamples.lib
              Sample.fresh EmptyString "logos" "%s_%s.png" MoreSamples.channel
              MoreSamples.start) as (H & _).
  exact (H eq_refl).
Defined.

(** X16. A nil error of DownloadChannelLogo means: exactly one GET was
    sent, to the logo URL itself when it is absolute and to
    PortalURL/stalker_portal<logoURL> otherwise, a response was served,
    and then MkdirAll(outputDir, 0755), Create of
    Join(outputDir, Sprintf(filenameFormat, channel.ID, channel.Name))
    and Copy of the response body into that file were performed in this
    order and all succeeded.  The status of the response plays no part:
    the body of a 404 is saved like any other. *)
Theorem DownloadChannelLogo_success E L c logoURL outputDir filenameFormat channel
    st st' :
  Logo.DownloadChannelLogo E L c logoURL outputDir filenameFormat channel st
  = (None, st') ->
  let raw := if Logo.isAbs L logoURL then logoURL
             else PortalURL c ++ "/stalker_portal" ++ logoURL in
  let f := Logo.join L outputDir
             (Logo.sprintf L filenameFormat (Channel.ID channel) (Channel.Name channel)) in
  exists resp,
    Logo.net st'
    = (Logo.net st
       ++ [(Http.mkRequest "GET" (Logo.urlString L raw) [], Http.Served resp)])%list
    /\ Logo.disk st'
       = (Logo.disk st
          ++ [(Logo.MkdirAll outputDir 493, None); (Logo.Create f, None);
              (Logo.Copy f (Http.RespBody resp), None)])%list.
Proof.
  unfold Logo.DownloadChannelLogo, Logo.fullLogoURL.
  destruct (String.eqb logoURL EmptyString); [discriminate|].
  destruct (urlParse E logoURL); cbn [negb]; [|discriminate].
  intros H. cbv zeta.
  destruct (Logo.isAbs L logoURL).
  - unfold NewRequest in H.
    destruct (urlParse E (Logo.urlString L logoURL)); [|discriminate].
    destruct (roundTrip E (Logo.net st) _) as [msg|resp] eqn:Hr; [discriminate|].
    exists resp. split.
    + apply (f_equal (fun p => Logo.net (snd p))) in H. rewrite save_net in H.
      cbn in H. symmetry. exact H.
    + apply save_success in H. exact H.
  - destruct (urlParse E (PortalURL c ++ "/stalker_portal" ++ logoURL)); [|discriminate].
    unfold NewRequest in H.
    destruct (urlParse E (Logo.urlString L _)); [|discriminate].
    destruct (roundTrip E (Logo.net st) _) as [msg|resp] eqn:Hr; [discriminate|].
    exists resp. split.
    + apply (f_equal (fun p => Logo.net (snd p))) in H. rewrite save_net in H.
      cbn in H. symmetry. exact H.
    + apply save_success in H. exact H.
Qed.

Lemma DownloadChannelLogo_success_witness :
  exists st',
    Logo.DownloadChannelLogo MoreSamples.portal404 MoreSamples.lib Sample.fresh
      "/l.png" "logos" "%s_%s.png" MoreSamples.channel MoreSamples.start
    = (None, st')
    /\ map (fun x => Http.URL (fst x)) (Logo.net st')
       = ["http://example.com/stalker_portal/l.png"]
    /\ map fst (Logo.disk st')
       = [Logo.MkdirAll "logos" 493; Logo.Create "logos/1_A.png";
          Logo.Copy "logos/1_A.png" (Http.Plain None)].
Proof.
  set (st' := snd (Logo.DownloadChannelLogo MoreSamples.portal404 MoreSamples.lib
                     Sample.fresh "/l.png" "logos" "%s_%s.png" MoreSamples.channel
                     MoreSamples.start)).
  assert (Hrun : Logo.DownloadChannelLogo MoreSamples.portal404 MoreSamples.lib
                   Sample.fresh "/l.png" "logos" "%s_%s.png" MoreSamples.channel
                   MoreSamples.start = (None, st')) by reflexivity.
  destruct (DownloadChannelLogo_success _ _ _ _ _ _ _ _ _ Hrun) as (resp & Hn & Hd).
  exists st'. split; [exact Hrun|]. split; reflexivity.
Defined.

(* ---------- a failed handshake ---------- *)

Lemma Authenticate_error_inv E st e st1 :
  Authenticate E st = (Err e, st1) ->
  client st1 = client st
  /\ (handshakeRequest E (client st) = None -> st1 = st)
  /\ (forall req, handshakeRequest E (client st) = Some req ->
        traffic st1 = (traffic st ++ [(req, roundTrip E (traffic st) req)])%list).
Proof.
  unfold Authenticate. run.
  destruct (handshakeRequest E (client st)) as [req|]; simpl.
  - destruct (roundTrip E (traffic st) req) as [msg|resp] eqn:Hr; simpl.
    + intros [= _ <-]. split; [reflexivity|]. split; [discriminate|].
      intros req' [= <-]. rewrite Hr. reflexivity.
    + destruct (Http.readJSON (Http.RespBody resp)) as [j|]; simpl.
      * destruct (decodeHandshake (jsonFold E) j); simpl; [discriminate|].
        intros [= _ <-]. split; [reflexivity|]. split; [discriminate|].
        intros req' [= <-]. rewrite Hr. reflexivity.
      * intros [= _ <-]. split; [reflexivity|]. split; [discriminate|].
        intros req' [= <-]. rewrite Hr. reflexivity.
  - intros [= _ <-]. destruct st. split; [reflexivity|]. split; [reflexivity|].
    discriminate.
Qed.

Lemma guard_error E st e st1 :
  Token (client st) = EmptyString ->
  Authenticate E st = (Err e, st1) ->
  authenticateIfNoToken E st = (Err e, st1).
Proof.
  intros Ht Ha. unfold authenticateIfNoToken. unfold bind at 1. unfold getClient.
  cbn [fst snd]. rewrite Ht. cbn [String.eqb]. exact Ha.
Qed.

(** X17. The guard returns the error of Authenticate as it is: when a
    client without token calls GetChannels, GetEPG or (with
    RequiresCreateLink set) GetPlaybackURL and the handshake fails, the
    call returns that very error, not wrapped again, in the state
    Authenticate left.  The client is unchanged, the handshake (when it
    could be built) is the only exchange added, and the operation's own
    request is never sent. *)
Theorem handshake_failure_propagates E st e st1 channelCmd channelID :
  Token (client st) = EmptyString ->
  Authenticate E st = (Err e, st1) ->
  GetChannels E st = (@Err (list Channel.t) e, st1)
  /\ GetEPG E channelID st = (@Err (list EPGProgram.t) e, st1)
  /\ (RequiresCreateLink (Config (client st)) = true ->
      GetPlaybackURL E channelCmd st = (@Err string e, st1))
  /\ client st1 = client st
  /\ (forall req, handshakeRequest E (client st) = Some req ->
        traffic st1 = (traffic st ++ [(req, roundTrip E (traffic st) req)])%list).
Proof.
  intros Ht Ha. pose proof (guard_error E st e st1 Ht Ha) as Hg.
  destruct (Authenticate_error_inv E st e st1 Ha) as (Hc & _ & Hlog).
  split; [|split; [|split; [|split; [exact Hc | exact Hlog]]]].
  - unfold GetChannels. unfold bind at 1. rewrite Hg. reflexivity.
  - unfold GetEPG. unfold bind at 1. rewrite Hg. reflexivity.
  - intros Hreq. unfold GetPlaybackURL. unfold bind at 1. unfold getClient.
    cbn [fst snd]. rewrite Hreq. cbn [negb]. unfold bind at 1. rewrite Hg. reflexivity.
Qed.

Lemma handshake_failure_propagates_witness :
  exists e st1,
    GetChannels Sample.deadPortal (mkState Sample.fresh []) = (Err e, st1)
    /\ GetEPG Sample.deadPortal "1" (mkState Sample.fresh []) = (Err e, st1)
    /\ List.length (traffic st1) = 1%nat.
Proof.
  destruct (Authenticate Sample.deadPortal (mkState Sample.fresh []))
    as [[[]|e|] st1] eqn:Ha; try discriminate Ha.
  destruct (handshake_failure_propagates Sample.deadPortal (mkState Sample.fresh [])
              e st1 "x" "1" eq_refl Ha) as (H1 & H2 & _ & _ & _).
  exists e, st1. split; [exact H1|]. split; [exact H2|].
  injection Ha as _ <-. reflexivity.
Defined.

(* ---------- the first call of a new client ---------- *)

(** X18. The first calls of a client made by NewStalkerClient.
    GetPlaybackURL returns its argument without any traffic, since no
    capability has been probed.  GetChannels sends the handshake,
    without Authorization header, and, when the answer decodes, then
    sends the channels request carrying [Bearer <token>] with the token
    just decoded and no Accept-Encoding; these two exchanges are the
    whole traffic of the call, and the client ends with that token
    whatever the second answer is. *)
Theorem new_client_first_call E portalURL mac timezone channelCmd log hs resp j
    response req :
  let c := NewStalkerClient portalURL mac timezone in
  let tok := HandshakeResponse.Token (HandshakeResponse.Js response) in
  let log1 := (log ++ [(hs, Http.Served resp)])%list in
  handshakeRequest E c = Some hs ->
  roundTrip E log hs = Http.Served resp ->
  Http.readJSON (Http.RespBody resp) = Some j ->
  decodeHandshake (jsonFold E) j = Some response ->
  channelsRequest E (setToken c tok) = Some req ->
  GetPlaybackURL E channelCmd (mkState c log) = (Ok channelCmd, mkState c log)
  /\ traffic (snd (GetChannels E (mkState c log)))
     = (log1 ++ [(req, roundTrip E log1 req)])%list
  /\ client (snd (GetChannels E (mkState c log))) = setToken c tok
  /\ Http.Get (Http.ReqHeader hs) "Authorization" = EmptyString
  /\ Http.Get (Http.ReqHeader req) "Authorization" = "Bearer " ++ tok
  /\ Http.Get (Http.ReqHeader req) "Accept-Encoding" = EmptyString.
Proof.
  intros c tok log1 Hq Hr Hj Hd Hreq.
  split; [reflexivity|].
  assert (Hg : authenticateIfNoToken E (mkState c log)
               = (Ok tt, mkState (setToken c tok) log1)).
  { unfold authenticateIfNoToken. unfold bind at 1. unfold getClient.
    cbn [fst snd client]. change (Token c) with EmptyString. cbn [String.eqb].
    rewrite (Authenticate_ok E c log hs resp j response Hq Hr Hj Hd). reflexivity. }
  assert (Hrun : exists o,
            GetChannels E (mkState c log)
            = (o, mkState (setToken c tok) (log1 ++ [(req, roundTrip E log1 req)]))).
  { unfold GetChannels. unfold bind at 1. rewrite Hg. run.
    change (mkStalkerClient portalURL mac timezone tok (mkServerConfig false false))
      with (setToken c tok).
    rewrite Hreq. simpl.
    destruct (roundTrip E log1 req) as [msg|r]; [eexists; reflexivity|]. simpl.
    destruct (Http.readJSON (Http.RespBody r)) as [j'|]; simpl; [|eexists; reflexivity].
    destruct (decodeChannelList (jsonFold E) j'); eexists; reflexivity. }
  destruct Hrun as [o Hrun]. rewrite Hrun. cbn [snd traffic client].
  split; [reflexivity|]. split; [reflexivity|].
  revert Hq Hreq. unfold handshakeRequest, channelsRequest, NewRequest.
  destruct (urlParse E _); [|discriminate]. intros [= <-].
  destruct (urlParse E _); [|discriminate]. intros [= <-].
  repeat split.
Qed.

Lemma new_client_first_call_witness :
  map (fun x => Http.Get (Http.ReqHeader (fst x)) "Authorization")
    (traffic (snd (GetChannels Sample.portal
                     (mkState (NewStalkerClient "http://example.com"
                                 "00:1A:79:18:05:75" "UTC") []))))
  = [EmptyString; "Bearer tok123"].
Proof.
  edestruct (new_client_first_call Sample.portal "http://example.com"
               "00:1A:79:18:05:75" "UTC" "x" []) as (_ & Ht & _ & Hh & Hb & _);
    [reflexivity | reflexivity | reflexivity | reflexivity | reflexivity |].
  refine (eq_trans (f_equal (map _) Ht) _).
  rewrite map_app. cbn [map fst app]. rewrite Hh, Hb. reflexivity.
Defined.

(* ---------- what a failed download leaves behind ---------- *)

(** X19. DownloadChannelLogo does not clean up.  Each error tells how far
    the run came and what it left behind: the errors of validation and
    of request construction leave the state unchanged; a transport
    failure leaves the failed exchange in the log and the disk
    untouched; a failure of MkdirAll, Create or Copy comes after the
    download and leaves the operations performed so far in place, the
    directory when Create fails, directory and file when Copy fails.
    The file name an error reports is the joined path. *)
Theorem DownloadChannelLogo_failure_traces E L c logoURL outputDir filenameFormat
    channel st e st' :
  Logo.DownloadChannelLogo E L c logoURL outputDir filenameFormat channel st
  = (Some e, st') ->
  let f := Logo.join L outputDir
             (Logo.sprintf L filenameFormat (Channel.ID channel) (Channel.Name channel)) in
  let served := exists req resp,
                  Logo.net st' = (Logo.net st ++ [(req, Http.Served resp)])%list in
  match e with
  | Logo.NoLogoURL _ | Logo.InvalidLogoURL _ | Logo.ConstructFailed => st' = st
  | Logo.DownloadFailed _ UrlError => st' = st
  | Logo.DownloadFailed target (TransportError msg) =>
      Logo.disk st' = Logo.disk st
      /\ Logo.net st'
         = (Logo.net st
            ++ [(Http.mkRequest "GET" target [], Http.Failed msg)])%list
  | Logo.DownloadFailed _ _ => False
  | Logo.MkdirFailed dir msg =>
      dir = outputDir /\ served
      /\ Logo.disk st'
         = (Logo.disk st ++ [(Logo.MkdirAll outputDir 493, Some msg)])%list
  | Logo.CreateFailed name msg =>
      name = f /\ served
      /\ Logo.disk st'
         = (Logo.disk st
            ++ [(Logo.MkdirAll outputDir 493, None); (Logo.Create f, Some msg)])%list
  | Logo.SaveFailed name msg =>
      name = f
      /\ exists req resp,
           Logo.net st' = (Logo.net st ++ [(req, Http.Served resp)])%list
           /\ Logo.disk st'
              = (Logo.disk st
                 ++ [(Logo.MkdirAll outputDir 493, None); (Logo.Create f, None);
                     (Logo.Copy f (Http.RespBody resp), Some msg)])%list
  end.
Proof.
  unfold Logo.DownloadChannelLogo.
  destruct (String.eqb logoURL EmptyString); [intros [= <- <-]; reflexivity|].
  destruct (urlParse E logoURL); cbn [negb]; [|intros [= <- <-]; reflexivity].
  destruct (Logo.fullLogoURL E L c logoURL) as [raw|]; [|intros [= <- <-]; reflexivity].
  unfold NewRequest. destruct (urlParse E (Logo.urlString L raw));
    [|intros [= <- <-]; reflexivity].
  destruct (roundTrip E (Logo.net st) _) as [msg|resp] eqn:Hr.
  { intros [= <- <-]. cbn. split; reflexivity. }
  unfold Logo.save. cbn [Logo.net Logo.disk].
  destruct (Logo.fsError L (Logo.disk st) _) as [m1|] eqn:H1.
  { intros [= <- <-]. cbn. split; [reflexivity|]. split; [eexists _, _; reflexivity|].
    reflexivity. }
  destruct (Logo.fsError L _ (Logo.Create _)) as [m2|] eqn:H2.
  { intros [= <- <-]. cbn. split; [reflexivity|]. split; [eexists _, _; reflexivity|].
    rewrite <- app_assoc. reflexivity. }
  destruct (Logo.fsError L _ (Logo.Copy _ _)) as [m3|] eqn:H3; [|discriminate].
  intros [= <- <-]. cbn. split; [reflexivity|]. eexists _, resp.
  split; [reflexivity|]. rewrite <- !app_assoc. reflexivity.
Qed.

Lemma DownloadChannelLogo_failure_traces_witness :
  exists st',
    Logo.DownloadChannelLogo MoreSamples.portal404 MoreSamples.fullDisk Sample.fresh
      "/l.png" "logos" "%s_%s.png" MoreSamples.channel MoreSamples.start
    = (Some (Logo.CreateFailed "logos/1_A.png" "no space left on device"), st')
    /\ List.length (Logo.net st') = 1%nat
    /\ Logo.disk st'
       = [(Logo.MkdirAll "logos" 493, None);
          (Logo.Create "logos/1_A.png", Some "no space left on device")].
Proof.
  eexists. split; [reflexivity|].
  pose proof (DownloadChannelLogo_failure_traces MoreSamples.portal404 MoreSamples.fullDisk
                Sample.fresh "/l.png" "logos" "%s_%s.png" MoreSamples.channel
                MoreSamples.start _ _ eq_refl) as H.
  destruct H as (_ & (req & resp & Hn) & Hd).
  split; [rewrite Hn; reflexivity | exact Hd].
Defined.

(* ---------- markup ---------- *)

Lemma occurrences_concat b l :
  occurrences b (String.concat EmptyString l) = list_sum (map (occurrences b) l).
Proof.
  induction l as [|x l IH]; [reflexivity|].
  destruct l as [|y l].
  - simpl. lia.
  - change (String.concat EmptyString (x :: y :: l))
      with (x ++ String.concat EmptyString (y :: l)).
    rewrite occurrences_app, IH. reflexivity.
Qed.

Lemma list_sum_const {A} (f : A -> nat) k l :
  (forall a, f a = k) -> list_sum (map f l) = (k * List.length l)%nat.
Proof.
  intros H. induction l as [|a l IH]; simpl; [lia|]. rewrite H, IH. lia.
Qed.

Lemma channel_markup b id name :
  delimiter b ->
  occurrences b (Xml.element "channel" [("id", id)] [("display-name", name)])
  = channelMarkup b.
Proof.
  intros Hb. unfold Xml.element, Xml.leaf.
  cbn [Xml.attrs map String.concat fst snd].
  rewrite !occurrences_app, !(EscapeText_clean b _ Hb).
  destruct Hb as [-> | [-> | ->]]; reflexivity.
Qed.

Lemma programme_markup b start stop channel title desc category :
  delimiter b ->
  occurrences b
    (Xml.element "programme" [("start", start); ("stop", stop); ("channel", channel)]
       [("title", title); ("desc", desc); ("category", category)])
  = programmeMarkup b.
Proof.
  intros Hb. unfold Xml.element, Xml.leaf.
  cbn [Xml.attrs map String.concat fst snd].
  rewrite !occurrences_app, !(EscapeText_clean b _ Hb).
  destruct Hb as [-> | [-> | ->]]; reflexivity.
Qed.

Lemma MarshalIndent_markup b channels programs :
  delimiter b ->
  channels <> [] ->
  occurrences b (MarshalIndent (mkXMLTV channels programs))
  = (rootMarkup b + channelMarkup b * List.length channels
     + programmeMarkup b * List.length programs)%nat.
Proof.
  intros Hb Hne. unfold MarshalIndent. cbn [Channels Programs].
  set (cs := map _ channels). set (ps := map _ programs).
  assert (Hsep : match (cs ++ ps)%list with
                 | [] => EmptyString
                 | _ => Xml.newline
                 end = Xml.newline)
    by (unfold cs; destruct channels; [contradiction | reflexivity]).
  rewrite Hsep. rewrite !occurrences_app, occurrences_concat, map_app, list_sum_app.
  unfold cs, ps. rewrite !map_map.
  rewrite (list_sum_const _ (channelMarkup b))
    by (intros a; apply channel_markup; exact Hb).
  rewrite (list_sum_const _ (programmeMarkup b))
    by (intros a; apply programme_markup; exact Hb).
  generalize (List.length channels) (List.length programs). intros n m.
  destruct Hb as [-> | [-> | ->]]; cbn; lia.
Qed.

(** X20. Texts cannot inject markup into the XMLTV document: in every
    document ConvertEPGToXMLTV returns, the numbers of [<], of [>] and
    of double quotes are those of the tags and attribute quotes the
    encoder writes itself, 6 + 8n, 6 + 8n and 2 + 6n for n entries,
    whatever the channel id and the names, descriptions, categories and
    channel ids of the entries contain. *)
Theorem ConvertEPGToXMLTV_markup E c channelID programs doc :
  ConvertEPGToXMLTV E c channelID programs = Ok doc ->
  occurrences 60 doc = (6 + 8 * List.length programs)%nat
  /\ occurrences 62 doc = (6 + 8 * List.length programs)%nat
  /\ occurrences 34 doc = (2 + 6 * List.length programs)%nat.
Proof.
  unfold ConvertEPGToXMLTV. destruct (LoadLocation E (Timezone c)) as [loc|];
    [|discriminate].
  intros [= <-]. rewrite buildXMLTV_eq.
  rewrite !MarshalIndent_markup by (first [discriminate | unfold delimiter; auto]).
  rewrite length_map. cbn. repeat split; lia.
Qed.

Lemma ConvertEPGToXMLTV_markup_witness :
  exists doc,
    ConvertEPGToXMLTV Sample.portal Sample.fresh "<7>"
      [EPGProgram.mk "7" "</title><title>News" 0 60 "a > b" "x" ] = Ok doc
    /\ occurrences 60 doc = 14%nat.
Proof.
  eexists. split; [reflexivity|].
  apply (ConvertEPGToXMLTV_markup Sample.portal Sample.fresh "<7>"
           [EPGProgram.mk "7" "</title><title>News" 0 60 "a > b" "x"] _ eq_refl).
Defined.

(* ---------- request URLs ---------- *)

(** X21. The URL of every request, as http.NewRequest receives it: the
    API address of the portal followed by the query url.Values.Encode
    produces, keys in byte order (so [JsHttpRequest] first) and values
    escaped.  The indirection probe is built from the parameter map of
    the gzip probe and so still carries [gzip=true]; GetChannels adds
    [gzip=true] exactly when SupportsGzip is set; the channel command
    and the channel id appear query-escaped.  Every request is a GET. *)
Theorem request_urls E c channelCmd channelID req :
  let api := PortalURL c ++ "/stalker_portal/server/load.php?" in
  (handshakeRequest E c = Some req ->
   Http.Method req = "GET"
   /\ Http.URL req = api ++ "JsHttpRequest=1-xml&action=handshake&type=stb")
  /\ (gzipProbeRequest E c = Some req ->
      Http.Method req = "GET"
      /\ Http.URL req
         = api ++ "JsHttpRequest=1-xml&action=get_all_channels&gzip=true&type=itv")
  /\ (linkProbeRequest E c = Some req ->
      Http.Method req = "GET"
      /\ Http.URL req
         = api ++ "JsHttpRequest=1-xml&action=create_link&cmd=test_channel&gzip=true&type=itv")
  /\ (channelsRequest E c = Some req ->
      Http.Method req = "GET"
      /\ Http.URL req
         = api ++ "JsHttpRequest=1-xml&action=get_all_channels"
               ++ (if SupportsGzip (Config c) then "&gzip=true" else EmptyString)
               ++ "&type=itv")
  /\ (createLinkRequest E c channelCmd = Some req ->
      Http.Method req = "GET"
      /\ Http.URL req
         = api ++ "JsHttpRequest=1-xml&action=create_link&cmd="
               ++ Url.QueryEscape channelCmd
               ++ "&disable_ad=0&forced_storage=undefined&type=itv")
  /\ (epgRequest E c channelID = Some req ->
      Http.Method req = "GET"
      /\ Http.URL req
         = api ++ "JsHttpRequest=1-xml&action=get_epg&ch_id="
               ++ Url.QueryEscape channelID ++ "&type=itv").
Proof.
  intros api. unfold api.
  unfold handshakeRequest, gzipProbeRequest, linkProbeRequest, channelsRequest,
    createLinkRequest, epgRequest, NewRequest, apiURL.
  repeat match goal with |- _ /\ _ => split end;
    (destruct (urlParse E _); [|discriminate]); intros [= <-];
    (split; [try reflexivity; destruct (SupportsGzip (Config c)); reflexivity|]).
  all: try destruct (SupportsGzip (Config c)).
  all: cbn [Http.URL setHeader]; rewrite !append_assoc; apply f_equal; reflexivity.
Qed.

Lemma request_urls_witness :
  option_map Http.URL (createLinkRequest Sample.portal Sample.authed "a b&c")
  = Some ("http://example.com/stalker_portal/server/load.php?"
          ++ "JsHttpRequest=1-xml&action=create_link&cmd=a+b%26c"
          ++ "&disable_ad=0&forced_storage=undefined&type=itv").
Proof.
  destruct (createLinkRequest Sample.portal Sample.authed "a b&c") as [req|] eqn:Hq;
    [|discriminate Hq].
  destruct (request_urls Sample.portal Sample.authed "a b&c" "1" req)
    as (_ & _ & _ & _ & H & _).
  cbn [option_map]. rewrite (proj2 (H Hq)). reflexivity.
Defined.
